(** * Mealie recipe and weekly-menu creator: a shallow embedding

    Model of [mealie_menu_creator.py]: the API client [MealieAPI], the menu
    processor [MealieMenuCreator] and the entry point [main], followed by the
    properties of the program that the specification states.

    Python values are modelled as the program sees them: text as sequences of
    Unicode code points, decoded JSON as a tagged union, exceptions as an
    error result, and the remote server as a function from the history of
    requests to a reply.  The progress lines that the client and the
    processor print are left out: they change no result, and writing one
    fails only for text that holds a surrogate code point. *)

From Stdlib Require Import List ZArith NArith Lia Bool String Ascii.
From Stdlib Require DecimalPos.
Import ListNotations.

Set Implicit Arguments.
Set Warnings "-register-all".

(* ================================================================== *)
(** * Python values                                                    *)
(* ================================================================== *)

(** A Python [str] is a sequence of code points. *)
Definition str := list N.

(** Literals are written as Rocq strings; the bytes of the source file are
    UTF-8 and are decoded to code points here. *)
Fixpoint utf8 (bs : list N) : str :=
  match bs with
  | [] => []
  | b :: t =>
      if (b <? 128)%N then b :: utf8 t
      else if (b <? 224)%N then
        match t with
        | c1 :: t1 => ((b mod 32) * 64 + c1 mod 64)%N :: utf8 t1
        | _ => []
        end
      else if (b <? 240)%N then
        match t with
        | c1 :: c2 :: t2 =>
            ((b mod 16) * 4096 + (c1 mod 64) * 64 + c2 mod 64)%N :: utf8 t2
        | _ => []
        end
      else
        match t with
        | c1 :: c2 :: c3 :: t3 =>
            ((b mod 8) * 262144 + (c1 mod 64) * 4096
             + (c2 mod 64) * 64 + c3 mod 64)%N :: utf8 t3
        | _ => []
        end
  end.

Definition lit (s : string) : str :=
  utf8 (map N_of_ascii (list_ascii_of_string s)).

Definition str_eqb (a b : str) : bool :=
  if list_eq_dec N.eq_dec a b then true else false.

(** [str.isspace] for one code point; [str.strip] and the regular
    expression class [\s] both use this predicate. *)
Definition isspace (c : N) : bool :=
  ((9 <=? c) && (c <=? 13) || (28 <=? c) && (c <=? 32)
   || (c =? 133) || (c =? 160) || (c =? 5760)
   || (8192 <=? c) && (c <=? 8202)
   || (c =? 8232) || (c =? 8233) || (c =? 8239) || (c =? 8287)
   || (c =? 12288))%N.

Fixpoint lstrip (s : str) : str :=
  match s with
  | c :: t => if isspace c then lstrip t else s
  | [] => []
  end.

Definition rstrip (s : str) : str := rev (lstrip (rev s)).

(** [s.strip()] *)
Definition strip (s : str) : str := rstrip (lstrip s).

Fixpoint startswith (p s : str) : bool :=
  match p, s with
  | [], _ => true
  | a :: p', b :: s' => (a =? b)%N && startswith p' s'
  | _ :: _, [] => false
  end.

(** [p in s] for two strings: [p] occurs as a contiguous substring of [s]. *)
Fixpoint contains (s p : str) : bool :=
  startswith p s ||
  match s with
  | [] => false
  | _ :: s' => contains s' p
  end.

(** A Python [float] decoded from JSON: a binary floating-point value, kept
    as sign, mantissa and exponent.  The program only tests floats for truth
    and prints them. *)
Inductive pyfloat :=
| FNaN
| FInf (negative : bool)
| FFinite (negative : bool) (mantissa : N) (exponent : Z).

(** What [json.load] and [response.json()] return. *)
Inductive json :=
| JNull
| JBool (b : bool)
| JInt (z : Z)
| JFloat (f : pyfloat)
| JStr (s : str)
| JList (l : list json)
| JDict (d : list (str * json)).

(** A [dict] is kept as its items in insertion order, keys distinct. *)
Definition dict := list (str * json).

Fixpoint dict_find (k : str) (d : dict) : option json :=
  match d with
  | [] => None
  | (k', v) :: d' => if str_eqb k' k then Some v else dict_find k d'
  end.

(** [d.get(k, default)] *)
Definition dict_get (d : dict) (k : str) (default : json) : json :=
  match dict_find k d with
  | Some v => v
  | None => default
  end.

(** [d.values()] *)
Definition dict_values (d : dict) : list json := map snd d.

(** [bool(v)] *)
Definition truthy (v : json) : bool :=
  match v with
  | JNull => false
  | JBool b => b
  | JInt z => negb (z =? 0)%Z
  | JFloat (FFinite _ 0%N _) => false
  | JFloat _ => true
  | JStr s => match s with [] => false | _ => true end
  | JList l => match l with [] => false | _ => true end
  | JDict d => match d with [] => false | _ => true end
  end.

(** [a or b] *)
Definition py_or (a b : json) : json := if truthy a then a else b.

Definition is_dict (v : json) : bool :=
  match v with JDict _ => true | _ => false end.

(* ================================================================== *)
(** * Exceptions and results                                           *)
(* ================================================================== *)

(** The exceptions the program can meet.  [HTTPError] is what
    [raise_for_status] raises; [ConnectionError] and [ReadTimeout] (a
    [Timeout]) are raised by [session.request] itself when no response
    arrives.  In [requests] they are siblings below [RequestException]:
    neither of the two is an [HTTPError]. *)
Inductive exn :=
| HTTPError (status : Z)
| ConnectionError
| ReadTimeout
| JSONDecodeError (msg : str)
| AttributeError
| TypeError
| ValueError
| OverflowError
| FileNotFoundError.

Inductive result (A : Type) :=
| Ok (a : A)
| Raise (e : exn).
Arguments Raise {A} e.

(** Sequencing of steps that may raise but issue no request. *)
Definition rbind {A B} (r : result A) (f : A -> result B) : result B :=
  match r with
  | Ok a => f a
  | Raise e => Raise e
  end.

(** Built-ins of the interpreter that depend on the Unicode character
    database or on floating-point arithmetic.  They are parameters of the
    model: every general statement below holds whatever they are. *)
Class Builtins := {
  (** [s.lower()] *)
  str_lower : str -> str;
  (** the class [\d] of [re] on text patterns: Unicode decimal digits *)
  isdecimal : N -> bool;
  (** [repr(s)] of a string *)
  str_repr : str -> str;
  (** [str(f)] of a float *)
  float_str : pyfloat -> str;
  (** [timedelta(weeks=w - 1).days] for a float [w], or the exception that
      the subtraction or the constructor raises *)
  float_weeks_days : pyfloat -> result Z
}.

(** Method calls on a decoded value: present on one type only, an
    [AttributeError] on the others. *)
Definition py_get (v : json) (k : str) (default : json) : result json :=
  match v with
  | JDict d => Ok (dict_get d k default)
  | _ => Raise AttributeError
  end.

Definition py_lower {B : Builtins} (v : json) : result str :=
  match v with
  | JStr s => Ok (str_lower s)
  | _ => Raise AttributeError
  end.

Definition py_strip (v : json) : result str :=
  match v with
  | JStr s => Ok (strip s)
  | _ => Raise AttributeError
  end.

(** [len(v)] as far as the program needs it: whether it raises. *)
Definition py_len (v : json) : result nat :=
  match v with
  | JStr s => Ok (List.length s)
  | JList l => Ok (List.length l)
  | JDict d => Ok (List.length d)
  | _ => Raise TypeError
  end.

(** [for x in v]: the items visited, or [TypeError] when [v] is not
    iterable.  A string yields its characters, a dict its keys. *)
Definition py_iter (v : json) : result (list json) :=
  match v with
  | JList l => Ok l
  | JDict d => Ok (map (fun kv => JStr (fst kv)) d)
  | JStr s => Ok (map (fun c => JStr [c]) s)
  | _ => Raise TypeError
  end.

(** Decimal digits of an integer, as [str(n)] prints them. *)
Fixpoint uint_digits (d : Decimal.uint) : str :=
  match d with
  | Decimal.Nil => []
  | Decimal.D0 d => 48%N :: uint_digits d
  | Decimal.D1 d => 49%N :: uint_digits d
  | Decimal.D2 d => 50%N :: uint_digits d
  | Decimal.D3 d => 51%N :: uint_digits d
  | Decimal.D4 d => 52%N :: uint_digits d
  | Decimal.D5 d => 53%N :: uint_digits d
  | Decimal.D6 d => 54%N :: uint_digits d
  | Decimal.D7 d => 55%N :: uint_digits d
  | Decimal.D8 d => 56%N :: uint_digits d
  | Decimal.D9 d => 57%N :: uint_digits d
  end.

Definition int_str (z : Z) : str :=
  match Z.to_int z with
  | Decimal.Pos d => uint_digits d
  | Decimal.Neg d => 45%N :: uint_digits d
  end.

Fixpoint join (sep : str) (l : list str) : str :=
  match l with
  | [] => []
  | [x] => x
  | x :: l' => x ++ sep ++ join sep l'
  end.

(** [repr(v)]; [str(v)] differs from it on strings only. *)
Fixpoint py_repr {B : Builtins} (v : json) : str :=
  match v with
  | JNull => lit "None"
  | JBool true => lit "True"
  | JBool false => lit "False"
  | JInt z => int_str z
  | JFloat f => float_str f
  | JStr s => str_repr s
  | JList l => lit "[" ++ join (lit ", ") (map py_repr l) ++ lit "]"
  | JDict d =>
      lit "{" ++
      join (lit ", ")
        (map (fun kv => str_repr (fst kv) ++ lit ": " ++ py_repr (snd kv)) d)
      ++ lit "}"
  end.

Definition py_str {B : Builtins} (v : json) : str :=
  match v with
  | JStr s => s
  | _ => py_repr v
  end.

(* ================================================================== *)
(** * The remote server and the effect monad                           *)
(* ================================================================== *)

Inductive http_method := GET | POST.

(** One call of [session.request]: method, endpoint below [{base_url}/api]
    and the [json=] body. *)
Record request := {
  req_method : http_method;
  req_endpoint : str;
  req_json : option json
}.

(** What comes back: a response with its status and body, or no response at
    all, in which case [session.request] raises. *)
Inductive body :=
| Json (j : json)
| NotJson (msg : str).

Inductive transport_failure := Refused | TimedOut.

Inductive reply :=
| Response (status : Z) (b : body)
| NoResponse (t : transport_failure).

Definition transport_exn (t : transport_failure) : exn :=
  match t with
  | Refused => ConnectionError
  | TimedOut => ReadTimeout
  end.

(** The remote server is not part of the program.  It is any function from
    the requests received so far and the current request to a reply. *)
Definition server := list request -> request -> reply.

(** Computations that may issue requests and may raise.  The state is the
    chronological list of the requests issued so far. *)
Definition M (A : Type) := list request -> result A * list request.

Definition ret {A} (a : A) : M A := fun t => (Ok a, t).

Definition raise {A} (e : exn) : M A := fun t => (Raise e, t).

Definition bind {A B} (m : M A) (f : A -> M B) : M B :=
  fun t =>
    match m t with
    | (Ok a, t') => f a t'
    | (Raise e, t') => (Raise e, t')
    end.

Definition lift {A} (r : result A) : M A := fun t => (r, t).

Declare Scope py_scope.
Delimit Scope py_scope with py.
Notation "x <- c ;; k" := (bind c (fun x => k))
  (at level 100, c at next level, right associativity) : py_scope.
Notation "x <~ c ;; k" := (rbind c (fun x => k))
  (at level 100, c at next level, right associativity) : py_scope.
Local Open Scope py_scope.

(** [try: body except requests.exceptions.HTTPError: handler] *)
Definition except_HTTPError {A} (body : M A) (handler : M A) : M A :=
  fun t =>
    match body t with
    | (Raise (HTTPError _), t') => handler t'
    | r => r
    end.

(** [response.raise_for_status()]: client and server error statuses raise. *)
Definition raise_for_status (status : Z) : bool :=
  ((400 <=? status) && (status <? 600))%Z.

(** [response.json()] *)
Definition response_json (b : body) : result json :=
  match b with
  | Json j => Ok j
  | NotJson msg => Raise (JSONDecodeError msg)
  end.

(* ================================================================== *)
(** * class MealieAPI                                                  *)
(* ================================================================== *)

Section MealieAPI.
Context {B : Builtins} (srv : server).

(** [self._request]: one call of [session.request], then
    [raise_for_status].  The address and the headers are the same for every
    call and are left out; the body is taken to be sent as it is.  A body
    that holds a float that is not finite is the exception: [requests]
    refuses to encode it and nothing is sent.  The bodies of this program
    hold such a float only if the menu does. *)
Definition _request (method : http_method) (endpoint : str)
    (payload : option json) : M body :=
  fun t =>
    let rq := {| req_method := method; req_endpoint := endpoint;
                 req_json := payload |} in
    match srv t rq with
    | NoResponse f => (Raise (transport_exn f), t ++ [rq])
    | Response status b =>
        if raise_for_status status then (Raise (HTTPError status), t ++ [rq])
        else (Ok b, t ++ [rq])
    end.

(** [item if isinstance(item, dict) else {'name': str(item)}] *)
Definition as_record (item : json) : json :=
  if is_dict item then item else JDict [(lit "name", JStr (py_str item))].

(** [isinstance(value, (str, int, float, bool))] *)
Definition is_scalar (value : json) : bool :=
  match value with
  | JStr _ | JInt _ | JFloat _ | JBool _ => true
  | _ => false
  end.

(** The three payload shapes of [get_ingredients]. *)
Definition ingredients_of_payload (data : json) : list json :=
  match data with
  | JList l => map as_record l
  | JDict d =>
      match dict_get d (lit "items") JNull with
      | JList items => map as_record items
      | _ =>
          map as_record
            (filter (fun value => negb (is_scalar value) || truthy value)
               (dict_values d))
      end
  | _ => []
  end.

Definition get_ingredients : M (list json) :=
  except_HTTPError
    (response <- _request GET (lit "/foods") None ;;
     data <- lift (response_json response) ;;
     ret (ingredients_of_payload data))
    (ret []).

Definition create_ingredient (name : str) : M json :=
  except_HTTPError
    (let data := JDict [(lit "name", JStr name);
                        (lit "description",
                         JStr (lit "Auto-created ingredient: " ++ name))] in
     response <- _request POST (lit "/foods") (Some data) ;;
     lift (response_json response))
    (ret JNull).

(** The loop of [get_ingredient_by_name]. *)
Fixpoint find_ingredient (ingredients : list json) (name_lower : str)
    : result json :=
  match ingredients with
  | [] => Ok JNull
  | ingredient :: rest =>
      match ingredient with
      | JDict d =>
          let ingredient_name :=
            py_or (py_or (dict_get d (lit "name") JNull)
                         (dict_get d (lit "title") JNull))
                  (JStr []) in
          l <~ py_lower ingredient_name ;;
          if str_eqb (strip l) name_lower then Ok ingredient
          else find_ingredient rest name_lower
      | JStr s =>
          if str_eqb (strip (str_lower s)) name_lower
          then Ok (JDict [(lit "name", JStr s)])
          else find_ingredient rest name_lower
      | _ => find_ingredient rest name_lower
      end
  end.

Definition get_ingredient_by_name (name : str) : M json :=
  ingredients <- get_ingredients ;;
  let name_lower := strip (str_lower name) in
  lift (find_ingredient ingredients name_lower).

Definition ensure_ingredient_exists (name : str) : M json :=
  ingredient <- get_ingredient_by_name name ;;
  if truthy ingredient then ret ingredient
  else create_ingredient name.

Definition get_recipes : M json :=
  except_HTTPError
    (response <- _request GET (lit "/recipes") None ;;
     data <- lift (response_json response) ;;
     lift (py_get data (lit "items") (JList [])))
    (ret (JList [])).

(** The loop of [get_recipe_by_name]. *)
Fixpoint find_recipe (recipes : list json) (name_lower : str) : result json :=
  match recipes with
  | [] => Ok JNull
  | recipe :: rest =>
      n <~ py_get recipe (lit "name") (JStr []) ;;
      l <~ py_lower n ;;
      if str_eqb (strip l) name_lower then Ok recipe
      else find_recipe rest name_lower
  end.

Definition get_recipe_by_name (name : json) : M json :=
  recipes <- get_recipes ;;
  l <- lift (py_lower name) ;;
  let name_lower := strip l in
  items <- lift (py_iter recipes) ;;
  lift (find_recipe items name_lower).

Definition create_recipe (recipe_data : json) : M json :=
  except_HTTPError
    (response <- _request POST (lit "/recipes") (Some recipe_data) ;;
     data <- lift (response_json response) ;;
     match data with
     | JDict _ => ret data
     | JStr _ => ret (JDict [(lit "id", data)])
     | JList (JDict d :: _) => ret (JDict d)
     | _ => ret JNull
     end)
    (ret JNull).

Definition create_mealplan (date entry_type : str) (recipe_id : json)
    : M json :=
  except_HTTPError
    (let data := JDict [(lit "date", JStr date);
                        (lit "entryType", JStr entry_type);
                        (lit "recipeId", recipe_id)] in
     response <- _request POST (lit "/groups/mealplans") (Some data) ;;
     lift (response_json response))
    (ret JNull).

End MealieAPI.

(* ================================================================== *)
(** * Regular expressions, as far as [parse_ingredient_text] uses them *)
(* ================================================================== *)

(** Greedy repetitions of a character class ([min = 0] is [*], [min = 1] is
    [+]) and concatenation.  [exec] is the backtracking matcher of [re]: it
    tries the longest repetition first and gives characters back one at a
    time while the continuation fails. *)
Inductive regex :=
| Rep (cls : N -> bool) (min : nat)
| Cat (r1 r2 : regex).

Fixpoint rep {A} (cls : N -> bool) (min : nat) (taken s : str)
    (k : str -> str -> option A) : option A :=
  let stop := match min with O => k taken s | S _ => None end in
  match s with
  | c :: s' =>
      if cls c then
        match rep cls (pred min) (taken ++ [c]) s' k with
        | Some r => Some r
        | None => stop
        end
      else stop
  | [] => stop
  end.

Fixpoint exec {A} (r : regex) (s : str) (k : str -> str -> option A)
    : option A :=
  match r with
  | Rep cls min => rep cls min [] s k
  | Cat r1 r2 =>
      exec r1 s (fun m1 rest =>
        exec r2 rest (fun m2 rest' => k (m1 ++ m2) rest'))
  end.

(** [$] without [re.MULTILINE]: at the end, or before a final newline. *)
Definition at_end (s : str) : bool :=
  match s with
  | [] => true
  | [c] => (c =? 10)%N
  | _ => false
  end.

(* ================================================================== *)
(** * Dates, as [datetime] computes them                               *)
(* ================================================================== *)

Local Open Scope Z_scope.

Definition MINYEAR : Z := 1.
Definition MAXYEAR : Z := 9999.
(** [date.max.toordinal()] *)
Definition MAXORDINAL : Z := 3652059.

Definition is_leap (year : Z) : bool :=
  (year mod 4 =? 0) && (negb (year mod 100 =? 0) || (year mod 400 =? 0)).

Definition days_before_year (year : Z) : Z :=
  let y := year - 1 in y * 365 + y / 4 - y / 100 + y / 400.

Definition days_in_month (year month : Z) : Z :=
  if month =? 2 then (if is_leap year then 29 else 28)
  else if (month =? 4) || (month =? 6) || (month =? 9) || (month =? 11)
  then 30 else 31.

Definition DAYS_BEFORE_MONTH : list Z :=
  [0; 31; 59; 90; 120; 151; 181; 212; 243; 273; 304; 334].

Definition days_before_month (year month : Z) : Z :=
  nth (Z.to_nat (month - 1)) DAYS_BEFORE_MONTH 0
  + (if (2 <? month) && is_leap year then 1 else 0).

(** [date(year, month, day).toordinal()]: day 1 is 0001-01-01. *)
Definition ymd2ord (year month day : Z) : Z :=
  days_before_year year + days_before_month year month + day.

(** The inverse, [date.fromordinal(n)], as year, month and day. *)
Definition ord2ymd (ordinal : Z) : Z * Z * Z :=
  let n := ordinal - 1 in
  let n400 := n / 146097 in
  let n := n mod 146097 in
  let n100 := n / 36524 in
  let n := n mod 36524 in
  let n4 := n / 1461 in
  let n := n mod 1461 in
  let n1 := n / 365 in
  let n := n mod 365 in
  let year := n400 * 400 + 1 + n100 * 100 + n4 * 4 + n1 in
  if (n1 =? 4) || (n100 =? 4) then (year - 1, 12, 31)
  else
    let leapyear := (n1 =? 3) && (negb (n4 =? 24) || (n100 =? 3)) in
    let month := Z.shiftr (n + 50) 5 in
    let preceding :=
      nth (Z.to_nat (month - 1)) DAYS_BEFORE_MONTH 0
      + (if (2 <? month) && leapyear then 1 else 0) in
    if n <? preceding then
      let month' := month - 1 in
      let preceding' :=
        preceding
        - (nth (Z.to_nat (month' - 1)) [31; 28; 31; 30; 31; 30; 31; 31; 30; 31; 30; 31] 0
           + (if (month' =? 2) && leapyear then 1 else 0)) in
      (year, month', n - preceding' + 1)
    else (year, month, n - preceding + 1).

(** A [datetime] at midnight is kept as the ordinal of its date.
    [datetime(year, 1, 4)] raises [ValueError] outside [MINYEAR..MAXYEAR]. *)
Definition datetime (year month day : Z) : result Z :=
  if (MINYEAR <=? year) && (year <=? MAXYEAR)
     && (1 <=? month) && (month <=? 12)
     && (1 <=? day) && (day <=? days_in_month year month)
  then Ok (ymd2ord year month day)
  else Raise ValueError.

(** [d.weekday()]: Monday is 0. *)
Definition weekday (ordinal : Z) : Z := (ordinal + 6) mod 7.

(** [timedelta(days=n)] raises beyond 999999999 days. *)
Definition timedelta_days (n : Z) : result Z :=
  if Z.abs n <=? 999999999 then Ok n else Raise OverflowError.

(** [d + delta] raises when the date leaves [date.min..date.max]. *)
Definition date_add (ordinal delta : Z) : result Z :=
  let n := ordinal + delta in
  if (0 <? n) && (n <=? MAXORDINAL) then Ok n else Raise OverflowError.

Fixpoint pad (width : nat) (digits : str) : str :=
  match width with
  | O => digits
  | S w => if (List.length digits <=? w)%nat then 48%N :: pad w digits
           else digits
  end.

(** [d.strftime('%Y-%m-%d')], as CPython 3.11 gives it through the C library
    of Linux: month and day are zero-filled to two digits, the year is
    printed as it is, so a year below 1000 has fewer than four digits. *)
Definition strftime (ordinal : Z) : str :=
  let '(y, m, d) := ord2ymd ordinal in
  int_str y ++ lit "-" ++ pad 2 (int_str m) ++ lit "-" ++ pad 2 (int_str d).

(* ================================================================== *)
(** * class MealieMenuCreator                                          *)
(* ================================================================== *)

Definition MEAL_TYPE_MAP : list (str * str) :=
  [ (lit "reggeli", lit "breakfast");
    (lit "ebéd", lit "lunch");
    (lit "vacsora", lit "dinner");
    (lit "snack", lit "snack");
    (lit "breakfast", lit "breakfast");
    (lit "lunch", lit "lunch");
    (lit "dinner", lit "dinner") ].

Definition DAY_ORDER : list str :=
  [ lit "monday"; lit "tuesday"; lit "wednesday"; lit "thursday";
    lit "friday"; lit "saturday"; lit "sunday" ].

(** The dictionary that [parse_ingredient_text] returns. *)
Record parsed_ingredient := {
  quantity : str;
  name : str;
  original_text : str
}.

Section MealieMenuCreator.
Context {B : Builtins} (srv : server).

(** [[\d\-\.]] *)
Definition numeric (c : N) : bool :=
  (isdecimal c || (c =? 45) || (c =? 46))%N.

(** [[a-zA-Z]] *)
Definition letter (c : N) : bool :=
  ((97 <=? c) && (c <=? 122) || (65 <=? c) && (c <=? 90))%N.

(** [.] without [re.DOTALL] *)
Definition any_char (c : N) : bool := negb (c =? 10)%N.

(** [re.match] of the pattern of [parse_ingredient_text] on [s]: group 1 is
    one or more of [numeric], then any whitespace, then any letters; it is
    followed by one or more whitespace characters and by group 2, one or
    more of any character up to the end.  The result is the two groups of
    the first match in backtracking order, if there is one. *)
Definition ingredient_match (s : str) : option (str * str) :=
  exec (Cat (Cat (Rep numeric 1) (Rep isspace 0)) (Rep letter 0)) s
    (fun group1 rest =>
       exec (Rep isspace 1) rest (fun _ rest =>
         exec (Rep any_char 1) rest (fun group2 rest =>
           if at_end rest then Some (group1, group2) else None))).

Definition parse_ingredient_text (ingredient_text : str) : parsed_ingredient :=
  match ingredient_match (strip ingredient_text) with
  | Some (group1, group2) =>
      {| quantity := strip group1; name := strip group2;
         original_text := ingredient_text |}
  | None =>
      {| quantity := []; name := strip ingredient_text;
         original_text := ingredient_text |}
  end.

(** [for hungarian, english in self.MEAL_TYPE_MAP.items():
       if hungarian in text: return english] *)
Fixpoint scan_meal_types (items : list (str * str)) (text : str)
    : option str :=
  match items with
  | [] => None
  | (hungarian, english) :: rest =>
      if contains text hungarian then Some english
      else scan_meal_types rest text
  end.

Definition extract_meal_type (recipe : json) : result str :=
  keywords <~ py_get recipe (lit "keywords") (JStr []) ;;
  let found :=
    match keywords with
    | JStr kw => scan_meal_types MEAL_TYPE_MAP (str_lower kw)
    | _ => None
    end in
  match found with
  | Some english => Ok english
  | None =>
      d <~ py_get recipe (lit "description") (JStr []) ;;
      description <~ py_lower d ;;
      match scan_meal_types MEAL_TYPE_MAP description with
      | Some english => Ok english
      | None => Ok (lit "dinner")
      end
  end.

(** The entry appended to [ingredients] for one parsed line. *)
Definition ingredient_entry (parsed : parsed_ingredient) : json :=
  JDict [ (lit "title", JStr []);
          (lit "note", JStr (original_text parsed));
          (lit "unit", JStr []);
          (lit "quantity", JStr (quantity parsed));
          (lit "food", JDict [(lit "name", JStr (name parsed))]);
          (lit "disableAmount", JBool false);
          (lit "display", JStr (original_text parsed)) ].

(** [self.parse_ingredient_text(ing_text)] on a decoded value: [.strip()]
    exists on strings only. *)
Definition parse_ingredient_value (ing_text : json) : result parsed_ingredient :=
  match ing_text with
  | JStr s => Ok (parse_ingredient_text s)
  | _ => Raise AttributeError
  end.

(** The first loop of [convert_recipe_to_mealie_format]. *)
Fixpoint convert_ingredients (ingredient_texts : list json)
    (ingredients : list json) : M (list json) :=
  match ingredient_texts with
  | [] => ret ingredients
  | ing_text :: rest =>
      parsed <- lift (parse_ingredient_value ing_text) ;;
      _ <- ensure_ingredient_exists srv (name parsed) ;;
      convert_ingredients rest (ingredients ++ [ingredient_entry parsed])
  end.

(** The second loop, over [enumerate(recipe_instructions)]. *)
Fixpoint convert_instructions (recipe_instructions : list json) (idx : Z)
    (instructions : list json) : list json :=
  match recipe_instructions with
  | [] => instructions
  | instruction :: rest =>
      let text :=
        match instruction with
        | JDict d => dict_get d (lit "text") (JStr [])
        | _ => JStr (py_str instruction)
        end in
      convert_instructions rest (idx + 1)
        (instructions ++
           [JDict [ (lit "id", JStr (int_str idx));
                    (lit "title", JStr []);
                    (lit "text", text) ]])
  end.

Definition settings_block : json :=
  JDict [ (lit "public", JBool true);
          (lit "showNutrition", JBool true);
          (lit "showAssets", JBool true);
          (lit "landscapeView", JBool false);
          (lit "disableComments", JBool false);
          (lit "disableAmount", JBool false) ].

Definition convert_recipe_to_mealie_format (recipe : json) : M json :=
  ingredient_texts <- lift (py_get recipe (lit "recipeIngredient") (JList [])) ;;
  _ <- lift (py_len ingredient_texts) ;;
  texts <- lift (py_iter ingredient_texts) ;;
  ingredients <- convert_ingredients texts [] ;;
  recipe_instructions <-
    lift (py_get recipe (lit "recipeInstructions") (JList [])) ;;
  steps <- lift (py_iter recipe_instructions) ;;
  let instructions := convert_instructions steps 0 [] in
  nutrition_data <- lift (py_get recipe (lit "nutrition") (JDict [])) ;;
  n <- lift (py_get recipe (lit "name") (JStr (lit "Untitled Recipe"))) ;;
  d <- lift (py_get recipe (lit "description") (JStr [])) ;;
  y <- lift (py_get recipe (lit "recipeYield") (JStr (lit "1"))) ;;
  let mealie_recipe :=
    [ (lit "name", n);
      (lit "description", d);
      (lit "recipeYield", y);
      (lit "recipeIngredient", JList ingredients);
      (lit "recipeInstructions", JList instructions);
      (lit "notes", JList []);
      (lit "tags", JList []);
      (lit "settings", settings_block) ] in
  if truthy nutrition_data then
    c <- lift (py_get nutrition_data (lit "calories") (JStr [])) ;;
    p <- lift (py_get nutrition_data (lit "proteinContent") (JStr [])) ;;
    f <- lift (py_get nutrition_data (lit "fatContent") (JStr [])) ;;
    h <- lift (py_get nutrition_data (lit "carbohydrateContent") (JStr [])) ;;
    ret (JDict (mealie_recipe ++
                [ (lit "nutrition",
                   JDict [ (lit "calories", c);
                           (lit "protein", p);
                           (lit "fatContent", f);
                           (lit "carbohydrateContent", h) ]) ]))
  else ret (JDict mealie_recipe).

Definition create_recipe_if_not_exists (recipe : json) : M json :=
  recipe_name <- lift (py_get recipe (lit "name") (JStr (lit "Untitled Recipe"))) ;;
  existing_recipe <- get_recipe_by_name srv recipe_name ;;
  if truthy existing_recipe then ret existing_recipe
  else
    mealie_recipe <- convert_recipe_to_mealie_format recipe ;;
    create_recipe srv mealie_recipe.

(** [timedelta(weeks=week - 1)], in days.  The week number comes from the
    menu and is whatever JSON held: an [int] or a [bool] is subtracted as an
    integer, a [float] goes through floating-point arithmetic, anything else
    makes [week - 1] a [TypeError]. *)
Definition timedelta_weeks (week : json) : result Z :=
  match week with
  | JInt w => timedelta_days (7 * (w - 1))
  | JBool b => timedelta_days (7 * ((if b then 1 else 0) - 1))
  | JFloat f => float_weeks_days f
  | _ => Raise TypeError
  end.

(** The loop of [calculate_week_dates] over [enumerate(self.DAY_ORDER)]. *)
Fixpoint week_days (days : list str) (target_monday idx : Z)
    : result (list (str * str)) :=
  match days with
  | [] => Ok []
  | day :: rest =>
      date <~ date_add target_monday idx ;;
      dates <~ week_days rest target_monday (idx + 1) ;;
      Ok ((day, strftime date) :: dates)
  end.

Definition calculate_week_dates (year : Z) (week : json)
    : result (list (str * str)) :=
  jan_4 <~ datetime year 1 4 ;;
  week_1_monday <~ date_add jan_4 (- weekday jan_4) ;;
  delta <~ timedelta_weeks week ;;
  target_monday <~ date_add week_1_monday delta ;;
  week_days DAY_ORDER target_monday 0.

(** [week_dates[day]] *)
Fixpoint date_of (week_dates : list (str * str)) (day : str) : str :=
  match week_dates with
  | [] => []
  | (d, date) :: rest => if str_eqb d day then date else date_of rest day
  end.

(** The body of the inner loop of [process_weekly_menu], for one recipe of
    one day. *)
Definition schedule_recipe (date : str) (recipe : json) : M unit :=
  created_recipe <- create_recipe_if_not_exists recipe ;;
  if truthy created_recipe then
    meal_type <- lift (extract_meal_type recipe) ;;
    i <- lift (py_get created_recipe (lit "id") JNull) ;;
    s <- lift (py_get created_recipe (lit "slug") JNull) ;;
    let recipe_id := py_or i s in
    if truthy recipe_id then
      _ <- create_mealplan srv date meal_type recipe_id ;;
      ret tt
    else ret tt
  else ret tt.

Fixpoint schedule_recipes (date : str) (recipes : list json) : M unit :=
  match recipes with
  | [] => ret tt
  | recipe :: rest =>
      _ <- schedule_recipe date recipe ;;
      schedule_recipes date rest
  end.

(** The outer loop of [process_weekly_menu], over [self.DAY_ORDER]. *)
Fixpoint process_days (menu_data : json) (week_dates : list (str * str))
    (days : list str) : M unit :=
  match days with
  | [] => ret tt
  | day :: rest =>
      recipes <- lift (py_get menu_data day (JList [])) ;;
      if truthy recipes then
        items <- lift (py_iter recipes) ;;
        _ <- schedule_recipes (date_of week_dates day) items ;;
        process_days menu_data week_dates rest
      else process_days menu_data week_dates rest
  end.

Definition process_weekly_menu (menu_data : json) (year : Z) : M unit :=
  week_number <- lift (py_get menu_data (lit "week") (JInt 1)) ;;
  week_dates <- lift (calculate_week_dates year week_number) ;;
  process_days menu_data week_dates DAY_ORDER.

End MealieMenuCreator.

(* ================================================================== *)
(** * MealieConfig and main                                            *)
(* ================================================================== *)

Record MealieConfig := {
  base_url : str;
  api_token : str
}.

(** [s.rstrip('/')] *)
Fixpoint lstrip_slash (s : str) : str :=
  match s with
  | c :: t => if (c =? 47)%N then lstrip_slash t else s
  | [] => []
  end.

Definition rstrip_slash (s : str) : str := rev (lstrip_slash (rev s)).

(** [os.getenv(name, default)] *)
Definition getenv (environ : str -> option str) (name default : str) : str :=
  match environ name with
  | Some v => v
  | None => default
  end.

Definition from_env (environ : str -> option str) : result MealieConfig :=
  let base_url := getenv environ (lit "MEALIE_BASE_URL")
                    (lit "http://localhost:9000") in
  let api_token := getenv environ (lit "MEALIE_API_TOKEN") [] in
  match api_token with
  | [] => Raise ValueError
  | _ => Ok {| base_url := rstrip_slash base_url; api_token := api_token |}
  end.

(** What [json.load] makes of an input: the decoded document, or a
    [JSONDecodeError] with its message. *)
Inductive source :=
| Document (menu_data : json)
| Garbage (msg : str).

(** The surroundings of one run of the script. *)
Record process_env := {
  environ : str -> option str;
  (** [sys.argv], the script name first *)
  argv : list str;
  (** the files that [open] finds, with what [json.load] makes of them *)
  files : str -> option source;
  stdin : source
}.

(** How the process ends: [main] returns, [sys.exit(code)] is called, or an
    exception reaches the top level. *)
Inductive termination :=
| Returned
| SystemExit (code : Z)
| Uncaught (e : exn).

(** The exit status that the interpreter gives the process.  An uncaught
    exception is reported with its traceback and ends the process with
    status 1. *)
Definition exit_status (e : termination) : Z :=
  match e with
  | Returned => 0
  | SystemExit code => code
  | Uncaught _ => 1
  end.

(** The last line of the traceback of an uncaught exception: the name of the
    exception and, where the model carries it, its message. *)
Definition traceback_line (e : exn) : str :=
  match e with
  | HTTPError status => lit "requests.exceptions.HTTPError: " ++ int_str status
  | ConnectionError => lit "requests.exceptions.ConnectionError"
  | ReadTimeout => lit "requests.exceptions.ReadTimeout"
  | JSONDecodeError msg => lit "json.decoder.JSONDecodeError: " ++ msg
  | AttributeError => lit "AttributeError"
  | TypeError => lit "TypeError"
  | ValueError => lit "ValueError"
  | OverflowError => lit "OverflowError"
  | FileNotFoundError => lit "FileNotFoundError"
  end.

Definition traceback (e : termination) : list str :=
  match e with
  | Uncaught x => [traceback_line x]
  | _ => []
  end.

(** One run: the lines that [main] itself prints ([console]; the progress
    lines of the client and of the processor are left out), what the
    interpreter reports at the end, the requests issued, and the ending. *)
Record outcome := {
  console : list str;
  issued : list request;
  ending : termination
}.

Definition diagnostics (o : outcome) : list str :=
  console o ++ traceback (ending o).

Section Main.
Context {B : Builtins}.
(** What answers at the configured address with the configured token. *)
Variable network : MealieConfig -> server.

(** [creator.process_weekly_menu(menu_data)], the last statement of [main];
    the year is the default of the parameter. *)
Definition run_menu (printed : list str) (config : MealieConfig)
    (menu_data : json) : outcome :=
  match process_weekly_menu (network config) menu_data 2025 [] with
  | (Ok _, t) => {| console := printed; issued := t; ending := Returned |}
  | (Raise e, t) => {| console := printed; issued := t; ending := Uncaught e |}
  end.

Definition main (env : process_env) : outcome :=
  match from_env (environ env) with
  | Raise _ =>
      {| console :=
           [ lit "Error: MEALIE_API_TOKEN environment variable is required";
             10%N :: lit "Please set the following environment variables:";
             lit "  MEALIE_BASE_URL - Your Mealie instance URL (default: http://localhost:9000)";
             lit "  MEALIE_API_TOKEN - Your Mealie API token (required)" ];
         issued := [];
         ending := SystemExit 1 |}
  | Ok config =>
      match argv env with
      | _ :: json_file :: _ =>
          match files env json_file with
          | None =>
              {| console := []; issued := [];
                 ending := Uncaught FileNotFoundError |}
          | Some (Garbage msg) =>
              {| console := []; issued := [];
                 ending := Uncaught (JSONDecodeError msg) |}
          | Some (Document menu_data) => run_menu [] config menu_data
          end
      | _ =>
          let prompt :=
            [ lit "Reading menu JSON from stdin (or provide filename as argument)...";
              lit "Enter JSON data and press Ctrl+D when done:" ++ [10%N] ] in
          match stdin env with
          | Garbage msg =>
              {| console := prompt ++ [lit "Error parsing JSON: " ++ msg];
                 issued := [];
                 ending := SystemExit 1 |}
          | Document menu_data => run_menu prompt config menu_data
          end
      end
  end.

End Main.

(* ================================================================== *)
(** * A remote store that keeps what it is sent                        *)
(* ================================================================== *)

(** The specification states idempotence "assuming the remote store
    persists between runs".  This is such a store: it lists every food and
    recipe it holds, adds what is posted, answers every request, and never
    forgets.  It is an assumption about the server, not part of the
    program. *)
Record store := {
  foods : list str;
  recipes : list (Z * str)
}.

Definition food_record (n : str) : json :=
  JDict [(lit "name", JStr n)].

Definition recipe_record (r : Z * str) : json :=
  JDict [(lit "id", JStr (int_str (fst r))); (lit "name", JStr (snd r))].

Definition posted_name (payload : option json) : option str :=
  match payload with
  | Some (JDict d) =>
      match dict_find (lit "name") d with
      | Some (JStr n) => Some n
      | _ => None
      end
  | _ => None
  end.

Definition store_step (s : store) (rq : request) : store * reply :=
  match req_method rq with
  | GET =>
      if str_eqb (req_endpoint rq) (lit "/foods") then
        (s, Response 200
              (Json (JDict [(lit "items", JList (map food_record (foods s)))])))
      else if str_eqb (req_endpoint rq) (lit "/recipes") then
        (s, Response 200
              (Json (JDict [(lit "items",
                             JList (map recipe_record (recipes s)))])))
      else (s, Response 404 (NotJson []))
  | POST =>
      if str_eqb (req_endpoint rq) (lit "/foods") then
        match posted_name (req_json rq) with
        | Some n =>
            ({| foods := foods s ++ [n]; recipes := recipes s |},
             Response 201 (Json (food_record n)))
        | None => (s, Response 422 (NotJson []))
        end
      else if str_eqb (req_endpoint rq) (lit "/recipes") then
        match posted_name (req_json rq) with
        | Some n =>
            let r := (Z.of_nat (List.length (recipes s)), n) in
            ({| foods := foods s; recipes := recipes s ++ [r] |},
             Response 201 (Json (recipe_record r)))
        | None => (s, Response 422 (NotJson []))
        end
      else if str_eqb (req_endpoint rq) (lit "/groups/mealplans") then
        match req_json rq with
        | Some j => (s, Response 201 (Json j))
        | None => (s, Response 422 (NotJson []))
        end
      else (s, Response 404 (NotJson []))
  end.

(** The store after a history of requests. *)
Definition store_after (init : store) (history : list request) : store :=
  fold_left (fun s rq => fst (store_step s rq)) history init.

Definition persistent_store (init : store) : server :=
  fun history rq => snd (store_step (store_after init history) rq).

(** A server that is down for maintenance: every request gets a 503. *)
Definition unavailable : server :=
  fun _ _ => Response 503 (NotJson []).

(** A server that cannot be reached. *)
Definition unreachable : server :=
  fun _ _ => NoResponse Refused.

(** A server that answers every request with the same body. *)
Definition always (status : Z) (j : json) : server :=
  fun _ _ => Response status (Json j).

(* ================================================================== *)
(** * An interpreter to run examples in                                *)
(* ================================================================== *)

(** Case mapping and digits of Basic Latin and Latin-1 (U+0000 to U+00FF),
    where [str.lower] maps code point by code point.  Text outside that
    range, strings with quotes or escapes under [repr], and floats are not
    used by the examples below; the instance maps them as shown. *)
Definition latin1_lower (c : N) : N :=
  if ((65 <=? c) && (c <=? 90)
      || (192 <=? c) && (c <=? 222) && negb (c =? 215))%N
  then (c + 32)%N else c.

Definition ascii_digit (c : N) : bool := ((48 <=? c) && (c <=? 57))%N.

Definition latin1 : Builtins := {|
  str_lower := map latin1_lower;
  isdecimal := ascii_digit;
  str_repr := fun s => lit "'" ++ s ++ lit "'";
  float_str := fun f =>
    match f with
    | FNaN => lit "nan"
    | FInf false => lit "inf"
    | FInf true => lit "-inf"
    | FFinite s m e =>
        (if s then lit "-" else []) ++ int_str (Z.of_N m * 2 ^ e) ++ lit ".0"
    end;
  float_weeks_days := fun f =>
    match f with
    | FNaN => Raise ValueError
    | FInf _ => Raise OverflowError
    | FFinite s m e =>
        timedelta_days
          (7 * ((if s then -1 else 1) * (Z.of_N m * 2 ^ e) - 1))
    end
|}.

(* ================================================================== *)
(** * Vocabulary of the properties                                     *)
(* ================================================================== *)

(** [p] occurs in [s] as a contiguous substring. *)
Definition occurs (p s : str) : Prop := exists a b, s = a ++ p ++ b.

(** The first element of a list with a property: it has the property and
    nothing before it has. *)
Definition first_with {A} (P : A -> Prop) (l : list A) (x : A) : Prop :=
  exists before after,
    l = before ++ x :: after /\ P x /\ forall y, In y before -> ~ P y.

(** The request that [_request] issues for its arguments. *)
Definition request_of (method : http_method) (endpoint : str)
    (payload : option json) : request :=
  {| req_method := method; req_endpoint := endpoint; req_json := payload |}.

(** The requests of the two listing calls. *)
Definition foods_listing : request := request_of GET (lit "/foods") None.

Definition recipes_listing : request := request_of GET (lit "/recipes") None.

(** An empty string, a zero or [False]: the scalars that are false. *)
Definition falsy_scalar (v : json) : bool :=
  match v with
  | JStr [] => true
  | JInt 0 => true
  | JBool false => true
  | JFloat (FFinite _ 0%N _) => true
  | _ => false
  end.

(** The key of a table entry occurs in the text. *)
Definition has_key (text : str) (entry : str * str) : Prop :=
  occurs (fst entry) text.

(** The table of meal types as the specification lists it: the seven keys
    in their order, each with its value. *)
Definition meal_type_table : list (str * str) :=
  [ (lit "reggeli", lit "breakfast");
    (lit "ebéd", lit "lunch");
    (lit "vacsora", lit "dinner");
    (lit "snack", lit "snack");
    (lit "breakfast", lit "breakfast");
    (lit "lunch", lit "lunch");
    (lit "dinner", lit "dinner") ].

(** No key of that table occurs in the text. *)
Definition no_key (text : str) : Prop :=
  forall entry, In entry meal_type_table -> ~ has_key text entry.

(** Two names are the same once lowercased and stripped. *)
Definition same_name {B : Builtins} (a b : str) : Prop :=
  strip (str_lower a) = strip (str_lower b).

(** The name under which a listed recipe is compared: its [name], the empty
    string when it has none. *)
Definition recipe_name (r : json) : option str :=
  match r with
  | JDict d =>
      match dict_get d (lit "name") (JStr []) with
      | JStr n => Some n
      | _ => None
      end
  | _ => None
  end.

(** The name under which a listed ingredient is compared: its [name], else
    its [title], else the empty string. *)
Definition ingredient_name (r : json) : option str :=
  match r with
  | JDict d =>
      match py_or (py_or (dict_get d (lit "name") JNull)
                         (dict_get d (lit "title") JNull)) (JStr []) with
      | JStr n => Some n
      | _ => None
      end
  | _ => None
  end.

(** The entity [r] has a name, read by [name_of], that is the same as [q]. *)
Definition named_like {B : Builtins} (name_of : json -> option str)
    (q : str) (r : json) : Prop :=
  exists n, name_of r = Some n /\ same_name n q.

(** What a lookup by name returns from a listing: a record exactly when
    some listed entity has the name, and then the first such entity. *)
Definition lookup_result {B : Builtins} (name_of : json -> option str)
    (q : str) (listing : list json) (v : json) : Prop :=
  (v <> JNull <-> exists r, In r listing /\ named_like name_of q r)
  /\ (v <> JNull -> first_with (named_like name_of q) listing v).

(** The Monday of ISO week 1: January 4 minus its weekday index. *)
Definition week_1_monday (year : Z) : Z :=
  ymd2ord year 1 4 - weekday (ymd2ord year 1 4).

(** The Monday of a week of the year, [week - 1] weeks later. *)
Definition monday_of_week (year week : Z) : Z :=
  week_1_monday year + 7 * (week - 1).



(** Four digits, a hyphen, two digits, a hyphen, two digits. *)
Definition iso_date_shape (s : str) : bool :=
  match s with
  | [y1; y2; y3; y4; h1; m1; m2; h2; d1; d2] =>
      forallb ascii_digit [y1; y2; y3; y4; m1; m2; d1; d2]
      && (h1 =? 45)%N && (h2 =? 45)%N
  | _ => false
  end.


(** A calendar date written YYYY-MM-DD: the year zero-filled to four
    digits, month and day to two. *)
Definition iso_date (ordinal : Z) : str :=
  let '(y, m, d) := ord2ymd ordinal in
  pad 4 (int_str y) ++ lit "-" ++ pad 2 (int_str m) ++ lit "-"
  ++ pad 2 (int_str d).


(** The identifier of a stored recipe: its [id], and its [slug] when the
    [id] is absent or empty. *)
Definition resolved_id (created : dict) : json :=
  match dict_find (lit "id") created with
  | Some i => if truthy i then i else dict_get created (lit "slug") JNull
  | None => dict_get created (lit "slug") JNull
  end.

(** The request of [create_mealplan]. *)
Definition mealplan_request (date entry_type : str) (recipe_id : json)
    : request :=
  request_of POST (lit "/groups/mealplans")
    (Some (JDict [(lit "date", JStr date);
                  (lit "entryType", JStr entry_type);
                  (lit "recipeId", recipe_id)])).

(** The entry of the payload for one ingredient line: the line itself as
    note and display, the parsed quantity, the parsed name as food. *)
Definition line_entry {B : Builtins} (line : str) : json :=
  JDict [ (lit "title", JStr []);
          (lit "note", JStr line);
          (lit "unit", JStr []);
          (lit "quantity", JStr (quantity (parse_ingredient_text line)));
          (lit "food",
           JDict [(lit "name", JStr (name (parse_ingredient_text line)))]);
          (lit "disableAmount", JBool false);
          (lit "display", JStr line) ].

(** A server with which [ensure_ingredient_exists] always returns, be it a
    record or nothing. *)
Definition ensure_returns {B : Builtins} (srv : server) : Prop :=
  forall (n : str) (t : list request),
    exists v t', ensure_ingredient_exists srv n t = (Ok v, t').

(** Whether a file is named on the command line. *)
Definition reads_file (env : process_env) : bool :=
  match argv env with
  | _ :: _ :: _ => true
  | _ => false
  end.

(** The input that the run reads: the named file if there is one, standard
    input otherwise. *)
Definition selected_input (env : process_env) : option source :=
  match argv env with
  | _ :: json_file :: _ => files env json_file
  | _ => Some (stdin env)
  end.

(** A request that creates a food or a recipe. *)
Definition creates (rq : request) : bool :=
  match req_method rq with
  | POST => str_eqb (req_endpoint rq) (lit "/foods")
            || str_eqb (req_endpoint rq) (lit "/recipes")
  | GET => false
  end.

(** From trace [t] to trace [t'], requests were added and none of them
    creates anything. *)
Definition quiet (t t' : list request) : Prop :=
  exists added, t' = t ++ added /\ forallb (fun rq => negb (creates rq)) added = true.

(** [n.lower().strip()] *)
Definition normalized {B : Builtins} (n : str) : str := strip (str_lower n).

(** The store holds a food, or a recipe, of that name. *)
Definition has_food {B : Builtins} (s : store) (n : str) : bool :=
  existsb (fun m => str_eqb (normalized m) (normalized n)) (foods s).

Definition has_recipe {B : Builtins} (s : store) (n : str) : bool :=
  existsb (fun r => str_eqb (normalized (snd r)) (normalized n)) (recipes s).

(** The request of [create_ingredient]. *)
Definition food_post (n : str) : request :=
  request_of POST (lit "/foods")
    (Some (JDict [(lit "name", JStr n);
                  (lit "description",
                   JStr (lit "Auto-created ingredient: " ++ n))])).

(** A computation that leaves the requests issued before it in place. *)
Definition extending {A} (c : M A) : Prop :=
  forall t, exists added, snd (c t) = t ++ added.

(** Store [u] holds every food, or recipe, that store [t] holds. *)
Definition covers_foods {B : Builtins} (u t : store) : Prop :=
  forall n, has_food t n = true -> has_food u n = true.

Definition covers_recipes {B : Builtins} (u t : store) : Prop :=
  forall n, has_recipe t n = true -> has_recipe u n = true.

(** Stores [u] and [t] hold recipes of the same names. *)
Definition same_recipes {B : Builtins} (u t : store) : Prop :=
  forall n, has_recipe u n = has_recipe t n.

(** The parts of [convert_recipe_to_mealie_format] before and after its
    first loop; neither issues a request. *)
Definition ingredient_lines (recipe : json) : result (list json) :=
  ingredient_texts <~ py_get recipe (lit "recipeIngredient") (JList []) ;;
  _ <~ py_len ingredient_texts ;;
  py_iter ingredient_texts.

Definition finish_recipe {B : Builtins} (recipe : json)
    (ingredients : list json) : result json :=
  recipe_instructions <~ py_get recipe (lit "recipeInstructions") (JList []) ;;
  steps <~ py_iter recipe_instructions ;;
  let instructions := convert_instructions steps 0 [] in
  nutrition_data <~ py_get recipe (lit "nutrition") (JDict []) ;;
  n <~ py_get recipe (lit "name") (JStr (lit "Untitled Recipe")) ;;
  d <~ py_get recipe (lit "description") (JStr []) ;;
  y <~ py_get recipe (lit "recipeYield") (JStr (lit "1")) ;;
  let mealie_recipe :=
    [ (lit "name", n);
      (lit "description", d);
      (lit "recipeYield", y);
      (lit "recipeIngredient", JList ingredients);
      (lit "recipeInstructions", JList instructions);
      (lit "notes", JList []);
      (lit "tags", JList []);
      (lit "settings", settings_block) ] in
  if truthy nutrition_data then
    c <~ py_get nutrition_data (lit "calories") (JStr []) ;;
    p <~ py_get nutrition_data (lit "proteinContent") (JStr []) ;;
    f <~ py_get nutrition_data (lit "fatContent") (JStr []) ;;
    h <~ py_get nutrition_data (lit "carbohydrateContent") (JStr []) ;;
    Ok (JDict (mealie_recipe ++
                [ (lit "nutrition",
                   JDict [ (lit "calories", c);
                           (lit "protein", p);
                           (lit "fatContent", f);
                           (lit "carbohydrateContent", h) ]) ]))
  else Ok (JDict mealie_recipe).

(** The request of [create_recipe]. *)
Definition recipe_post (payload : json) : request :=
  request_of POST (lit "/recipes") (Some payload).

(** What the second run needs of its store [u], given how the first run
    ended in store [t1]: at least the same foods; at least the same recipes
    if the first run went through, exactly the same names if it raised. *)
Definition agrees {B : Builtins} (r1 : result unit) (u t1 : store) : Prop :=
  covers_foods u t1
  /\ match r1 with
     | Ok _ => covers_recipes u t1
     | Raise _ => same_recipes u t1
     end.

(** The second run ends the way the first did. *)
Definition same_kind (r1 r2 : result unit) : Prop :=
  match r1 with
  | Ok _ => r2 = Ok tt
  | Raise _ => exists e, r2 = Raise e
  end.

(** No two foods of the store have the same name once lowercased and
    stripped, and no two recipes. *)
Definition distinct_names {B : Builtins} (s : store) : Prop :=
  NoDup (map normalized (foods s))
  /\ NoDup (map (fun r => normalized (snd r)) (recipes s)).

(** A computation that, run against the store that persists, leaves the
    names distinct if they were. *)
Definition keeps_distinct {B : Builtins} (init : store) {A} (c : M A) : Prop :=
  forall t,
    distinct_names (store_after init t) ->
    distinct_names (store_after init (snd (c t))).

(** The name that a listed record carries. *)
Definition stored_name (r : json) : option str :=
  match r with
  | JDict d =>
      match dict_find (lit "name") d with
      | Some (JStr n) => Some n
      | _ => None
      end
  | _ => None
  end.

(** A computation that issues only requests with a property, after those
    issued before it. *)
Definition issues {A} (P : request -> Prop) (c : M A) : Prop :=
  forall t, exists added, snd (c t) = t ++ added /\ Forall P added.

(** A result that is not an [HTTPError]. *)
Definition benign {A} (r : result A) : Prop :=
  forall status, r <> Raise (HTTPError status).

(** A computation that lets no [HTTPError] out. *)
Definition absorbs_HTTPError {A} (c : M A) : Prop :=
  forall t status, fst (c t) <> Raise (HTTPError status).

(** The entry types of a meal plan that the table of meal types can give. *)
Definition entry_types : list str :=
  [lit "breakfast"; lit "lunch"; lit "dinner"; lit "snack"].

(** The requests on foods and on recipes: a listing or a creation. *)
Definition on_foods (rq : request) : Prop :=
  rq = foods_listing \/ exists n, rq = food_post n.

Definition on_recipes (rq : request) : Prop :=
  rq = recipes_listing \/ exists p, rq = recipe_post p.

(** A meal-plan request for a date, with one of the entry types and an
    identifier that is not empty. *)
Definition plans (date : str) (rq : request) : Prop :=
  exists entry_type recipe_id,
    In entry_type entry_types /\ truthy recipe_id = true
    /\ rq = mealplan_request date entry_type recipe_id.

(** The text of one step of the payload: the [text] of a record, the empty
    string when it has none, and [str(item)] for anything else. *)
Definition step_text {B : Builtins} (instruction : json) : json :=
  match instruction with
  | JDict d => dict_get d (lit "text") (JStr [])
  | _ => JStr (py_str instruction)
  end.

(** The step of the payload for the instruction at position [i]. *)
Definition instruction_step {B : Builtins} (i : nat) (instruction : json)
    : json :=
  JDict [ (lit "id", JStr (int_str (Z.of_nat i)));
          (lit "title", JStr []);
          (lit "text", step_text instruction) ].

(** The nutrition record of the payload, read from the one of the menu. *)
Definition nutrition_block (n : dict) : json :=
  JDict [ (lit "calories", dict_get n (lit "calories") (JStr []));
          (lit "protein", dict_get n (lit "proteinContent") (JStr []));
          (lit "fatContent", dict_get n (lit "fatContent") (JStr []));
          (lit "carbohydrateContent",
           dict_get n (lit "carbohydrateContent") (JStr [])) ].







(* ================================================================== *)
(** * General lemmas                                                   *)
(* ================================================================== *)

Lemma str_eqb_eq (a b : str) : str_eqb a b = true <-> a = b.
Proof.
  unfold str_eqb. destruct (list_eq_dec N.eq_dec a b); split; congruence.
Qed.

Lemma str_eqb_refl (a : str) : str_eqb a a = true.
Proof. apply str_eqb_eq. reflexivity. Qed.

Lemma str_eqb_neq (a b : str) : str_eqb a b = false <-> a <> b.
Proof.
  unfold str_eqb. destruct (list_eq_dec N.eq_dec a b); split; congruence.
Qed.

Lemma startswith_prefix (p s : str) :
  startswith p s = true <-> exists b, s = p ++ b.
Proof.
  revert s. induction p as [|a p IH]; intros s; simpl.
  - split; [intros _; exists s; reflexivity | reflexivity].
  - destruct s as [|c s].
    + split; [discriminate | intros [b Hb]; discriminate].
    + rewrite andb_true_iff, N.eqb_eq, IH. split.
      * intros [-> [b ->]]. exists b. reflexivity.
      * intros [b Hb]. injection Hb as -> ->. split; [reflexivity | now exists b].
Qed.

Lemma contains_occurs (s p : str) : contains s p = true <-> occurs p s.
Proof.
  induction s as [|c s IH].
  - simpl. rewrite orb_false_r, startswith_prefix. split.
    + intros [b Hb]. exists [], b. exact Hb.
    + intros [a [b Hab]]. destruct a; simpl in Hab.
      * now exists b.
      * discriminate.
  - simpl. rewrite orb_true_iff, startswith_prefix, IH. split.
    + intros [[b Hb] | [a [b Hab]]].
      * exists [], b. exact Hb.
      * exists (c :: a), b. simpl. now rewrite Hab.
    + intros [a [b Hab]]. destruct a as [|a0 a]; simpl in Hab.
      * left. now exists b.
      * right. injection Hab as _ Hs. now exists a, b.
Qed.

Lemma first_with_cons_hit {A} (P : A -> Prop) x l :
  P x -> first_with P (x :: l) x.
Proof.
  intros Hx. exists [], l. repeat split; [exact Hx | intros y []].
Qed.

Lemma first_with_cons_miss {A} (P : A -> Prop) x y l :
  ~ P y -> first_with P l x -> first_with P (y :: l) x.
Proof.
  intros Hy (b & a & -> & Hx & Hb). exists (y :: b), a.
  repeat split; [exact Hx|]. intros z [<- | Hz]; [exact Hy | now apply Hb].
Qed.

Lemma first_with_unique {A} (P : A -> Prop) l x y :
  first_with P l x -> first_with P l y -> x = y.
Proof.
  intros (b1 & a1 & E1 & H1 & N1) (b2 & a2 & E2 & H2 & N2). subst l.
  revert b2 E2 N2. induction b1 as [|z b1 IH]; intros b2 E2 N2.
  - destruct b2 as [|w b2]; simpl in E2.
    + now injection E2.
    + injection E2 as -> _. exfalso. apply (N2 w); [now left | exact H1].
  - destruct b2 as [|w b2]; simpl in E2.
    + injection E2 as -> _. exfalso. apply (N1 y); [now left | exact H2].
    + injection E2 as -> E2. apply (IH (fun u Hu => N1 u (or_intror Hu)) b2 E2).
      intros u Hu. apply N2. now right.
Qed.

Lemma first_with_ext {A} (P Q : A -> Prop) (l : list A) (x : A) :
  (forall y, In y l -> (P y <-> Q y)) ->
  first_with P l x -> first_with Q l x.
Proof.
  intros H (b & a & -> & Px & Nb). exists b, a. split; [reflexivity|]. split.
  - apply H; [apply in_elt | exact Px].
  - intros y Hy Qy. apply (Nb y Hy). apply H; [|exact Qy].
    apply in_or_app. now left.
Qed.

(** Running a computation step by step. *)
Lemma bind_ok {A B} (m : M A) (f : A -> M B) t a t' :
  m t = (Ok a, t') -> bind m f t = f a t'.
Proof. intros E. unfold bind. now rewrite E. Qed.

Lemma bind_raise {A B} (m : M A) (f : A -> M B) t e t' :
  m t = (Raise e, t') -> bind m f t = (Raise e, t').
Proof. intros E. unfold bind. now rewrite E. Qed.

Arguments bind_ok {A B m} f {t a t'} _.
Arguments bind_raise {A B m} f {t e t'} _.

(* ================================================================== *)
(** * Listing the remote collections                                   *)
(* ================================================================== *)

Section Listing.
Context {B : Builtins} (srv : server).

(** What [get_ingredients] does with any reply. *)
Lemma get_ingredients_reply t :
  get_ingredients srv t =
  match srv t foods_listing with
  | NoResponse f => (Raise (transport_exn f), t ++ [foods_listing])
  | Response status b =>
      if raise_for_status status then (Ok [], t ++ [foods_listing])
      else
        match b with
        | Json data => (Ok (ingredients_of_payload data), t ++ [foods_listing])
        | NotJson msg => (Raise (JSONDecodeError msg), t ++ [foods_listing])
        end
  end.
Proof.
  unfold get_ingredients, except_HTTPError, bind, _request, lift, ret.
  fold foods_listing. unfold foods_listing, request_of.
  destruct (srv t _) as [status b | f].
  - destruct (raise_for_status status); [reflexivity|].
    destruct b; reflexivity.
  - destruct f; reflexivity.
Qed.

(** What [get_recipes] does with any reply. *)
Lemma get_recipes_reply t :
  get_recipes srv t =
  match srv t recipes_listing with
  | NoResponse f => (Raise (transport_exn f), t ++ [recipes_listing])
  | Response status b =>
      if raise_for_status status then (Ok (JList []), t ++ [recipes_listing])
      else
        match b with
        | Json (JDict d) =>
            (Ok (dict_get d (lit "items") (JList [])), t ++ [recipes_listing])
        | Json _ => (Raise AttributeError, t ++ [recipes_listing])
        | NotJson msg => (Raise (JSONDecodeError msg), t ++ [recipes_listing])
        end
  end.
Proof.
  unfold get_recipes, except_HTTPError, bind, _request, lift, ret.
  fold recipes_listing. unfold recipes_listing, request_of.
  destruct (srv t _) as [status b | f].
  - destruct (raise_for_status status); [reflexivity|].
    destruct b as [j|msg]; [destruct j|]; reflexivity.
  - destruct f; reflexivity.
Qed.

End Listing.

(** C1, as the code has it, for each listing call by itself: when the
    server answers the call with an error status (4xx or 5xx, which
    [raise_for_status] turns into [HTTPError]), [get_ingredients], and
    likewise [get_recipes], returns an empty sequence and nothing
    propagates, whatever the server does with other requests; when no
    response arrives for the call, the exception of the transport is not an
    [HTTPError] and propagates. *)
Theorem listing_error_status_gives_empty :
  (forall (B : Builtins) (srv : server) (t : list request) (status : Z)
          (b : body),
      400 <= status < 600 ->
      srv t foods_listing = Response status b ->
      get_ingredients srv t = (Ok [], t ++ [foods_listing]))
  /\ (forall (srv : server) (t : list request) (status : Z) (b : body),
        400 <= status < 600 ->
        srv t recipes_listing = Response status b ->
        get_recipes srv t = (Ok (JList []), t ++ [recipes_listing]))
  /\ (forall (B : Builtins) (srv : server) (t : list request)
             (f : transport_failure),
        srv t foods_listing = NoResponse f ->
        get_ingredients srv t
        = (Raise (transport_exn f), t ++ [foods_listing]))
  /\ (forall (srv : server) (t : list request) (f : transport_failure),
        srv t recipes_listing = NoResponse f ->
        get_recipes srv t
        = (Raise (transport_exn f), t ++ [recipes_listing])).
Proof.
  assert (R : forall status, 400 <= status < 600 ->
                             raise_for_status status = true).
  { intros status H. unfold raise_for_status.
    replace (400 <=? status) with true by (symmetry; apply Z.leb_le; lia).
    replace (status <? 600) with true by (symmetry; apply Z.ltb_lt; lia).
    reflexivity. }
  split; [|split; [|split]].
  - intros B srv t status b H E.
    now rewrite get_ingredients_reply, E, (R status H).
  - intros srv t status b H E.
    now rewrite get_recipes_reply, E, (R status H).
  - intros B srv t f E. now rewrite get_ingredients_reply, E.
  - intros srv t f E. now rewrite get_recipes_reply, E.
Qed.

(** The foods listing fails with a 503 while the recipes are listed, and
    the other way round; then a server out of reach. *)
Lemma listing_error_status_gives_empty_witness :
  let foods_down : server := fun _ rq =>
    if str_eqb (req_endpoint rq) (lit "/foods")
    then Response 503 (NotJson [])
    else Response 200 (Json (JDict [(lit "items", JList [])])) in
  let recipes_down : server := fun _ rq =>
    if str_eqb (req_endpoint rq) (lit "/recipes")
    then Response 404 (NotJson [])
    else Response 200 (Json (JList [])) in
  get_ingredients (B:=latin1) foods_down [] = (Ok [], [foods_listing])
  /\ get_recipes recipes_down [] = (Ok (JList []), [recipes_listing])
  /\ get_ingredients (B:=latin1) unreachable []
     = (Raise ConnectionError, [foods_listing])
  /\ get_recipes unreachable [] = (Raise ConnectionError, [recipes_listing]).
Proof.
  intros foods_down recipes_down.
  destruct listing_error_status_gives_empty as (F & R & FN & RN).
  split; [|split; [|split]].
  - apply (F latin1 foods_down [] 503 (NotJson [])); [lia | reflexivity].
  - apply (R recipes_down [] 404 (NotJson [])); [lia | reflexivity].
  - apply (FN latin1 unreachable [] Refused). reflexivity.
  - apply (RN unreachable [] Refused). reflexivity.
Defined.

(** C1 as stated fails: with the server out of reach both listing calls
    raise [ConnectionError] instead of returning an empty sequence. *)
Lemma listing_transport_failure_counterexample :
  fst (get_ingredients (B:=latin1) unreachable []) = Raise ConnectionError
  /\ fst (get_recipes unreachable []) = Raise ConnectionError
  /\ fst (get_ingredients (B:=latin1) unreachable []) <> Ok [].
Proof.
  repeat split. discriminate.
Qed.

(* ================================================================== *)
(** * The shapes of the ingredient payload                             *)
(* ================================================================== *)

Lemma kept_value (v : json) :
  negb (is_scalar v) || truthy v = negb (falsy_scalar v).
Proof.
  destruct v as [|b|z|f|s|l|d]; simpl; try reflexivity.
  - now destruct b.
  - destruct f as [| |s m e]; try reflexivity. now destruct m.
  - now destruct s.
Qed.

Lemma as_record_is_dict {B : Builtins} (v : json) : is_dict (as_record v) = true.
Proof. unfold as_record. destruct (is_dict v) eqn:E; [exact E | reflexivity]. Qed.

Lemma ingredients_of_payload_records {B : Builtins} (data : json) :
  Forall (fun r => is_dict r = true) (ingredients_of_payload data).
Proof.
  assert (M : forall l, Forall (fun r => is_dict r = true) (map as_record l)).
  { intros l. apply Forall_forall. intros r Hr. apply in_map_iff in Hr.
    destruct Hr as [v [<- _]]. apply as_record_is_dict. }
  unfold ingredients_of_payload. destruct data; try apply M; try constructor.
  destruct (dict_get d (lit "items") JNull); apply M.
Qed.

(** C6, as the code has it: a successful reply in any of the three shapes
    becomes one sequence of records.  A raw array and an [items] array are
    taken entry by entry, every entry that is not a record becoming
    [{name: str(entry)}]; of an object keyed by identifier the values are
    taken, except the scalars that are false (empty string, zero, [False]),
    which are dropped. *)
Theorem get_ingredients_normalizes_payload :
  forall (B : Builtins) (srv : server) (t : list request)
         (status : Z) (data : json),
    status < 400 \/ 600 <= status ->
    srv t foods_listing = Response status (Json data) ->
    exists records,
      get_ingredients srv t = (Ok records, t ++ [foods_listing])
      /\ Forall (fun r => is_dict r = true) records
      /\ (forall l, data = JList l -> records = map as_record l)
      /\ (forall d items,
            data = JDict d ->
            dict_find (lit "items") d = Some (JList items) ->
            records = map as_record items)
      /\ (forall d,
            data = JDict d ->
            (forall items, dict_find (lit "items") d <> Some (JList items)) ->
            records =
            map as_record
              (filter (fun v => negb (falsy_scalar v)) (dict_values d)))
      /\ (forall v, is_dict v = true -> as_record v = v)
      /\ (forall v, is_dict v = false ->
            as_record v = JDict [(lit "name", JStr (py_str v))]).
Proof.
  intros B srv t status data Hs E.
  exists (ingredients_of_payload data).
  rewrite get_ingredients_reply, E.
  assert (S : raise_for_status status = false).
  { unfold raise_for_status. apply andb_false_iff.
    destruct Hs; [left; apply Z.leb_gt | right; apply Z.ltb_ge]; lia. }
  rewrite S. split; [reflexivity|].
  split; [apply ingredients_of_payload_records|].
  split; [intros l ->; reflexivity|].
  split.
  { intros d items -> F. simpl. unfold dict_get. now rewrite F. }
  split.
  { intros d -> F. simpl. unfold dict_get.
    rewrite (filter_ext _ _ kept_value).
    destruct (dict_find (lit "items") d) as [v|] eqn:D; [|reflexivity].
    destruct v; try reflexivity. exfalso. now apply (F l). }
  split; intros v Hv; unfold as_record; now rewrite Hv.
Qed.

Lemma get_ingredients_normalizes_payload_witness :
  exists records,
    get_ingredients (B:=latin1)
      (always 200 (JList [JDict [(lit "name", JStr (lit "ajvár"))];
                          JStr (lit "oats"); JInt 0])) []
    = (Ok records, [foods_listing])
    /\ records = [JDict [(lit "name", JStr (lit "ajvár"))];
                  JDict [(lit "name", JStr (lit "oats"))];
                  JDict [(lit "name", JStr (lit "0"))]].
Proof.
  assert (Hs : 200 < 400 \/ 600 <= 200) by (left; lia).
  destruct (@get_ingredients_normalizes_payload latin1
              (always 200 (JList [JDict [(lit "name", JStr (lit "ajvár"))];
                                  JStr (lit "oats"); JInt 0]))
              [] 200 _ Hs eq_refl)
    as (records & E & _ & L & _).
  exists records. split; [exact E|]. now rewrite (L _ eq_refl).
Defined.

(** C6 as stated fails: in an object keyed by identifier an entry [0] is
    not coerced into [{name: "0"}], it is dropped. *)
Lemma get_ingredients_drops_false_scalars_counterexample :
  let payload := JDict [(lit "17", JInt 0)] in
  fst (get_ingredients (B:=latin1) (always 200 payload) []) = Ok []
  /\ fst (get_ingredients (B:=latin1) (always 200 payload) [])
     <> Ok [JDict [(lit "name", JStr (py_str (B:=latin1) (JInt 0)))]].
Proof.
  split; [reflexivity | discriminate].
Qed.

(* ================================================================== *)
(** * Meal types                                                       *)
(* ================================================================== *)

Lemma scan_meal_types_first (items : list (str * str)) (text : str) :
  match scan_meal_types items text with
  | Some e => exists k, first_with (has_key text) items (k, e)
  | None => forall entry, In entry items -> ~ has_key text entry
  end.
Proof.
  induction items as [|[k e] items IH]; simpl.
  - intros entry [].
  - destruct (contains text k) eqn:C.
    + exists k. apply first_with_cons_hit. now apply contains_occurs.
    + assert (N : ~ has_key text (k, e)).
      { unfold has_key. simpl. rewrite <- contains_occurs. congruence. }
      destruct (scan_meal_types items text) as [e'|].
      * destruct IH as [k' F]. exists k'. now apply first_with_cons_miss.
      * intros entry [<- | Hin]; [exact N | now apply IH].
Qed.

(** The table of the code is the table of the specification. *)
Lemma MEAL_TYPE_MAP_is_the_table : MEAL_TYPE_MAP = meal_type_table.
Proof. reflexivity. Qed.

Lemma scan_meal_types_hit (text k e : str) :
  first_with (has_key text) meal_type_table (k, e) ->
  scan_meal_types MEAL_TYPE_MAP text = Some e.
Proof.
  rewrite MEAL_TYPE_MAP_is_the_table.
  intros F. pose proof (scan_meal_types_first meal_type_table text) as S.
  destruct (scan_meal_types meal_type_table text) as [e'|].
  - destruct S as [k' F']. pose proof (first_with_unique F F') as E.
    now injection E as _ ->.
  - exfalso. destruct F as (b & a & E & P & _).
    apply (S (k, e)); [rewrite E; apply in_elt | exact P].
Qed.

Lemma scan_meal_types_miss (text : str) :
  no_key text -> scan_meal_types MEAL_TYPE_MAP text = None.
Proof.
  rewrite MEAL_TYPE_MAP_is_the_table.
  intros N. pose proof (scan_meal_types_first meal_type_table text) as S.
  destruct (scan_meal_types meal_type_table text) as [e'|]; [|reflexivity].
  exfalso. destruct S as [k (b & a & E & P & _)].
  apply (N (k, e')); [rewrite E; apply in_elt | exact P].
Qed.

(** No key of the table holds a key listed before it, so a text that is one
    of the keys gives the value listed with it. *)
Lemma scan_meal_types_key (k e : str) :
  In (k, e) meal_type_table -> scan_meal_types MEAL_TYPE_MAP k = Some e.
Proof.
  intros H. cbn in H.
  repeat (destruct H as [H|H]; [injection H as <- <-; reflexivity|]).
  destruct H.
Qed.

(** C3: the table is the one of the specification, the seven keys reggeli,
    ebéd, vacsora, snack, breakfast, lunch, dinner in this order with the
    values breakfast, lunch, dinner, snack, breakfast, lunch, dinner.  With
    the keywords a string, [extract_meal_type] returns the value of the
    first key of that table that occurs in the lowercased keywords; if none
    occurs there, the value of the first key that occurs in the lowercased
    description; and ["dinner"] if none occurs in either.  Keywords whose
    lowercase form contains ["reggeli"] give ["breakfast"], and keywords
    whose lowercase form is one of the seven keys give the value listed
    with that key. *)
Theorem extract_meal_type_first_key :
  forall (B : Builtins) (d : dict) (kw : str),
    dict_get d (lit "keywords") (JStr []) = JStr kw ->
    (forall k e,
        first_with (has_key (str_lower kw)) meal_type_table (k, e) ->
        extract_meal_type (JDict d) = Ok e)
    /\ (forall desc k e,
          no_key (str_lower kw) ->
          dict_get d (lit "description") (JStr []) = JStr desc ->
          first_with (has_key (str_lower desc)) meal_type_table (k, e) ->
          extract_meal_type (JDict d) = Ok e)
    /\ (forall desc,
          no_key (str_lower kw) ->
          dict_get d (lit "description") (JStr []) = JStr desc ->
          no_key (str_lower desc) ->
          extract_meal_type (JDict d) = Ok (lit "dinner"))
    /\ (occurs (lit "reggeli") (str_lower kw) ->
        extract_meal_type (JDict d) = Ok (lit "breakfast"))
    /\ (forall k e,
          In (k, e) [ (lit "reggeli", lit "breakfast");
                      (lit "ebéd", lit "lunch");
                      (lit "vacsora", lit "dinner");
                      (lit "snack", lit "snack");
                      (lit "breakfast", lit "breakfast");
                      (lit "lunch", lit "lunch");
                      (lit "dinner", lit "dinner") ] ->
          str_lower kw = k ->
          extract_meal_type (JDict d) = Ok e).
Proof.
  intros B d kw K. unfold extract_meal_type. cbn [py_get rbind]. rewrite K.
  split; [|split; [|split; [|split]]].
  - intros k e F. now rewrite (scan_meal_types_hit F).
  - intros desc k e N D F. rewrite (scan_meal_types_miss N), D.
    cbn [py_lower rbind]. now rewrite (scan_meal_types_hit F).
  - intros desc N D N'. rewrite (scan_meal_types_miss N), D.
    cbn [py_lower rbind]. now rewrite (scan_meal_types_miss N').
  - intros O.
    rewrite (@scan_meal_types_hit _ (lit "reggeli") (lit "breakfast"));
      [reflexivity|].
    now apply first_with_cons_hit.
  - intros k e I E. rewrite E. now rewrite (scan_meal_types_key I).
Qed.

Lemma extract_meal_type_first_key_witness :
  extract_meal_type (B:=latin1)
    (JDict [(lit "name", JStr (lit "Zabkása"));
            (lit "keywords", JStr (lit "Gyors REGGELI, zab"))])
  = Ok (lit "breakfast")
  /\ extract_meal_type (B:=latin1)
       (JDict [(lit "name", JStr (lit "Müzli")); (lit "keywords", JStr (lit "Snack"))])
     = Ok (lit "snack")
  /\ extract_meal_type (B:=latin1)
       (JDict [(lit "keywords", JStr (lit "zab"));
               (lit "description", JStr (lit "Könnyű EBÉD vagy vacsora"))])
     = Ok (lit "lunch").
Proof.
  split; [|split].
  - refine (proj1 (proj2 (proj2 (proj2
              (@extract_meal_type_first_key latin1
                 [(lit "name", JStr (lit "Zabkása"));
                  (lit "keywords", JStr (lit "Gyors REGGELI, zab"))]
                 (lit "Gyors REGGELI, zab") eq_refl)))) _).
    apply contains_occurs. reflexivity.
  - refine (proj2 (proj2 (proj2 (proj2
              (@extract_meal_type_first_key latin1
                 [(lit "name", JStr (lit "Müzli"));
                  (lit "keywords", JStr (lit "Snack"))]
                 (lit "Snack") eq_refl)))) (lit "snack") (lit "snack") _ eq_refl).
    simpl. tauto.
  - refine (proj1 (proj2
              (@extract_meal_type_first_key latin1
                 [(lit "keywords", JStr (lit "zab"));
                  (lit "description", JStr (lit "Könnyű EBÉD vagy vacsora"))]
                 (lit "zab") eq_refl))
              (lit "Könnyű EBÉD vagy vacsora") (lit "ebéd") (lit "lunch")
              _ eq_refl _).
    + intros entry I. cbn in I. unfold has_key.
      repeat (destruct I as [<-|I];
              [rewrite <- contains_occurs; cbn [fst]; vm_compute; discriminate|]).
      destruct I.
    + apply first_with_cons_miss.
      { unfold has_key. rewrite <- contains_occurs. vm_compute. discriminate. }
      apply first_with_cons_hit. unfold has_key.
      rewrite <- contains_occurs. reflexivity.
Defined.

(* ================================================================== *)
(** * Ingredient lines                                                 *)
(* ================================================================== *)

(** Whatever a repetition hands to its continuation is a run of the class,
    at least [min] long, taken from the front of the input. *)
Lemma rep_sound {A} (cls : N -> bool) (k : str -> str -> option A) (r : A) :
  forall (s : str) (min : nat) (taken : str),
    rep cls min taken s k = Some r ->
    exists m rest,
      s = m ++ rest /\ forallb cls m = true /\ (min <= List.length m)%nat
      /\ k (taken ++ m) rest = Some r.
Proof.
  assert (Stop : forall s min taken,
             match min with O => k taken s | S _ => None end = Some r ->
             exists m rest,
               s = m ++ rest /\ forallb cls m = true
               /\ (min <= List.length m)%nat /\ k (taken ++ m) rest = Some r).
  { intros s min taken E. destruct min; [|discriminate].
    exists [], s. rewrite app_nil_r. repeat split; auto. }
  induction s as [|c s IH]; intros min taken E; simpl in E.
  - now apply Stop.
  - destruct (cls c) eqn:C; [|now apply Stop].
    destruct (rep cls (Nat.pred min) (taken ++ [c]) s k) as [r'|] eqn:R;
      [|now apply Stop].
    injection E as ->. apply IH in R.
    destruct R as (m & rest & -> & F & L & K).
    exists (c :: m), rest. simpl. rewrite C, F.
    rewrite <- app_assoc in K. repeat split; auto. lia.
Qed.

(** A [+] repetition fails at once on an input that does not begin with a
    character of its class. *)
Lemma rep_plus_no_start {A} (cls : N -> bool) (k : str -> str -> option A)
    (s : str) :
  match s with c :: _ => cls c = false | [] => True end ->
  rep cls 1 [] s k = None.
Proof.
  destruct s as [|c s]; simpl; [reflexivity|]. now intros ->.
Qed.

Lemma lstrip_head (s : str) :
  match lstrip s with c :: _ => isspace c = false | [] => True end.
Proof.
  induction s as [|c s IH]; simpl; [exact I|].
  destruct (isspace c) eqn:C; [exact IH | exact C].
Qed.

(** A stripped string does not end in whitespace. *)
Lemma strip_last (s a : str) (c : N) :
  strip s = a ++ [c] -> isspace c = false.
Proof.
  unfold strip, rstrip. intros E.
  apply (f_equal (@rev N)) in E. rewrite rev_involutive, rev_unit in E.
  pose proof (lstrip_head (rev (lstrip s))) as Hd. now rewrite E in Hd.
Qed.

Lemma nonempty_length {A} (l : list A) : (1 <= List.length l)%nat -> l <> [].
Proof. destruct l; simpl; [lia | discriminate]. Qed.

Lemma length_nonempty {A} (l : list A) : l <> [] -> (1 <= List.length l)%nat.
Proof. destruct l; simpl; [congruence | lia]. Qed.

(** A repetition finds a match whenever some run of the class, long enough,
    lets the continuation go on: the longer runs are tried first, and the
    run is reached when they fail. *)
Lemma rep_complete {A} (cls : N -> bool) (k : str -> str -> option A) :
  forall (m rest : str) (min : nat) (taken : str),
    forallb cls m = true -> (min <= List.length m)%nat ->
    k (taken ++ m) rest <> None ->
    rep cls min taken (m ++ rest) k <> None.
Proof.
  induction m as [|c m IH]; intros rest min taken F L K.
  - simpl in L. assert (min = O) by lia. subst min.
    rewrite app_nil_r in K. cbn [app].
    destruct rest as [|c rest]; cbn [rep]; [exact K|].
    destruct (cls c); [|exact K].
    destruct (rep cls (Nat.pred 0) (taken ++ [c]) rest k); [discriminate|].
    exact K.
  - cbn [forallb] in F. apply andb_true_iff in F. destruct F as [C F].
    cbn [app rep]. rewrite C.
    assert (R : rep cls (Nat.pred min) (taken ++ [c]) (m ++ rest) k <> None).
    { apply IH; [exact F | simpl in L; lia |].
      now rewrite <- app_assoc. }
    destruct (rep cls (Nat.pred min) (taken ++ [c]) (m ++ rest) k);
      [discriminate | congruence].
Qed.

Section IngredientLines.
Context {B : Builtins}.

(** A successful match splits the text the way the pattern reads. *)
Lemma ingredient_match_sound (s group1 group2 : str) :
  ingredient_match s = Some (group1, group2) ->
  exists digits gap unit sep tail,
    s = digits ++ gap ++ unit ++ sep ++ group2 ++ tail
    /\ group1 = digits ++ gap ++ unit
    /\ digits <> [] /\ forallb numeric digits = true
    /\ forallb isspace gap = true
    /\ forallb letter unit = true
    /\ sep <> [] /\ forallb isspace sep = true
    /\ group2 <> [] /\ forallb any_char group2 = true
    /\ at_end tail = true.
Proof.
  unfold ingredient_match. cbn [exec]. intros E.
  apply rep_sound in E. destruct E as (digits & r1 & -> & Fd & Ld & E).
  apply rep_sound in E. destruct E as (gap & r2 & -> & Fg & _ & E).
  apply rep_sound in E. destruct E as (unit & r3 & -> & Fu & _ & E).
  apply rep_sound in E. destruct E as (sep & r4 & -> & Fs & Ls & E).
  apply rep_sound in E. destruct E as (g2 & tail & -> & Fa & La & E).
  destruct (at_end tail) eqn:T; [|discriminate].
  injection E as <- <-. simpl.
  exists digits, gap, unit, sep, tail.
  pose proof (nonempty_length Ld). pose proof (nonempty_length Ls).
  pose proof (nonempty_length La).
  rewrite <- app_assoc. tauto.
Qed.

Lemma ingredient_match_needs_number (s : str) :
  match s with c :: _ => numeric c = false | [] => True end ->
  ingredient_match s = None.
Proof.
  intros Hs. unfold ingredient_match. cbn [exec].
  now apply rep_plus_no_start.
Qed.

(** A text of the form of the pattern is matched: the matcher gives
    characters back until the rest of the pattern fits. *)
Lemma ingredient_match_complete (digits gap unit sep rest : str) :
  digits <> [] -> forallb numeric digits = true ->
  forallb isspace gap = true ->
  forallb letter unit = true ->
  sep <> [] -> forallb isspace sep = true ->
  rest <> [] -> forallb any_char rest = true ->
  ingredient_match (digits ++ gap ++ unit ++ sep ++ rest) <> None.
Proof.
  intros Nd Fd Fg Fu Ns Fs Nr Fr. unfold ingredient_match. cbn [exec].
  apply rep_complete; [exact Fd | now apply length_nonempty |].
  apply rep_complete; [exact Fg | apply Nat.le_0_l |].
  apply rep_complete; [exact Fu | apply Nat.le_0_l |].
  apply rep_complete; [exact Fs | now apply length_nonempty |].
  rewrite <- (app_nil_r rest).
  apply rep_complete; [exact Fr | now apply length_nonempty |].
  discriminate.
Qed.

(** A match of a trimmed line reaches its end, and splits it as the pattern
    reads. *)
Lemma ingredient_match_split (text group1 group2 : str) :
  ingredient_match (strip text) = Some (group1, group2) ->
  exists digits gap unit sep,
    strip text = digits ++ gap ++ unit ++ sep ++ group2
    /\ group1 = digits ++ gap ++ unit
    /\ digits <> [] /\ forallb numeric digits = true
    /\ forallb isspace gap = true
    /\ forallb letter unit = true
    /\ sep <> [] /\ forallb isspace sep = true
    /\ group2 <> [] /\ forallb any_char group2 = true.
Proof.
  intros E. apply ingredient_match_sound in E.
  destruct E as (digits & gap & unit & sep & tail & E & -> & R).
  assert (T : tail = []).
  { destruct tail as [|c [|c' tail]]; [reflexivity | | ].
    - exfalso. assert (S : isspace c = true).
      { destruct R as (_ & _ & _ & _ & _ & _ & _ & _ & T).
        simpl in T. apply N.eqb_eq in T. now subst c. }
      rewrite !app_assoc in E. apply strip_last in E. congruence.
    - destruct R as (_ & _ & _ & _ & _ & _ & _ & _ & T). discriminate. }
  subst tail. rewrite app_nil_r in E.
  exists digits, gap, unit, sep. tauto.
Qed.

End IngredientLines.

(** C8: [parse_ingredient_text] keeps the line as [original_text].  A
    trimmed line of the form of the pattern, that is a leading run of
    digits, dots and hyphens, optional whitespace, an optional unit word,
    whitespace and a name, is split: the result is such a reading of the
    line, with the leading run, the whitespace and the unit word as the
    quantity and the rest as the name, each trimmed.  A line that is not
    split gives an empty quantity with the whole trimmed line as the name,
    and a line that does not begin with a digit, dot or hyphen is not split.
    The lines of the specification parse as it says; "2 eggs" and "1 kg"
    have no unit but a name, and "50-100 g friss zöldség" a range.
    ([any_char] is the dot of the pattern: any character but a newline.) *)
Theorem parse_ingredient_text_splits :
  (forall (B : Builtins) (text : str),
      let p := parse_ingredient_text text in
      original_text p = text
      /\ ((quantity p = [] /\ name p = strip text)
          \/ exists digits gap unit sep rest,
               strip text = digits ++ gap ++ unit ++ sep ++ rest
               /\ digits <> [] /\ forallb numeric digits = true
               /\ forallb isspace gap = true
               /\ forallb letter unit = true
               /\ sep <> [] /\ forallb isspace sep = true
               /\ rest <> [] /\ forallb any_char rest = true
               /\ quantity p = strip (digits ++ gap ++ unit)
               /\ name p = strip rest)
      /\ (match strip text with
          | c :: _ => numeric c = false
          | [] => True
          end ->
          quantity p = [] /\ name p = strip text))
  /\ (forall (B : Builtins) (text digits gap unit sep rest : str),
        strip text = digits ++ gap ++ unit ++ sep ++ rest ->
        digits <> [] -> forallb numeric digits = true ->
        forallb isspace gap = true ->
        forallb letter unit = true ->
        sep <> [] -> forallb isspace sep = true ->
        rest <> [] -> forallb any_char rest = true ->
        let p := parse_ingredient_text text in
        exists digits' gap' unit' sep' rest',
          strip text = digits' ++ gap' ++ unit' ++ sep' ++ rest'
          /\ digits' <> [] /\ forallb numeric digits' = true
          /\ forallb isspace gap' = true
          /\ forallb letter unit' = true
          /\ sep' <> [] /\ forallb isspace sep' = true
          /\ rest' <> [] /\ forallb any_char rest' = true
          /\ quantity p = strip (digits' ++ gap' ++ unit')
          /\ name p = strip rest')
  /\ (let p := parse_ingredient_text (B:=latin1) (lit "30 g ajvár") in
      quantity p = lit "30 g" /\ name p = lit "ajvár")
  /\ (let p := parse_ingredient_text (B:=latin1) (lit "a pinch of salt") in
      quantity p = [] /\ name p = lit "a pinch of salt")
  /\ (let p := parse_ingredient_text (B:=latin1) (lit "2 eggs") in
      quantity p = lit "2" /\ name p = lit "eggs")
  /\ (let p := parse_ingredient_text (B:=latin1) (lit "1 kg") in
      quantity p = lit "1" /\ name p = lit "kg")
  /\ (let p := parse_ingredient_text (B:=latin1)
                 (lit "50-100 g friss zöldség") in
      quantity p = lit "50-100 g" /\ name p = lit "friss zöldség").
Proof.
  split; [|split; [|repeat split; reflexivity]].
  - intros B text p. subst p. unfold parse_ingredient_text.
    destruct (ingredient_match (strip text)) as [[g1 g2]|] eqn:E; cbn.
    + split; [reflexivity|]. split.
      * right. apply ingredient_match_split in E.
        destruct E as (digits & gap & unit & sep & E & -> & R).
        exists digits, gap, unit, sep, g2. tauto.
      * intros Hs. rewrite (ingredient_match_needs_number _ Hs) in E.
        discriminate.
    + split; [reflexivity|]. split; [left|]; auto.
  - intros B text digits gap unit sep rest E Nd Fd Fg Fu Ns Fs Nr Fr p.
    subst p. unfold parse_ingredient_text.
    pose proof (@ingredient_match_complete B digits gap unit sep rest
                  Nd Fd Fg Fu Ns Fs Nr Fr) as C.
    rewrite <- E in C.
    destruct (ingredient_match (strip text)) as [[g1 g2]|] eqn:M;
      [|congruence].
    cbn. apply ingredient_match_split in M.
    destruct M as (digits' & gap' & unit' & sep' & E' & -> & R).
    exists digits', gap', unit', sep', g2. tauto.
Qed.

Lemma parse_ingredient_text_splits_witness :
  (quantity (parse_ingredient_text (B:=latin1) (lit "  friss zöldség ")) = []
   /\ name (parse_ingredient_text (B:=latin1) (lit "  friss zöldség "))
      = lit "friss zöldség")
  /\ exists digits gap unit sep rest,
       strip (lit " 2 large eggs ") = digits ++ gap ++ unit ++ sep ++ rest
       /\ digits <> [] /\ forallb (numeric (B:=latin1)) digits = true
       /\ forallb isspace gap = true
       /\ forallb letter unit = true
       /\ sep <> [] /\ forallb isspace sep = true
       /\ rest <> [] /\ forallb any_char rest = true
       /\ quantity (parse_ingredient_text (B:=latin1) (lit " 2 large eggs "))
          = strip (digits ++ gap ++ unit)
       /\ name (parse_ingredient_text (B:=latin1) (lit " 2 large eggs "))
          = strip rest.
Proof.
  split.
  - apply (proj2 (proj2 (proj1 parse_ingredient_text_splits latin1
                           (lit "  friss zöldség ")))).
    reflexivity.
  - apply (proj1 (proj2 parse_ingredient_text_splits) latin1
             (lit " 2 large eggs ") (lit "2") [] [] (lit " ")
             (lit "large eggs"));
      first [reflexivity | discriminate].
Defined.

(* ================================================================== *)
(** * Looking entities up by name                                      *)
(* ================================================================== *)

Section Lookup.
Context {B : Builtins}.

Lemma lookup_result_nil name_of q : lookup_result name_of q [] JNull.
Proof.
  split; [split|]; try congruence. intros (r & [] & _).
Qed.

Lemma lookup_result_hit name_of q r rest :
  r <> JNull -> named_like name_of q r ->
  lookup_result name_of q (r :: rest) r.
Proof.
  intros Hr Hn. split; [split|].
  - intros _. exists r. split; [now left | exact Hn].
  - intros _. exact Hr.
  - intros _. now apply first_with_cons_hit.
Qed.

Lemma lookup_result_miss name_of q r rest v :
  ~ named_like name_of q r ->
  lookup_result name_of q rest v ->
  lookup_result name_of q (r :: rest) v.
Proof.
  intros Hn [Hiff Hfirst]. split; [split|].
  - intros Hv. destruct (proj1 Hiff Hv) as (r' & Hin & Hr').
    exists r'. split; [now right | exact Hr'].
  - intros (r' & [<- | Hin] & Hr'); [contradiction|].
    apply Hiff. now exists r'.
  - intros Hv. apply first_with_cons_miss; auto.
Qed.

Lemma find_recipe_lookup (q : str) (listing : list json) :
  Forall (fun r => recipe_name r <> None) listing ->
  exists v,
    find_recipe listing (strip (str_lower q)) = Ok v
    /\ lookup_result recipe_name q listing v.
Proof.
  induction 1 as [|r rest Hr _ IH]; simpl.
  - exists JNull. split; [reflexivity | apply lookup_result_nil].
  - destruct r as [| | | | | |d]; simpl in Hr; try congruence.
    cbn [py_get rbind].
    destruct (dict_get d (lit "name") (JStr [])) as [| | | |n| |] eqn:D;
      try congruence.
    cbn [py_lower rbind].
    destruct (str_eqb (strip (str_lower n)) (strip (str_lower q))) eqn:E.
    + exists (JDict d). split; [reflexivity|].
      apply lookup_result_hit; [discriminate|].
      exists n. simpl. rewrite D. split; [reflexivity|].
      now apply str_eqb_eq.
    + destruct IH as (v & F & L). exists v. split; [exact F|].
      apply lookup_result_miss; [|exact L].
      intros (n' & Hn' & S). simpl in Hn'. rewrite D in Hn'.
      injection Hn' as <-. apply str_eqb_neq in E. now apply E.
Qed.


End Lookup.

Lemma stored_name_recipe_name (r : json) (n : str) :
  stored_name r = Some n -> recipe_name r = Some n /\ truthy r = true.
Proof.
  destruct r as [| | | | | |d]; try discriminate. simpl. unfold dict_get.
  destruct (dict_find (lit "name") d) as [[| | | |m| |]|] eqn:F;
    try discriminate.
  intros E. injection E as ->. split; [reflexivity|].
  destruct d; [discriminate | reflexivity].
Qed.






(** C9 as stated fails for ingredients: a record whose name is the empty
    string is compared by its title, so it is found under its title though
    its name is not the query, and not found under the empty query though
    its name is. *)
Lemma ingredient_lookup_by_title_counterexample :
  let stored := JDict [(lit "name", JStr []); (lit "title", JStr (lit "Ajvár"))] in
  let srv := always 200 (JList [stored]) in
  fst (get_ingredient_by_name (B:=latin1) srv (lit "ajvár") []) = Ok stored
  /\ stored_name stored = Some []
  /\ ~ same_name (B:=latin1) [] (lit "ajvár")
  /\ fst (get_ingredient_by_name (B:=latin1) srv (lit " ") []) = Ok JNull
  /\ same_name (B:=latin1) [] (lit " ").
Proof.
  intros stored srv. split; [reflexivity|]. split; [reflexivity|].
  split; [intros H; vm_compute in H; discriminate H|].
  split; reflexivity.
Qed.

(* ================================================================== *)
(** * Week dates                                                       *)
(* ================================================================== *)

Lemma days_before_year_bounds (year : Z) :
  1 <= year <= 9999 -> 0 <= days_before_year year <= 3651694.
Proof.
  intros Hy. unfold days_before_year.
  pose proof (Z.div_mod (year - 1) 4 ltac:(lia)).
  pose proof (Z.mod_pos_bound (year - 1) 4 ltac:(lia)).
  pose proof (Z.div_mod (year - 1) 100 ltac:(lia)).
  pose proof (Z.mod_pos_bound (year - 1) 100 ltac:(lia)).
  pose proof (Z.div_mod (year - 1) 400 ltac:(lia)).
  pose proof (Z.mod_pos_bound (year - 1) 400 ltac:(lia)).
  lia.
Qed.

Lemma january_4 (year : Z) :
  1 <= year <= 9999 ->
  datetime year 1 4 = Ok (ymd2ord year 1 4)
  /\ 4 <= ymd2ord year 1 4 <= 3651698.
Proof.
  intros Hy. split.
  - unfold datetime, MINYEAR, MAXYEAR.
    replace (1 <=? year) with true by (symmetry; apply Z.leb_le; lia).
    replace (year <=? 9999) with true by (symmetry; apply Z.leb_le; lia).
    reflexivity.
  - pose proof (days_before_year_bounds Hy).
    unfold ymd2ord, days_before_month. simpl. lia.
Qed.


Lemma week_1_monday_bounds (year : Z) :
  1 <= year <= 9999 -> 1 <= week_1_monday year <= 3651698.
Proof.
  intros Hy. destruct (january_4 Hy) as [_ J].
  unfold week_1_monday, weekday.
  pose proof (Z.div_mod (ymd2ord year 1 4 + 6) 7 ltac:(lia)).
  pose proof (Z.mod_pos_bound (ymd2ord year 1 4 + 6) 7 ltac:(lia)).
  lia.
Qed.

Lemma date_add_in_range (ordinal delta : Z) :
  1 <= ordinal + delta <= MAXORDINAL ->
  date_add ordinal delta = Ok (ordinal + delta).
Proof.
  intros Hr. unfold date_add.
  replace (0 <? ordinal + delta) with true by (symmetry; apply Z.ltb_lt; lia).
  replace (ordinal + delta <=? MAXORDINAL) with true
    by (symmetry; apply Z.leb_le; lia).
  reflexivity.
Qed.














(** C2 as stated fails before the year 1000: the dates of week 1 of the
    year 999 come out with a year of three digits, which is not
    YYYY-MM-DD. *)
Lemma calculate_week_dates_year_999_counterexample :
  calculate_week_dates (B:=latin1) 999 (JInt 1)
  = Ok [ (lit "monday", lit "998-12-31");
         (lit "tuesday", lit "999-01-01");
         (lit "wednesday", lit "999-01-02");
         (lit "thursday", lit "999-01-03");
         (lit "friday", lit "999-01-04");
         (lit "saturday", lit "999-01-05");
         (lit "sunday", lit "999-01-06") ]
  /\ iso_date_shape (lit "998-12-31") = false
  /\ lit "998-12-31" <> iso_date (monday_of_week 999 1).
Proof.
  split; [reflexivity|]. split; [reflexivity|]. vm_compute. discriminate.
Qed.

(* ================================================================== *)
(** * Scheduling a recipe                                              *)
(* ================================================================== *)

Lemma resolved_id_or (created : dict) :
  py_or (dict_get created (lit "id") JNull)
        (dict_get created (lit "slug") JNull)
  = resolved_id created.
Proof.
  unfold resolved_id, py_or, dict_get.
  destruct (dict_find (lit "id") created); reflexivity.
Qed.

Section Scheduling.
Context {B : Builtins} (srv : server).

(** [create_mealplan] issues its one request whatever comes back, and
    raises only what is not an [HTTPError]. *)
Lemma create_mealplan_request date entry_type recipe_id t :
  snd (create_mealplan srv date entry_type recipe_id t)
  = t ++ [mealplan_request date entry_type recipe_id].
Proof.
  unfold create_mealplan, except_HTTPError, bind, _request, lift, ret.
  fold (mealplan_request date entry_type recipe_id).
  unfold mealplan_request, request_of.
  destruct (srv t _) as [status b | f].
  - destruct (raise_for_status status); [reflexivity|].
    destruct b; reflexivity.
  - destruct f; reflexivity.
Qed.

End Scheduling.

(** C7: once [create_recipe_if_not_exists] has returned a record for a
    recipe of the menu, the meal-plan request carries the date, the meal
    type and the identifier of the record, its [id] or else its [slug]; it
    is the only request added.  When the record has neither, no request is
    added and the loop goes on with the next recipe. *)
Theorem schedule_recipe_resolves_identifier :
  forall (B : Builtins) (srv : server) (date : str) (recipe : json)
         (rest : list json) (t t1 : list request) (created : dict)
         (meal_type : str),
    create_recipe_if_not_exists srv recipe t = (Ok (JDict created), t1) ->
    created <> [] ->
    extract_meal_type recipe = Ok meal_type ->
    (truthy (resolved_id created) = true ->
     snd (schedule_recipe srv date recipe t)
     = t1 ++ [mealplan_request date meal_type (resolved_id created)])
    /\ (truthy (resolved_id created) = false ->
        schedule_recipe srv date recipe t = (Ok tt, t1)
        /\ schedule_recipes srv date (recipe :: rest) t
           = schedule_recipes srv date rest t1)
    /\ (dict_find (lit "id") created = None ->
        resolved_id created = dict_get created (lit "slug") JNull).
Proof.
  intros B srv date recipe rest t t1 created meal_type C NE X.
  assert (S : schedule_recipe srv date recipe t =
              if truthy (resolved_id created)
              then bind (create_mealplan srv date meal_type (resolved_id created))
                     (fun _ => ret tt) t1
              else (Ok tt, t1)).
  { unfold schedule_recipe. rewrite (bind_ok _ C).
    destruct created as [|kv created]; [congruence|].
    cbn [truthy]. unfold bind at 1, lift at 1. rewrite X.
    unfold bind at 1, lift at 1. cbn [py_get].
    unfold bind at 1, lift at 1. cbn [py_get].
    rewrite resolved_id_or.
    destruct (truthy (resolved_id (kv :: created))); reflexivity. }
  split; [|split].
  - intros T. rewrite S, T.
    pose proof (create_mealplan_request srv date meal_type
                  (resolved_id created) t1) as R.
    unfold bind, ret.
    destruct (create_mealplan srv date meal_type (resolved_id created) t1)
      as [[v|e] t2]; exact R.
  - intros T. rewrite T in S. split; [exact S|].
    cbn [schedule_recipes]. now rewrite (bind_ok _ S).
  - intros N. unfold resolved_id. now rewrite N.
Qed.

Lemma schedule_recipe_resolves_identifier_witness :
  let recipe := JDict [(lit "name", JStr (lit "Zabkása"));
                       (lit "keywords", JStr (lit "reggeli"))] in
  let listing := JDict [(lit "items",
                  JList [JDict [(lit "name", JStr (lit "zabkása"));
                                (lit "slug", JStr (lit "zabkasa"))]])] in
  snd (schedule_recipe (B:=latin1) (always 200 listing)
         (lit "2024-12-30") recipe [])
  = [recipes_listing;
     mealplan_request (lit "2024-12-30") (lit "breakfast")
       (JStr (lit "zabkasa"))].
Proof.
  intros recipe listing.
  refine (proj1 (@schedule_recipe_resolves_identifier latin1
            (always 200 listing) (lit "2024-12-30") recipe [] []
            [recipes_listing]
            [(lit "name", JStr (lit "zabkása"));
             (lit "slug", JStr (lit "zabkasa"))]
            (lit "breakfast") eq_refl _ eq_refl) eq_refl).
  discriminate.
Defined.

(* ================================================================== *)
(** * Running against the store that persists                          *)
(* ================================================================== *)

Lemma quiet_refl (t : list request) : quiet t t.
Proof. exists []. now rewrite app_nil_r. Qed.

Lemma quiet_trans (t u v : list request) : quiet t u -> quiet u v -> quiet t v.
Proof.
  intros (a & -> & Ha) (b & -> & Hb). exists (a ++ b).
  rewrite app_assoc, forallb_app, Ha, Hb. now split.
Qed.

Lemma quiet_step (t : list request) (rq : request) :
  creates rq = false -> quiet t (t ++ [rq]).
Proof. intros C. exists [rq]. simpl. now rewrite C. Qed.

Lemma store_after_snoc (init : store) (t : list request) (rq : request) :
  store_after init (t ++ [rq]) = fst (store_step (store_after init t) rq).
Proof. unfold store_after. now rewrite fold_left_app. Qed.

Lemma store_step_quiet (s : store) (rq : request) :
  creates rq = false -> fst (store_step s rq) = s.
Proof.
  unfold creates, store_step. destruct (req_method rq).
  - intros _. destruct (str_eqb _ _); [reflexivity|].
    destruct (str_eqb _ _); reflexivity.
  - intros C. apply orb_false_iff in C. destruct C as [-> ->].
    destruct (str_eqb _ _); [destruct (req_json rq)|]; reflexivity.
Qed.

Lemma quiet_store (init : store) (t t' : list request) :
  quiet t t' -> store_after init t' = store_after init t.
Proof.
  intros (added & -> & Q). revert t Q.
  induction added as [|rq added IH]; intros t Q.
  - now rewrite app_nil_r.
  - simpl in Q. apply andb_true_iff in Q. destruct Q as [C Q].
    replace (t ++ rq :: added) with ((t ++ [rq]) ++ added)
      by now rewrite <- app_assoc.
    rewrite (IH _ Q), store_after_snoc. apply store_step_quiet.
    now apply negb_true_iff.
Qed.

Section Persistent.
Context {B : Builtins} (init : store).

Let srv : server := persistent_store init.
Let st (t : list request) : store := store_after init t.

Lemma listing_foods_persistent (t : list request) :
  get_ingredients srv t
  = (Ok (map food_record (foods (st t))), t ++ [foods_listing]).
Proof.
  rewrite get_ingredients_reply. unfold srv, persistent_store.
  cbn. f_equal. f_equal. rewrite map_map. apply map_ext.
  intros n. reflexivity.
Qed.

Lemma find_ingredient_persistent (l : list str) (q : str) :
  exists v,
    find_ingredient (map food_record l) (normalized q) = Ok v
    /\ truthy v = existsb (fun m => str_eqb (normalized m) (normalized q)) l.
Proof.
  induction l as [|m l IH].
  - exists JNull. split; reflexivity.
  - cbn [map find_ingredient food_record existsb].
    assert (E : py_lower (py_or (py_or (dict_get [(lit "name", JStr m)] (lit "name") JNull)
                                       (dict_get [(lit "name", JStr m)] (lit "title") JNull))
                                (JStr []))
                = Ok (str_lower m)) by (destruct m; reflexivity).
    cbv zeta. rewrite E. cbn [rbind]. fold (normalized m).
    destruct (str_eqb (normalized m) (normalized q)).
    + eexists. split; reflexivity.
    + exact IH.
Qed.

Lemma lookup_food_persistent (q : str) (t : list request) :
  exists v,
    get_ingredient_by_name srv q t = (Ok v, t ++ [foods_listing])
    /\ truthy v = has_food (st t) q.
Proof.
  destruct (find_ingredient_persistent (foods (st t)) q) as (v & F & T).
  exists v. split; [|exact T].
  unfold get_ingredient_by_name.
  rewrite (bind_ok _ (listing_foods_persistent t)).
  unfold lift. fold (normalized q). now rewrite F.
Qed.

Lemma create_food_persistent (n : str) (t : list request) :
  create_ingredient srv n t = (Ok (food_record n), t ++ [food_post n])
  /\ st (t ++ [food_post n])
     = {| foods := foods (st t) ++ [n]; recipes := recipes (st t) |}.
Proof.
  split.
  - unfold create_ingredient, except_HTTPError, bind, _request, lift.
    unfold srv, persistent_store. reflexivity.
  - unfold st. rewrite store_after_snoc. reflexivity.
Qed.

(** What [ensure_ingredient_exists] does with the store: one listing when
    the food is there, a listing and a creation when it is not. *)
Lemma ensure_persistent (n : str) (t : list request) :
  exists v,
    truthy v = true /\
    if has_food (st t) n
    then ensure_ingredient_exists srv n t = (Ok v, t ++ [foods_listing])
    else ensure_ingredient_exists srv n t
         = (Ok v, (t ++ [foods_listing]) ++ [food_post n])
         /\ st ((t ++ [foods_listing]) ++ [food_post n])
            = {| foods := foods (st t) ++ [n]; recipes := recipes (st t) |}.
Proof.
  destruct (lookup_food_persistent n t) as (v & L & T).
  unfold ensure_ingredient_exists. rewrite (bind_ok _ L), T.
  destruct (has_food (st t) n) eqn:H.
  - exists v. split; [congruence | reflexivity].
  - exists (food_record n). split; [reflexivity|].
    destruct (create_food_persistent n (t ++ [foods_listing])) as [C S].
    split; [exact C|]. rewrite S. unfold st.
    now rewrite (quiet_store init (@quiet_step t foods_listing eq_refl)).
Qed.

Lemma persistent_ensure_returns : ensure_returns srv.
Proof.
  intros n t. destruct (ensure_persistent n t) as (v & _ & E).
  destruct (has_food (st t) n); [|destruct E as [E _]]; eauto.
Qed.

End Persistent.

(* ================================================================== *)
(** * Translating a recipe                                             *)
(* ================================================================== *)

Section Translation.
Context {B : Builtins}.

Lemma line_entry_parsed (line : str) :
  ingredient_entry (parse_ingredient_text line) = line_entry line.
Proof.
  unfold ingredient_entry, line_entry, parse_ingredient_text.
  destruct (ingredient_match (strip line)) as [[g1 g2]|]; reflexivity.
Qed.

Lemma convert_ingredients_lines (srv : server) :
  ensure_returns srv ->
  forall (lines : list str) (acc : list json) (t : list request),
    exists t',
      convert_ingredients srv (map JStr lines) acc t
      = (Ok (acc ++ map line_entry lines), t').
Proof.
  intros R. induction lines as [|line lines IH]; intros acc t.
  - exists t. simpl. now rewrite app_nil_r.
  - cbn [map convert_ingredients]. unfold bind at 1, lift at 1.
    cbn [parse_ingredient_value].
    destruct (R (name (parse_ingredient_text line)) t) as (v & t1 & E).
    rewrite (bind_ok _ E).
    destruct (IH (acc ++ [ingredient_entry (parse_ingredient_text line)]) t1)
      as (t' & E').
    exists t'. rewrite E', line_entry_parsed, <- app_assoc. reflexivity.
Qed.

Lemma unavailable_ensure_returns : ensure_returns unavailable.
Proof.
  intros n t. exists JNull. eexists. reflexivity.
Qed.

End Translation.

(** C10: for a recipe whose [recipeIngredient] is a list of lines (and whose
    instructions and nutrition have the types the translation reads), the
    payload has one entry per line, in order, each with the unmodified line
    as note and display and the parsed name as food; and it is one and the
    same payload with every server for which
    [ensure_ingredient_exists] returns, whatever that call returned. *)
Theorem convert_recipe_keeps_every_line :
  forall (B : Builtins) (d : dict) (lines : list str) (steps : list json),
    dict_get d (lit "recipeIngredient") (JList []) = JList (map JStr lines) ->
    py_iter (dict_get d (lit "recipeInstructions") (JList [])) = Ok steps ->
    (truthy (dict_get d (lit "nutrition") (JDict [])) = true ->
     is_dict (dict_get d (lit "nutrition") (JDict [])) = true) ->
    exists payload,
      dict_find (lit "recipeIngredient") payload
      = Some (JList (map line_entry lines))
      /\ forall (srv : server) (t : list request),
           ensure_returns srv ->
           exists t',
             convert_recipe_to_mealie_format srv (JDict d) t
             = (Ok (JDict payload), t').
Proof.
  intros B d lines steps I S N.
  set (base :=
         [ (lit "name", dict_get d (lit "name") (JStr (lit "Untitled Recipe")));
           (lit "description", dict_get d (lit "description") (JStr []));
           (lit "recipeYield", dict_get d (lit "recipeYield") (JStr (lit "1")));
           (lit "recipeIngredient", JList (map line_entry lines));
           (lit "recipeInstructions", JList (convert_instructions steps 0 []));
           (lit "notes", JList []);
           (lit "tags", JList []);
           (lit "settings", settings_block) ]).
  destruct (truthy (dict_get d (lit "nutrition") (JDict []))) eqn:T.
  - specialize (N eq_refl).
    destruct (dict_get d (lit "nutrition") (JDict [])) as [| | | | | |nd] eqn:D;
      try discriminate.
    exists (base ++
            [ (lit "nutrition",
               JDict [ (lit "calories", dict_get nd (lit "calories") (JStr []));
                       (lit "protein",
                        dict_get nd (lit "proteinContent") (JStr []));
                       (lit "fatContent",
                        dict_get nd (lit "fatContent") (JStr []));
                       (lit "carbohydrateContent",
                        dict_get nd (lit "carbohydrateContent") (JStr [])) ]) ]).
    split; [reflexivity|].
    intros srv t R.
    destruct (convert_ingredients_lines R lines [] t) as (t' & E).
    exists t'. unfold convert_recipe_to_mealie_format.
    unfold bind at 1, lift at 1. cbn [py_get]. rewrite I.
    unfold bind at 1, lift at 1. cbn [py_len].
    unfold bind at 1, lift at 1. cbn [py_iter].
    rewrite (bind_ok _ E).
    unfold bind at 1, lift at 1.
    unfold bind at 1, lift at 1. rewrite S.
    unfold bind, lift, ret. rewrite D, T. reflexivity.
  - exists base. split; [reflexivity|].
    intros srv t R.
    destruct (convert_ingredients_lines R lines [] t) as (t' & E).
    exists t'. unfold convert_recipe_to_mealie_format.
    unfold bind at 1, lift at 1. cbn [py_get]. rewrite I.
    unfold bind at 1, lift at 1. cbn [py_len].
    unfold bind at 1, lift at 1. cbn [py_iter].
    rewrite (bind_ok _ E).
    unfold bind at 1, lift at 1.
    unfold bind at 1, lift at 1. rewrite S.
    unfold bind, lift, ret. rewrite T. reflexivity.
Qed.

Lemma convert_recipe_keeps_every_line_witness :
  let recipe := [ (lit "name", JStr (lit "Zabkása"));
                  (lit "recipeIngredient",
                   JList (map JStr [lit "50 g zab"; lit "csipet só"])) ] in
  exists payload,
    dict_find (lit "recipeIngredient") payload
    = Some (JList (map (line_entry (B:=latin1))
                     [lit "50 g zab"; lit "csipet só"]))
    /\ (exists t',
          convert_recipe_to_mealie_format (B:=latin1) unavailable
            (JDict recipe) []
          = (Ok (JDict payload), t'))
    /\ (exists t',
          convert_recipe_to_mealie_format (B:=latin1)
            (persistent_store {| foods := [lit "Zab"]; recipes := [] |})
            (JDict recipe) []
          = (Ok (JDict payload), t')).
Proof.
  intros recipe.
  assert (N : truthy (dict_get recipe (lit "nutrition") (JDict [])) = true ->
              is_dict (dict_get recipe (lit "nutrition") (JDict [])) = true)
    by reflexivity.
  destruct (@convert_recipe_keeps_every_line latin1 recipe
              [lit "50 g zab"; lit "csipet só"] [] eq_refl eq_refl N)
    as (payload & F & C).
  exists payload. split; [exact F|]. split; apply C.
  - apply unavailable_ensure_returns.
  - apply persistent_ensure_returns.
Defined.

(* ================================================================== *)
(** * Malformed input                                                  *)
(* ================================================================== *)

(** C5: when the token is set and the selected input is not JSON, no
    request is issued and the process ends with status 1 and a line that
    tells the parse error: from standard input, [main] prints
    "Error parsing JSON: ..." and calls [sys.exit(1)]; from a file, the
    [JSONDecodeError] is not caught and the interpreter reports it. *)
Theorem malformed_menu_is_fatal :
  forall (B : Builtins) (network : MealieConfig -> server)
         (env : process_env) (config : MealieConfig) (msg : str),
    from_env (environ env) = Ok config ->
    selected_input env = Some (Garbage msg) ->
    let o := main network env in
    issued o = []
    /\ exit_status (ending o) = 1
    /\ exit_status (ending o) <> 0
    /\ (if reads_file env
        then ending o = Uncaught (JSONDecodeError msg)
             /\ In (lit "json.decoder.JSONDecodeError: " ++ msg) (diagnostics o)
        else ending o = SystemExit 1
             /\ In (lit "Error parsing JSON: " ++ msg) (diagnostics o)).
Proof.
  intros B network env config msg C S o. subst o.
  unfold main, selected_input, reads_file in *. rewrite C.
  destruct (argv env) as [|script [|json_file more]].
  - injection S as ->. cbn. repeat split; try discriminate.
    right. right. now left.
  - injection S as ->. cbn. repeat split; try discriminate.
    right. right. now left.
  - rewrite S. cbn. repeat split; try discriminate. now left.
Qed.

Lemma malformed_menu_is_fatal_witness :
  let token := fun n => if str_eqb n (lit "MEALIE_API_TOKEN")
                        then Some (lit "secret") else None in
  let broken := Garbage (lit "Expecting value: line 1 column 1 (char 0)") in
  let from_file := {| environ := token;
                      argv := [lit "mealie_menu_creator.py"; lit "menu.json"];
                      files := fun _ => Some broken;
                      stdin := Document JNull |} in
  let from_stdin := {| environ := token;
                       argv := [lit "mealie_menu_creator.py"];
                       files := fun _ => None;
                       stdin := broken |} in
  (issued (main (B:=latin1) (fun _ => unreachable) from_file) = []
   /\ ending (main (B:=latin1) (fun _ => unreachable) from_file)
      = Uncaught (JSONDecodeError
                    (lit "Expecting value: line 1 column 1 (char 0)")))
  /\ (issued (main (B:=latin1) (fun _ => unreachable) from_stdin) = []
      /\ ending (main (B:=latin1) (fun _ => unreachable) from_stdin)
         = SystemExit 1).
Proof.
  intros token broken from_file from_stdin. split.
  - destruct (@malformed_menu_is_fatal latin1 (fun _ => unreachable) from_file
                _ _ eq_refl eq_refl) as (I & _ & _ & E & _).
    split; [exact I | exact E].
  - destruct (@malformed_menu_is_fatal latin1 (fun _ => unreachable) from_stdin
                _ _ eq_refl eq_refl) as (I & _ & _ & E & _).
    split; [exact I | exact E].
Defined.

(* ================================================================== *)
(** * Requests are only ever added                                     *)
(* ================================================================== *)

Lemma extending_ret {A} (a : A) : extending (ret a).
Proof. intros t. exists []. simpl. now rewrite app_nil_r. Qed.

Lemma extending_raise {A} (e : exn) : extending (@raise A e).
Proof. intros t. exists []. simpl. now rewrite app_nil_r. Qed.

Lemma extending_lift {A} (r : result A) : extending (lift r).
Proof. intros t. exists []. simpl. now rewrite app_nil_r. Qed.

Lemma extending_bind {A C} (m : M A) (f : A -> M C) :
  extending m -> (forall a, extending (f a)) -> extending (bind m f).
Proof.
  intros Hm Hf t. unfold bind. destruct (Hm t) as [a1 E1].
  destruct (m t) as [[a|e] t1]; simpl in E1; subst t1.
  - destruct (Hf a (t ++ a1)) as [a2 E2]. exists (a1 ++ a2).
    now rewrite E2, app_assoc.
  - now exists a1.
Qed.

Lemma extending_except {A} (body handler : M A) :
  extending body -> extending handler ->
  extending (except_HTTPError body handler).
Proof.
  intros Hb Hh t. unfold except_HTTPError. destruct (Hb t) as [a1 E1].
  destruct (body t) as [[a|e] t1]; simpl in E1; subst t1.
  - now exists a1.
  - destruct e; try now exists a1.
    destruct (Hh (t ++ a1)) as [a2 E2]. exists (a1 ++ a2).
    now rewrite E2, app_assoc.
Qed.

Lemma extending_request (srv : server) method endpoint payload :
  extending (_request srv method endpoint payload).
Proof.
  intros t. unfold _request. eexists.
  destruct (srv t _) as [status b|f]; [destruct (raise_for_status status)|];
    reflexivity.
Qed.

Create HintDb extend.
#[export] Hint Resolve extending_ret extending_raise extending_lift
  extending_request : extend.

(** Goes through a computation built from the operations above. *)
Ltac extend :=
  repeat first
    [ progress auto with extend
    | apply extending_except
    | apply extending_bind; [|intros ?]
    | match goal with
      | |- extending (if ?b then _ else _) => destruct b
      | |- extending (match ?x with _ => _ end) => destruct x
      end ].

Section Extending.
Context {B : Builtins} (srv : server).

Lemma extending_get_ingredients : extending (get_ingredients srv).
Proof. unfold get_ingredients. extend. Qed.

Lemma extending_create_ingredient n : extending (create_ingredient srv n).
Proof. unfold create_ingredient. extend. Qed.

Lemma extending_ensure n : extending (ensure_ingredient_exists srv n).
Proof.
  unfold ensure_ingredient_exists, get_ingredient_by_name.
  pose proof extending_get_ingredients. pose proof extending_create_ingredient.
  extend.
Qed.

Lemma extending_get_recipe_by_name n : extending (get_recipe_by_name srv n).
Proof. unfold get_recipe_by_name, get_recipes. extend. Qed.

Lemma extending_create_recipe p : extending (create_recipe srv p).
Proof. unfold create_recipe. extend. Qed.

Lemma extending_create_mealplan d e i : extending (create_mealplan srv d e i).
Proof. unfold create_mealplan. extend. Qed.

Lemma extending_convert_ingredients texts :
  forall acc, extending (convert_ingredients srv texts acc).
Proof.
  pose proof extending_ensure.
  induction texts as [|x texts IH]; intros acc; cbn [convert_ingredients];
    extend.
Qed.

Lemma extending_convert recipe :
  extending (convert_recipe_to_mealie_format srv recipe).
Proof.
  pose proof extending_convert_ingredients.
  unfold convert_recipe_to_mealie_format. extend.
Qed.

Lemma extending_create_recipe_if_not_exists recipe :
  extending (create_recipe_if_not_exists srv recipe).
Proof.
  pose proof extending_get_recipe_by_name. pose proof extending_convert.
  pose proof extending_create_recipe.
  unfold create_recipe_if_not_exists. extend.
Qed.

Lemma extending_schedule_recipe date recipe :
  extending (schedule_recipe srv date recipe).
Proof.
  pose proof extending_create_recipe_if_not_exists.
  pose proof extending_create_mealplan.
  unfold schedule_recipe. extend.
Qed.

Lemma extending_schedule_recipes date recipes :
  extending (schedule_recipes srv date recipes).
Proof.
  pose proof extending_schedule_recipe.
  induction recipes as [|x recipes IH]; cbn [schedule_recipes]; extend.
Qed.

Lemma extending_process_days menu_data week_dates days :
  extending (process_days srv menu_data week_dates days).
Proof.
  pose proof extending_schedule_recipes.
  induction days as [|day days IH]; cbn [process_days]; extend.
Qed.

Lemma extending_process_weekly_menu menu_data year :
  extending (process_weekly_menu srv menu_data year).
Proof.
  pose proof extending_process_days.
  unfold process_weekly_menu. extend.
Qed.

End Extending.

(* ================================================================== *)
(** * Running the same menu twice                                      *)
(* ================================================================== *)

Section ConvertParts.
Context {B : Builtins} (srv : server).

Lemma convert_parts (recipe : json) (t : list request) :
  convert_recipe_to_mealie_format srv recipe t =
  match ingredient_lines recipe with
  | Raise e => (Raise e, t)
  | Ok texts =>
      match convert_ingredients srv texts [] t with
      | (Ok ingredients, t1) => (finish_recipe recipe ingredients, t1)
      | (Raise e, t1) => (Raise e, t1)
      end
  end.
Proof.
  unfold convert_recipe_to_mealie_format, ingredient_lines, finish_recipe.
  destruct recipe as [| | | | | |d]; try reflexivity.
  cbn [py_get rbind]. unfold bind at 1, lift at 1.
  destruct (py_len _) as [n|e]; [|reflexivity]. cbn [rbind].
  unfold bind at 1, lift at 1.
  unfold bind at 1, lift at 1.
  destruct (py_iter _) as [texts|e]; [|reflexivity].
  unfold bind at 1.
  destruct (convert_ingredients srv texts [] t) as [[ingredients|e] t1];
    [|reflexivity].
  unfold bind at 1, lift at 1.
  unfold bind at 1, lift at 1.
  destruct (py_iter _) as [steps|e]; [|reflexivity]. cbn [rbind].
  unfold bind at 1, lift at 1.
  unfold bind at 1, lift at 1.
  unfold bind at 1, lift at 1.
  unfold bind at 1, lift at 1.
  destruct (truthy _); [|reflexivity].
  unfold bind, lift, ret.
  destruct (dict_get d (lit "nutrition") (JDict [])); reflexivity.
Qed.

Lemma finish_recipe_name (recipe : json) (ingredients : list json) (p : json) :
  finish_recipe recipe ingredients = Ok p ->
  exists d rest,
    recipe = JDict d
    /\ p = JDict ((lit "name", dict_get d (lit "name")
                                 (JStr (lit "Untitled Recipe"))) :: rest).
Proof.
  unfold finish_recipe.
  destruct recipe as [| | | | | |d]; try discriminate.
  cbn [py_get rbind].
  destruct (py_iter _) as [steps|e]; [|discriminate]. cbn [rbind].
  destruct (truthy _).
  - destruct (dict_get d (lit "nutrition") (JDict [])); try discriminate.
    cbn [py_get rbind]. intros E. injection E as <-. eauto.
  - intros E. injection E as <-. eauto.
Qed.

End ConvertParts.

Lemma store_step_grows (s : store) (rq : request) :
  incl (foods s) (foods (fst (store_step s rq)))
  /\ incl (recipes s) (recipes (fst (store_step s rq))).
Proof.
  unfold store_step.
  destruct (req_method rq);
    repeat match goal with
           | |- context [if ?b then _ else _] => destruct b
           | |- context [match ?x with Some _ => _ | None => _ end] =>
               destruct x
           end;
    simpl; auto using incl_refl, incl_appl.
Qed.

Lemma store_after_grows (init : store) (t added : list request) :
  incl (foods (store_after init t)) (foods (store_after init (t ++ added)))
  /\ incl (recipes (store_after init t))
          (recipes (store_after init (t ++ added))).
Proof.
  revert t. induction added as [|rq added IH]; intros t.
  - rewrite app_nil_r. split; apply incl_refl.
  - replace (t ++ rq :: added) with ((t ++ [rq]) ++ added)
      by now rewrite <- app_assoc.
    destruct (IH (t ++ [rq])) as [F R]. rewrite store_after_snoc in F, R.
    destruct (store_step_grows (store_after init t) rq) as [F' R'].
    split; eapply incl_tran; eauto.
Qed.

Section Twice.
Context {B : Builtins} (init : store).

Let srv : server := persistent_store init.
Let st (t : list request) : store := store_after init t.

Lemma covers_foods_refl s : covers_foods s s.
Proof. intros n H. exact H. Qed.

Lemma covers_recipes_refl s : covers_recipes s s.
Proof. intros n H. exact H. Qed.

Lemma covers_foods_trans a b c :
  covers_foods a b -> covers_foods b c -> covers_foods a c.
Proof. intros H1 H2 n H. auto. Qed.

Lemma covers_recipes_trans a b c :
  covers_recipes a b -> covers_recipes b c -> covers_recipes a c.
Proof. intros H1 H2 n H. auto. Qed.

Lemma same_recipes_covers u t : same_recipes u t -> covers_recipes u t.
Proof. intros S n H. now rewrite S. Qed.

(** Whatever runs, the store only gains. *)
Lemma run_grows {A} (c : M A) (t : list request) :
  extending c ->
  covers_foods (st (snd (c t))) (st t)
  /\ covers_recipes (st (snd (c t))) (st t).
Proof.
  intros E. destruct (E t) as [added ->].
  destruct (store_after_grows init t added) as [F R].
  split; intros n H; unfold has_food, has_recipe in *;
    apply existsb_exists in H; destruct H as (x & Hx & M);
    apply existsb_exists; exists x; split; auto.
Qed.

Lemma listing_recipes_persistent (t : list request) :
  get_recipes srv t
  = (Ok (JList (map recipe_record (recipes (st t)))), t ++ [recipes_listing]).
Proof.
  rewrite get_recipes_reply. unfold srv, persistent_store. reflexivity.
Qed.

Lemma find_recipe_persistent (l : list (Z * str)) (q : str) :
  exists v,
    find_recipe (map recipe_record l) (normalized q) = Ok v
    /\ truthy v
       = existsb (fun r => str_eqb (normalized (snd r)) (normalized q)) l
    /\ (truthy v = true -> is_dict v = true).
Proof.
  induction l as [|r l IH].
  - exists JNull. repeat split. discriminate.
  - cbn [map find_recipe existsb].
    change (py_get (recipe_record r) (lit "name") (JStr []))
      with (Ok (JStr (snd r))).
    cbn [rbind py_lower]. fold (normalized (snd r)).
    destruct (str_eqb (normalized (snd r)) (normalized q)).
    + eexists. repeat split.
    + exact IH.
Qed.

Lemma lookup_recipe_persistent (n : json) (t : list request) :
  match n with
  | JStr q =>
      exists v,
        get_recipe_by_name srv n t = (Ok v, t ++ [recipes_listing])
        /\ truthy v = has_recipe (st t) q
        /\ (truthy v = true -> is_dict v = true)
  | _ => exists e, get_recipe_by_name srv n t = (Raise e, t ++ [recipes_listing])
  end.
Proof.
  unfold get_recipe_by_name.
  rewrite (bind_ok _ (listing_recipes_persistent t)).
  destruct n as [| | | |q| |]; try (eexists; reflexivity).
  destruct (find_recipe_persistent (recipes (st t)) q) as (v & F & T).
  exists v. split; [|exact T].
  unfold bind, lift. cbn [py_lower py_iter]. fold (normalized q).
  now rewrite F.
Qed.

Lemma create_recipe_persistent (payload : json) (n : str) (t : list request) :
  posted_name (Some payload) = Some n ->
  exists v,
    create_recipe srv payload t = (Ok v, t ++ [recipe_post payload])
    /\ truthy v = true /\ is_dict v = true
    /\ has_recipe (st (t ++ [recipe_post payload])) n = true.
Proof.
  intros P.
  destruct payload as [| | | | | |d]; try discriminate.
  cbn [posted_name] in P.
  destruct (dict_find (lit "name") d) as [[| | | |m| |]|] eqn:D;
    try discriminate.
  injection P as ->.
  exists (recipe_record (Z.of_nat (List.length (recipes (st t))), n)).
  split; [|split; [reflexivity|split; [reflexivity|]]].
  - unfold create_recipe, except_HTTPError, bind, _request, lift.
    unfold srv, persistent_store, store_step.
    cbn [req_method req_endpoint req_json posted_name snd].
    change (str_eqb (lit "/recipes") (lit "/foods")) with false.
    change (str_eqb (lit "/recipes") (lit "/recipes")) with true.
    cbv iota. rewrite D. reflexivity.
  - unfold st. rewrite store_after_snoc. unfold store_step, recipe_post.
    cbn [request_of req_method req_endpoint req_json posted_name fst].
    change (str_eqb (lit "/recipes") (lit "/foods")) with false.
    change (str_eqb (lit "/recipes") (lit "/recipes")) with true.
    cbv iota. rewrite D. unfold has_recipe. cbn [recipes fst].
    rewrite existsb_app. cbn [existsb snd]. rewrite str_eqb_refl.
    apply orb_true_r.
Qed.

Lemma create_mealplan_persistent date entry_type recipe_id (t : list request) :
  exists v,
    create_mealplan srv date entry_type recipe_id t
    = (Ok v, t ++ [mealplan_request date entry_type recipe_id]).
Proof.
  eexists. unfold create_mealplan, except_HTTPError, bind, _request, lift.
  unfold srv, persistent_store. reflexivity.
Qed.

End Twice.

Section SecondRun.
Context {B : Builtins} (init : store).

Let srv : server := persistent_store init.
Let st (t : list request) : store := store_after init t.

Lemma st_after_listing (t : list request) (rq : request) :
  creates rq = false -> st (t ++ [rq]) = st t.
Proof. intros C. apply quiet_store. now apply quiet_step. Qed.

(** First run: afterwards the food is in the store, and no recipe was
    added. *)
Lemma ensure_first (n : str) (t : list request) :
  exists v t1,
    ensure_ingredient_exists srv n t = (Ok v, t1)
    /\ has_food (st t1) n = true
    /\ recipes (st t1) = recipes (st t).
Proof.
  destruct (ensure_persistent init n t) as (v & _ & E).
  fold srv in E. fold (st t) in E.
  destruct (has_food (st t) n) eqn:H.
  - exists v, (t ++ [foods_listing]). split; [exact E|].
    rewrite st_after_listing by reflexivity. now split.
  - destruct E as [E S]. exists v, ((t ++ [foods_listing]) ++ [food_post n]).
    split; [exact E|]. fold (st ((t ++ [foods_listing]) ++ [food_post n])) in S.
    rewrite S. split; [|reflexivity].
    unfold has_food. cbn [foods]. rewrite existsb_app. cbn [existsb].
    rewrite str_eqb_refl. apply orb_true_r.
Qed.

(** Second run: a food that is in the store costs one listing. *)
Lemma ensure_again (n : str) (u : list request) :
  has_food (st u) n = true ->
  exists v, ensure_ingredient_exists srv n u = (Ok v, u ++ [foods_listing]).
Proof.
  intros H. destruct (ensure_persistent init n u) as (v & _ & E).
  fold srv in E. fold (st u) in E. rewrite H in E. now exists v.
Qed.

Lemma convert_ingredients_again (texts : list json) :
  forall (acc : list json) (t : list request) r1 t1,
    convert_ingredients srv texts acc t = (r1, t1) ->
    recipes (st t1) = recipes (st t)
    /\ forall u,
         covers_foods (st u) (st t1) ->
         exists u1,
           convert_ingredients srv texts acc u = (r1, u1) /\ quiet u u1.
Proof.
  induction texts as [|x texts IH]; intros acc t r1 t1 E.
  - cbn in E. injection E as <- <-. split; [reflexivity|].
    intros u _. exists u. split; [reflexivity | apply quiet_refl].
  - cbn [convert_ingredients] in E |- *.
    unfold bind at 1, lift at 1 in E.
    destruct (parse_ingredient_value x) as [p|e].
    + destruct (ensure_first (name p) t) as (v & ta & En & HF & HR).
      rewrite (bind_ok _ En) in E.
      destruct (IH _ _ _ _ E) as [R Again].
      split; [congruence|].
      intros u C.
      pose proof (run_grows init ta
                    (extending_convert_ingredients srv texts
                       (acc ++ [ingredient_entry p]))) as [G _].
      fold srv in G. rewrite E in G. cbn [snd] in G.
      assert (Hu : has_food (st u) (name p) = true) by (apply C, G, HF).
      destruct (ensure_again (name p) u Hu) as (v' & En').
      destruct (Again (u ++ [foods_listing])) as (u1 & E1 & Q1).
      { rewrite st_after_listing by reflexivity. exact C. }
      exists u1. split.
      * unfold bind at 1, lift at 1. now rewrite (bind_ok _ En').
      * eapply quiet_trans; [|exact Q1]. now apply quiet_step.
    + injection E as <- <-. split; [reflexivity|].
      intros u _. exists u. split; [reflexivity | apply quiet_refl].
Qed.

Lemma convert_again (recipe : json) (t : list request) r1 t1 :
  convert_recipe_to_mealie_format srv recipe t = (r1, t1) ->
  recipes (st t1) = recipes (st t)
  /\ forall u,
       covers_foods (st u) (st t1) ->
       exists u1,
         convert_recipe_to_mealie_format srv recipe u = (r1, u1)
         /\ quiet u u1.
Proof.
  rewrite convert_parts. intros E.
  destruct (ingredient_lines recipe) as [texts|e] eqn:L.
  - destruct (convert_ingredients srv texts [] t) as [rc tc] eqn:C.
    destruct (convert_ingredients_again _ _ _ C) as [R Again].
    assert (T : t1 = tc) by (destruct rc; now injection E).
    subst tc. split; [exact R|].
    intros u Cov. destruct (Again u Cov) as (u1 & E1 & Q1).
    exists u1. split; [|exact Q1].
    rewrite convert_parts, L, E1. destruct rc; now injection E as <-.
  - injection E as <- <-. split; [reflexivity|].
    intros u _. exists u. split; [|apply quiet_refl].
    now rewrite convert_parts, L.
Qed.

End SecondRun.

Section SecondRunRecipes.
Context {B : Builtins} (init : store).

Let srv : server := persistent_store init.
Let st (t : list request) : store := store_after init t.

(** Second run: a recipe whose name is in the store is found, at the cost
    of one listing. *)
Lemma create_if_again (d : dict) (q : str) (u : list request) :
  dict_get d (lit "name") (JStr (lit "Untitled Recipe")) = JStr q ->
  has_recipe (st u) q = true ->
  exists a,
    create_recipe_if_not_exists srv (JDict d) u
    = (Ok a, u ++ [recipes_listing])
    /\ truthy a = true /\ is_dict a = true.
Proof.
  intros N H. unfold create_recipe_if_not_exists.
  unfold bind at 1, lift at 1. cbn [py_get]. rewrite N.
  pose proof (lookup_recipe_persistent init (JStr q) u) as L.
  cbn iota in L. destruct L as (v & L & T & D).
  fold srv in L. fold (st u) in T. rewrite H in T.
  rewrite (bind_ok _ L), T. exists v. auto.
Qed.

(** A recipe whose name is no string raises after the listing, whatever
    the store holds. *)
Lemma create_if_bad_name (d : dict) (t : list request) :
  match dict_get d (lit "name") (JStr (lit "Untitled Recipe")) with
  | JStr _ => True
  | _ =>
      exists e,
        create_recipe_if_not_exists srv (JDict d) t
        = (Raise e, t ++ [recipes_listing])
  end.
Proof.
  pose proof (lookup_recipe_persistent init
                (dict_get d (lit "name") (JStr (lit "Untitled Recipe"))) t) as L.
  fold srv in L. unfold create_recipe_if_not_exists. cbn [py_get].
  destruct (dict_get d (lit "name") (JStr (lit "Untitled Recipe")));
    try exact I; destruct L as [e L]; exists e;
    unfold bind at 1, lift at 1; now rewrite (bind_raise _ L).
Qed.

(** First run of [create_recipe_if_not_exists].  If it returns, it returns
    a record and the name of the recipe is in the store.  If it raises, it
    raises again from every store with the same recipes and at least the
    same foods, and then creates nothing. *)
Lemma create_if_first (recipe : json) (t : list request) r1 t1 :
  create_recipe_if_not_exists srv recipe t = (r1, t1) ->
  match r1 with
  | Ok a =>
      truthy a = true /\ is_dict a = true
      /\ exists d q,
           recipe = JDict d
           /\ dict_get d (lit "name") (JStr (lit "Untitled Recipe")) = JStr q
           /\ has_recipe (st t1) q = true
  | Raise _ =>
      forall u,
        covers_foods (st u) (st t1) -> same_recipes (st u) (st t1) ->
        exists e' u1,
          create_recipe_if_not_exists srv recipe u = (Raise e', u1)
          /\ quiet u u1
  end.
Proof.
  destruct recipe as [| | | | | |d];
    try (intros E; injection E as <- <-; intros u _ _;
         exists AttributeError, u; split; [reflexivity | apply quiet_refl]).
  pose proof (create_if_bad_name d t) as Bad.
  destruct (dict_get d (lit "name") (JStr (lit "Untitled Recipe")))
    as [| | | |q| |] eqn:N.
  1-4, 6-7:
    (destruct Bad as [e Bad]; rewrite Bad; intros E; injection E as <- <-;
     intros u _ _; pose proof (create_if_bad_name d u) as Bad';
     rewrite N in Bad'; destruct Bad' as [e' Bad'];
     exists e', (u ++ [recipes_listing]);
     split; [exact Bad' | now apply quiet_step]).
  clear Bad. unfold create_recipe_if_not_exists.
  unfold bind at 1, lift at 1. cbn [py_get]. rewrite N.
  pose proof (lookup_recipe_persistent init (JStr q) t) as L.
  cbn iota in L. destruct L as (v & L & T & D).
  fold srv in L. fold (st t) in T.
  rewrite (bind_ok _ L).
  destruct (truthy v) eqn:Tv.
  - intros E. injection E as <- <-.
    split; [exact Tv|]. split; [now apply D|].
    exists d, q. split; [reflexivity|]. split; [exact N|].
    unfold st. rewrite (quiet_store init (@quiet_step t recipes_listing eq_refl)).
    fold (st t). now rewrite <- T.
  - destruct (convert_recipe_to_mealie_format srv (JDict d)
                (t ++ [recipes_listing])) as [rc tc] eqn:C.
    destruct (convert_again init _ _ C) as [R Again]. fold srv st in R, Again.
    destruct rc as [p|e].
    + rewrite (bind_ok _ C). intros E.
      rewrite convert_parts in C.
      destruct (ingredient_lines (JDict d)); [|discriminate].
      destruct (convert_ingredients _ _ _ _) as [[ings|e] tx]; [|discriminate].
      injection C as F _. apply finish_recipe_name in F.
      destruct F as (d' & rest & Hd & ->). injection Hd as <-.
      rewrite N in E.
      destruct (@create_recipe_persistent B init
                  (JDict ((lit "name", JStr q) :: rest)) q tc)
        as (v' & Cr & Tv' & Dv' & Hr).
      { cbn [posted_name dict_find].
        change (str_eqb (lit "name") (lit "name")) with true. reflexivity. }
      fold srv in Cr. rewrite Cr in E. injection E as <- <-.
      split; [exact Tv'|]. split; [exact Dv'|].
      exists d, q. auto.
    + rewrite (bind_raise _ C). intros E. injection E as <- <-.
      intros u Cov Same.
      pose proof (lookup_recipe_persistent init (JStr q) u) as Lu.
      cbn iota in Lu. destruct Lu as (vu & Lu & Tu & _).
      fold srv in Lu. fold (st u) in Tu.
      assert (Fu : truthy vu = false).
      { unfold st in *. rewrite Tu, Same. unfold has_recipe. rewrite R.
        rewrite (quiet_store init (@quiet_step t recipes_listing eq_refl)).
        fold (has_recipe (store_after init t) q). now rewrite <- T. }
      destruct (Again (u ++ [recipes_listing])) as (u1 & Cu & Qu).
      { unfold st.
        rewrite (quiet_store init (@quiet_step u recipes_listing eq_refl)).
        exact Cov. }
      exists e, u1. split.
      * unfold bind at 1, lift at 1.
        rewrite (bind_ok _ Lu), Fu. now rewrite (bind_raise _ Cu).
      * eapply quiet_trans; [|exact Qu]. now apply quiet_step.
Qed.

End SecondRunRecipes.

Section SecondRunSchedule.
Context {B : Builtins} (init : store).

Let srv : server := persistent_store init.
Let st (t : list request) : store := store_after init t.

Lemma agrees_covers_recipes r1 u t1 : agrees r1 u t1 -> covers_recipes u t1.
Proof.
  intros [_ H]. destruct r1; [exact H | now apply same_recipes_covers].
Qed.

(** The end of [schedule_recipe], once the recipe is there: it returns and
    adds at most the meal-plan request. *)
Lemma schedule_tail (date meal_type : str) (a : dict) (t : list request) :
  exists t1,
    bind (lift (py_get (JDict a) (lit "id") JNull))
      (fun i =>
         bind (lift (py_get (JDict a) (lit "slug") JNull))
           (fun s =>
              if truthy (py_or i s)
              then bind (create_mealplan srv date meal_type (py_or i s))
                     (fun _ => ret tt)
              else ret tt)) t
    = (Ok tt, t1)
    /\ quiet t t1.
Proof.
  unfold bind at 1, lift at 1. cbn [py_get].
  unfold bind at 1, lift at 1. cbn [py_get].
  destruct (truthy _).
  - destruct (create_mealplan_persistent init date meal_type
                (py_or (dict_get a (lit "id") JNull)
                       (dict_get a (lit "slug") JNull)) t) as (v & M).
    fold srv in M. rewrite (bind_ok _ M). eexists. split; [reflexivity|].
    now apply quiet_step.
  - exists t. split; [reflexivity | apply quiet_refl].
Qed.

Lemma schedule_recipe_again (date : str) (recipe : json) (t : list request)
    r1 t1 :
  schedule_recipe srv date recipe t = (r1, t1) ->
  forall u,
    agrees r1 (st u) (st t1) ->
    exists r2 u1,
      schedule_recipe srv date recipe u = (r2, u1)
      /\ quiet u u1 /\ same_kind r1 r2.
Proof.
  unfold schedule_recipe.
  destruct (create_recipe_if_not_exists srv recipe t) as [rc tc] eqn:C.
  pose proof (create_if_first init _ _ C) as F. fold srv in F.
  destruct rc as [a|e].
  - destruct F as (Ta & Da & d & q & -> & N & Hq).
    rewrite (bind_ok _ C), Ta.
    destruct a as [| | | | | |ad]; try discriminate.
    unfold bind at 1, lift at 1.
    destruct (extract_meal_type (JDict d)) as [mt|e] eqn:X.
    + destruct (schedule_tail date mt ad tc) as (tm & Tl & Qm).
      rewrite Tl. intros E. injection E as <- <-.
      intros u A. pose proof (agrees_covers_recipes A) as CR.
      assert (Hu : has_recipe (st u) q = true).
      { apply CR. unfold st. now rewrite (quiet_store init Qm). }
      destruct (create_if_again init d u N Hu) as (a' & C' & Ta' & Da').
      fold srv in C'. rewrite (bind_ok _ C'), Ta'.
      destruct a' as [| | | | | |ad']; try discriminate.
      unfold bind at 1, lift at 1.
      destruct (schedule_tail date mt ad' (u ++ [recipes_listing]))
        as (um & Tl' & Qm').
      rewrite Tl'. exists (Ok tt), um. split; [reflexivity|].
      split; [|reflexivity].
      eapply quiet_trans; [|exact Qm']. now apply quiet_step.
    + intros E. injection E as <- <-.
      intros u [CF SR].
      assert (Hu : has_recipe (st u) q = true) by (now rewrite SR).
      destruct (create_if_again init d u N Hu) as (a' & C' & Ta' & Da').
      fold srv in C'. rewrite (bind_ok _ C'), Ta'.
      unfold bind at 1, lift at 1.
      exists (Raise e), (u ++ [recipes_listing]). split; [reflexivity|].
      split; [now apply quiet_step | now exists e].
  - rewrite (bind_raise _ C). intros E. injection E as <- <-.
    intros u [CF SR]. destruct (F u CF SR) as (e' & u1 & C' & Q).
    exists (Raise e'), u1. rewrite (bind_raise _ C').
    split; [reflexivity|]. split; [exact Q | now exists e'].
Qed.

Lemma agrees_quiet r1 u u' t1 :
  quiet u u' -> agrees r1 (st u) (st t1) -> agrees r1 (st u') (st t1).
Proof. intros Q A. unfold st. now rewrite (quiet_store init Q). Qed.

(** An agreement with the end of a run is an agreement with any earlier
    point from which the run went on. *)
Lemma agrees_earlier {A} (c : M A) r1 u ta :
  extending c ->
  agrees r1 (st u) (st (snd (c ta))) ->
  agrees (Ok tt) (st u) (st ta).
Proof.
  intros E Ag. destruct (@run_grows B init A c ta E) as [GF GR].
  destruct Ag as [CF CR]. split.
  - eapply covers_foods_trans; eauto.
  - eapply covers_recipes_trans; [|exact GR].
    destruct r1; [exact CR | now apply same_recipes_covers].
Qed.

Lemma schedule_recipes_again (date : str) (items : list json) :
  forall (t : list request) r1 t1,
    schedule_recipes srv date items t = (r1, t1) ->
    forall u,
      agrees r1 (st u) (st t1) ->
      exists r2 u1,
        schedule_recipes srv date items u = (r2, u1)
        /\ quiet u u1 /\ same_kind r1 r2.
Proof.
  induction items as [|x items IH]; intros t r1 t1 E u A.
  - cbn in E. injection E as <- <-. exists (Ok tt), u.
    split; [reflexivity|]. split; [apply quiet_refl | reflexivity].
  - cbn [schedule_recipes] in E |- *.
    destruct (schedule_recipe srv date x t) as [ra ta] eqn:S.
    destruct ra as [[]|e].
    + rewrite (bind_ok _ S) in E.
      assert (A1 : agrees (Ok tt) (st u) (st ta)).
      { apply (agrees_earlier (c:=schedule_recipes srv date items) (r1:=r1)).
        - apply extending_schedule_recipes.
        - now rewrite E. }
      destruct (schedule_recipe_again _ _ _ S u A1) as (r2 & ua & S' & Q & K).
      cbn in K. subst r2. rewrite (bind_ok _ S').
      destruct (IH _ _ _ E ua (@agrees_quiet r1 u ua t1 Q A))
        as (r3 & u1 & E' & Q' & K').
      exists r3, u1. split; [exact E'|]. split; [|exact K'].
      eapply quiet_trans; eauto.
    + rewrite (bind_raise _ S) in E. injection E as <- <-.
      destruct (schedule_recipe_again _ _ _ S u A) as (r2 & u1 & S' & Q & [e' K]).
      subst r2. rewrite (bind_raise _ S').
      exists (Raise e'), u1. split; [reflexivity|].
      split; [exact Q | now exists e'].
Qed.

Lemma process_days_again (menu_data : json) (week_dates : list (str * str))
    (days : list str) :
  forall (t : list request) r1 t1,
    process_days srv menu_data week_dates days t = (r1, t1) ->
    forall u,
      agrees r1 (st u) (st t1) ->
      exists r2 u1,
        process_days srv menu_data week_dates days u = (r2, u1)
        /\ quiet u u1 /\ same_kind r1 r2.
Proof.
  induction days as [|day days IH]; intros t r1 t1 E u A.
  - cbn in E. injection E as <- <-. exists (Ok tt), u.
    split; [reflexivity|]. split; [apply quiet_refl | reflexivity].
  - cbn [process_days] in E |- *.
    unfold bind at 1, lift at 1 in E. unfold bind at 1, lift at 1.
    destruct (py_get menu_data day (JList [])) as [recipes|e].
    2:{ injection E as <- <-. exists (Raise e), u. split; [reflexivity|].
        split; [apply quiet_refl | now exists e]. }
    destruct (truthy recipes); [|exact (IH t r1 t1 E u A)].
    unfold bind at 1, lift at 1 in E. unfold bind at 1, lift at 1.
    destruct (py_iter recipes) as [items|e].
    2:{ injection E as <- <-. exists (Raise e), u. split; [reflexivity|].
        split; [apply quiet_refl | now exists e]. }
    destruct (schedule_recipes srv (date_of week_dates day) items t)
      as [ra ta] eqn:S.
    destruct ra as [[]|e].
    + rewrite (bind_ok _ S) in E.
      assert (A1 : agrees (Ok tt) (st u) (st ta)).
      { apply (agrees_earlier
                 (c:=process_days srv menu_data week_dates days) (r1:=r1)).
        - apply extending_process_days.
        - now rewrite E. }
      destruct (schedule_recipes_again _ _ _ S u A1) as (r2 & ua & S' & Q & K).
      cbn in K. subst r2. rewrite (bind_ok _ S').
      destruct (IH _ _ _ E ua (@agrees_quiet r1 u ua t1 Q A))
        as (r3 & u1 & E' & Q' & K').
      exists r3, u1. split; [exact E'|]. split; [|exact K'].
      eapply quiet_trans; eauto.
    + rewrite (bind_raise _ S) in E. injection E as <- <-.
      destruct (schedule_recipes_again _ _ _ S u A) as (r2 & u1 & S' & Q & [e' K]).
      subst r2. rewrite (bind_raise _ S').
      exists (Raise e'), u1. split; [reflexivity|].
      split; [exact Q | now exists e'].
Qed.

Lemma process_weekly_menu_again (menu_data : json) (year : Z)
    (t : list request) r1 t1 :
  process_weekly_menu srv menu_data year t = (r1, t1) ->
  forall u,
    agrees r1 (st u) (st t1) ->
    exists r2 u1,
      process_weekly_menu srv menu_data year u = (r2, u1)
      /\ quiet u u1 /\ same_kind r1 r2.
Proof.
  unfold process_weekly_menu.
  unfold bind at 1, lift at 1. intros E u A. unfold bind at 1, lift at 1.
  destruct (py_get menu_data (lit "week") (JInt 1)) as [week_number|e].
  2:{ injection E as <- <-. exists (Raise e), u. split; [reflexivity|].
      split; [apply quiet_refl | now exists e]. }
  unfold bind at 1, lift at 1 in E. unfold bind at 1, lift at 1.
  destruct (calculate_week_dates year week_number) as [week_dates|e].
  2:{ injection E as <- <-. exists (Raise e), u. split; [reflexivity|].
      split; [apply quiet_refl | now exists e]. }
  exact (@process_days_again menu_data week_dates DAY_ORDER t r1 t1 E u A).
Qed.

End SecondRunSchedule.

(* ================================================================== *)
(** * No name twice                                                    *)
(* ================================================================== *)

Lemma NoDup_snoc {A} (l : list A) (x : A) :
  NoDup l -> ~ In x l -> NoDup (l ++ [x]).
Proof.
  intros N H. apply NoDup_rev in N. rewrite <- (rev_involutive (l ++ [x])).
  apply NoDup_rev. rewrite rev_unit. constructor; [|exact N].
  now rewrite <- in_rev.
Qed.

Lemma request_requests (srv : server) method endpoint payload t :
  snd (_request srv method endpoint payload t)
  = t ++ [request_of method endpoint payload].
Proof.
  unfold _request. fold (request_of method endpoint payload).
  destruct (srv t _) as [status b|f]; [destruct (raise_for_status status)|];
    reflexivity.
Qed.

Section Distinct.
Context {B : Builtins} (init : store).

Let srv : server := persistent_store init.
Let st (t : list request) : store := store_after init t.

Lemma keeps_ret {A} (a : A) : keeps_distinct init (ret a).
Proof. intros t D. exact D. Qed.

Lemma keeps_raise {A} (e : exn) : keeps_distinct init (@raise A e).
Proof. intros t D. exact D. Qed.

Lemma keeps_lift {A} (r : result A) : keeps_distinct init (lift r).
Proof. intros t D. exact D. Qed.

Lemma keeps_bind {A C} (m : M A) (f : A -> M C) :
  keeps_distinct init m -> (forall a, keeps_distinct init (f a)) ->
  keeps_distinct init (bind m f).
Proof.
  intros Hm Hf t D. unfold bind. specialize (Hm t D).
  destruct (m t) as [[a|e] t1]; [|exact Hm]. now apply Hf.
Qed.

Lemma keeps_except {A} (body handler : M A) :
  keeps_distinct init body -> keeps_distinct init handler ->
  keeps_distinct init (except_HTTPError body handler).
Proof.
  intros Hb Hh t D. unfold except_HTTPError. specialize (Hb t D).
  destruct (body t) as [[a|e] t1]; [exact Hb|].
  destruct e; try exact Hb. now apply Hh.
Qed.

(** A request that creates nothing keeps the names distinct. *)
Lemma keeps_request method endpoint payload :
  creates (request_of method endpoint payload) = false ->
  keeps_distinct init (_request srv method endpoint payload).
Proof.
  intros C t D. rewrite request_requests.
  now rewrite (quiet_store init (@quiet_step t _ C)).
Qed.

Lemma has_food_not_in (s : store) (n : str) :
  has_food s n = false -> ~ In (normalized n) (map normalized (foods s)).
Proof.
  unfold has_food. intros H I. apply in_map_iff in I.
  destruct I as (m & E & I).
  assert (X : existsb (fun m => str_eqb (normalized m) (normalized n)) (foods s)
              = true).
  { apply existsb_exists. exists m. split; [exact I | now apply str_eqb_eq]. }
  congruence.
Qed.

Lemma has_recipe_not_in (s : store) (n : str) :
  has_recipe s n = false ->
  ~ In (normalized n) (map (fun r => normalized (snd r)) (recipes s)).
Proof.
  unfold has_recipe. intros H I. apply in_map_iff in I.
  destruct I as (r & E & I).
  assert (X : existsb (fun r => str_eqb (normalized (snd r)) (normalized n))
                (recipes s) = true).
  { apply existsb_exists. exists r. split; [exact I | now apply str_eqb_eq]. }
  congruence.
Qed.

(** [ensure_ingredient_exists] adds a food only under a name that is not
    there. *)
Lemma keeps_ensure (n : str) :
  keeps_distinct init (ensure_ingredient_exists srv n).
Proof.
  intros t [DF DR]. destruct (ensure_persistent init n t) as (v & _ & E).
  fold srv in E. destruct (has_food (store_after init t) n) eqn:H.
  - rewrite E. cbn [snd].
    rewrite (quiet_store init (@quiet_step t foods_listing eq_refl)).
    now split.
  - destruct E as [E S]. rewrite E. cbn [snd]. rewrite S.
    unfold distinct_names. cbn [foods recipes].
    split; [|exact DR]. rewrite map_app. cbn [map].
    apply NoDup_snoc; [exact DF | now apply has_food_not_in].
Qed.

Lemma keeps_convert_ingredients (texts : list json) :
  forall acc, keeps_distinct init (convert_ingredients srv texts acc).
Proof.
  induction texts as [|x texts IH]; intros acc; cbn [convert_ingredients].
  - apply keeps_ret.
  - apply keeps_bind; [apply keeps_lift|]. intros p.
    apply keeps_bind; [apply keeps_ensure|]. intros _. apply IH.
Qed.

Lemma keeps_convert (recipe : json) :
  keeps_distinct init (convert_recipe_to_mealie_format srv recipe).
Proof.
  intros t D. rewrite convert_parts.
  destruct (ingredient_lines recipe) as [texts|e]; [|exact D].
  pose proof (keeps_convert_ingredients texts [] t D) as K.
  destruct (convert_ingredients srv texts [] t) as [[ings|e] t1]; exact K.
Qed.

Lemma keeps_get_recipe_by_name (n : json) :
  keeps_distinct init (get_recipe_by_name srv n).
Proof.
  unfold get_recipe_by_name, get_recipes.
  repeat first
    [ apply keeps_ret | apply keeps_lift
    | apply keeps_request; reflexivity
    | apply keeps_except
    | apply keeps_bind; [|intros ?] ].
Qed.

Lemma keeps_create_mealplan d e i :
  keeps_distinct init (create_mealplan srv d e i).
Proof.
  unfold create_mealplan.
  repeat first
    [ apply keeps_ret | apply keeps_lift
    | apply keeps_request; reflexivity
    | apply keeps_except
    | apply keeps_bind; [|intros ?] ].
Qed.

Lemma create_recipe_persistent_store (payload : json) (n : str)
    (t : list request) :
  posted_name (Some payload) = Some n ->
  snd (create_recipe srv payload t) = t ++ [recipe_post payload]
  /\ st (t ++ [recipe_post payload])
     = {| foods := foods (st t);
          recipes := recipes (st t)
                     ++ [(Z.of_nat (List.length (recipes (st t))), n)] |}.
Proof.
  intros P. split.
  - destruct (@create_recipe_persistent B init payload n t P) as (v & C & _).
    fold srv in C. now rewrite C.
  - unfold st. rewrite store_after_snoc. unfold store_step, recipe_post.
    cbn [request_of req_method req_endpoint req_json fst].
    change (str_eqb (lit "/recipes") (lit "/foods")) with false.
    change (str_eqb (lit "/recipes") (lit "/recipes")) with true.
    cbv iota. now rewrite P.
Qed.

(** [create_recipe_if_not_exists] adds a recipe only under a name that is
    not there. *)
Lemma keeps_create_recipe_if_not_exists (recipe : json) :
  keeps_distinct init (create_recipe_if_not_exists srv recipe).
Proof.
  intros t D. unfold create_recipe_if_not_exists.
  destruct recipe as [| | | | | |d]; try exact D.
  unfold bind at 1, lift at 1. cbn [py_get].
  pose proof (keeps_get_recipe_by_name
                (dict_get d (lit "name") (JStr (lit "Untitled Recipe"))) t D)
    as KL.
  pose proof (lookup_recipe_persistent init
                (dict_get d (lit "name") (JStr (lit "Untitled Recipe"))) t) as L.
  fold srv in L.
  destruct (dict_get d (lit "name") (JStr (lit "Untitled Recipe")))
    as [| | | |q| |] eqn:N.
  1-4, 6-7: (destruct L as [e L]; rewrite (bind_raise _ L); rewrite L in KL;
             exact KL).
  destruct L as (v & L & T & _). rewrite L in KL. cbn [snd] in KL.
  rewrite (bind_ok _ L).
  destruct (truthy v) eqn:Tv; [exact KL|].
  pose proof (keeps_convert (JDict d) (t ++ [recipes_listing]) KL) as KC.
  destruct (convert_recipe_to_mealie_format srv (JDict d)
              (t ++ [recipes_listing])) as [rc tc] eqn:C.
  cbn [snd] in KC.
  destruct (convert_again init _ _ C) as [R _]. fold srv in R.
  destruct rc as [p|e]; [|now rewrite (bind_raise _ C)].
  rewrite (bind_ok _ C).
  rewrite convert_parts in C.
  destruct (ingredient_lines (JDict d)); [|discriminate].
  destruct (convert_ingredients _ _ _ _) as [[ings|e] tx]; [|discriminate].
  injection C as F _. apply finish_recipe_name in F.
  destruct F as (d' & rest & Hd & ->). injection Hd as <-. rewrite N.
  assert (P : posted_name (Some (JDict ((lit "name", JStr q) :: rest)))
              = Some q).
  { cbn [posted_name dict_find].
    change (str_eqb (lit "name") (lit "name")) with true. reflexivity. }
  destruct (create_recipe_persistent_store _ tc P) as [E S].
  rewrite E. unfold st in S. rewrite S. destruct KC as [DF DR].
  split; [exact DF|]. cbn [recipes]. rewrite map_app. cbn [map snd].
  apply NoDup_snoc; [exact DR|].
  apply has_recipe_not_in. unfold has_recipe. rewrite R.
  rewrite (quiet_store init (@quiet_step t recipes_listing eq_refl)).
  fold (has_recipe (store_after init t) q). now rewrite <- T.
Qed.

Lemma keeps_schedule_recipe date recipe :
  keeps_distinct init (schedule_recipe srv date recipe).
Proof.
  unfold schedule_recipe.
  apply keeps_bind; [apply keeps_create_recipe_if_not_exists|]. intros a.
  destruct (truthy a); [|apply keeps_ret].
  apply keeps_bind; [apply keeps_lift|]. intros mt.
  apply keeps_bind; [apply keeps_lift|]. intros i.
  apply keeps_bind; [apply keeps_lift|]. intros s.
  destruct (truthy (py_or i s)); [|apply keeps_ret].
  apply keeps_bind; [apply keeps_create_mealplan | intros _; apply keeps_ret].
Qed.

Lemma keeps_schedule_recipes date items :
  keeps_distinct init (schedule_recipes srv date items).
Proof.
  induction items as [|x items IH]; cbn [schedule_recipes].
  - apply keeps_ret.
  - apply keeps_bind; [apply keeps_schedule_recipe | intros _; exact IH].
Qed.

Lemma keeps_process_days menu_data week_dates days :
  keeps_distinct init (process_days srv menu_data week_dates days).
Proof.
  induction days as [|day days IH]; cbn [process_days].
  - apply keeps_ret.
  - apply keeps_bind; [apply keeps_lift|]. intros recipes.
    destruct (truthy recipes); [|exact IH].
    apply keeps_bind; [apply keeps_lift|]. intros items.
    apply keeps_bind; [apply keeps_schedule_recipes | intros _; exact IH].
Qed.

Lemma keeps_process_weekly_menu menu_data year :
  keeps_distinct init (process_weekly_menu srv menu_data year).
Proof.
  unfold process_weekly_menu.
  apply keeps_bind; [apply keeps_lift|]. intros w.
  apply keeps_bind; [apply keeps_lift|]. intros dates.
  apply keeps_process_days.
Qed.

End Distinct.

(* ================================================================== *)
(** * Creation only of what is not there                               *)
(* ================================================================== *)

Lemma get_ingredient_by_name_requests {B : Builtins} (srv : server)
    (n : str) (t : list request) :
  snd (get_ingredient_by_name srv n t) = t ++ [foods_listing].
Proof.
  unfold get_ingredient_by_name, bind. rewrite get_ingredients_reply.
  destruct (srv t foods_listing) as [status b|f]; [|reflexivity].
  destruct (raise_for_status status); [reflexivity|].
  destruct b; reflexivity.
Qed.

(** C4: [create_recipe_if_not_exists] returns the first listed recipe that
    has the name of the given one, lowercased and stripped, and then issues
    nothing but the listing: no translation, no ingredient call, no
    creation.  [ensure_ingredient_exists] issues nothing but the listing
    when the lookup found the ingredient.  And against a store that
    persists, running a menu again from where the first run stopped creates
    no food and no recipe: the requests it adds are listings and meal-plan
    entries, the store keeps its foods and recipes, and the run ends the
    way the first did; and no run gives the store two foods or two recipes
    of the same lowercased, stripped name if it had none. *)
Theorem creation_only_of_what_is_missing :
  (forall (B : Builtins) (srv : server) (d : dict) (q : str)
          (t : list request) (listed : list json) (existing : json),
      dict_get d (lit "name") (JStr (lit "Untitled Recipe")) = JStr q ->
      get_recipes srv t = (Ok (JList listed), t ++ [recipes_listing]) ->
      Forall (fun r => stored_name r <> None) listed ->
      first_with (named_like stored_name q) listed existing ->
      create_recipe_if_not_exists srv (JDict d) t
      = (Ok existing, t ++ [recipes_listing]))
  /\ (forall (B : Builtins) (srv : server) (n : str) (t t1 : list request)
             (found : json),
        get_ingredient_by_name srv n t = (Ok found, t1) ->
        truthy found = true ->
        ensure_ingredient_exists srv n t = (Ok found, t1)
        /\ t1 = t ++ [foods_listing])
  /\ (forall (B : Builtins) (init : store) (menu_data : json) (year : Z),
        let srv := persistent_store init in
        let first := process_weekly_menu srv menu_data year [] in
        exists r2 t2,
          process_weekly_menu srv menu_data year (snd first) = (r2, t2)
          /\ quiet (snd first) t2
          /\ store_after init t2 = store_after init (snd first)
          /\ same_kind (fst first) r2)
  /\ (forall (B : Builtins) (init : store) (menu_data : json) (year : Z)
             (t : list request),
        distinct_names (store_after init t) ->
        distinct_names
          (store_after init
             (snd (process_weekly_menu (persistent_store init)
                     menu_data year t)))).
Proof.
  split; [|split; [|split]].
  - intros B srv d q t listed existing N G F First.
    assert (F' : Forall (fun r => recipe_name r <> None) listed).
    { eapply Forall_impl; [|exact F]. intros r Hr.
      destruct (stored_name r) as [n|] eqn:S; [|congruence].
      destruct (stored_name_recipe_name _ S) as [-> _]. discriminate. }
    assert (First' : first_with (named_like recipe_name q) listed existing).
    { eapply first_with_ext; [|exact First]. intros y Hy.
      rewrite Forall_forall in F. specialize (F y Hy).
      destruct (stored_name y) as [n|] eqn:S; [|congruence].
      destruct (stored_name_recipe_name _ S) as [R _].
      unfold named_like. rewrite S, R. reflexivity. }
    destruct (find_recipe_lookup q F') as (v & Fv & [Iff Fst]).
    assert (Hv : v <> JNull).
    { apply Iff. destruct First' as (b & a & -> & P & _).
      exists existing. split; [apply in_elt | exact P]. }
    pose proof (first_with_unique (Fst Hv) First') as ->.
    assert (T : truthy existing = true).
    { destruct First as (b & a & -> & _ & _).
      rewrite Forall_forall in F. specialize (F existing (in_elt _ _ _)).
      destruct (stored_name existing) as [n|] eqn:S; [|congruence].
      now destruct (stored_name_recipe_name _ S). }
    unfold create_recipe_if_not_exists.
    unfold bind at 1, lift at 1. cbn [py_get]. rewrite N.
    assert (L : get_recipe_by_name srv (JStr q) t
                = (Ok existing, t ++ [recipes_listing])).
    { unfold get_recipe_by_name. rewrite (bind_ok _ G).
      unfold bind, lift. cbn [py_lower py_iter]. now rewrite Fv. }
    now rewrite (bind_ok _ L), T.
  - intros B srv n t t1 found L T. split.
    + unfold ensure_ingredient_exists. now rewrite (bind_ok _ L), T.
    + pose proof (get_ingredient_by_name_requests srv n t) as R.
      now rewrite L in R.
  - intros B init menu_data year srv first.
    destruct first as [r1 t1] eqn:E. cbn [fst snd].
    destruct (@process_weekly_menu_again B init menu_data year [] r1 t1 E t1)
      as (r2 & t2 & E2 & Q & K).
    { split; [apply covers_foods_refl|].
      destruct r1; [apply covers_recipes_refl | intros n; reflexivity]. }
    exists r2, t2. split; [exact E2|]. split; [exact Q|].
    split; [now apply quiet_store | exact K].
  - intros B init menu_data year t D.
    now apply keeps_process_weekly_menu.
Qed.

Lemma creation_only_of_what_is_missing_witness :
  let stored := JDict [(lit "id", JStr (lit "7"));
                       (lit "name", JStr (lit "zabkása"))] in
  let srv := always 200 (JDict [(lit "items", JList [stored])]) in
  let recipe := JDict [(lit "name", JStr (lit " Zabkása "));
                       (lit "recipeIngredient", JList [JStr (lit "50 g zab")])] in
  let menu := JDict [(lit "week", JInt 1); (lit "monday", JList [recipe; recipe])] in
  let empty := {| foods := []; recipes := [] |} in
  create_recipe_if_not_exists (B:=latin1) srv recipe []
  = (Ok stored, [recipes_listing])
  /\ ensure_ingredient_exists (B:=latin1) srv (lit "ZABKÁSA") []
     = (Ok stored, [foods_listing])
  /\ distinct_names (B:=latin1)
       (store_after empty
          (snd (process_weekly_menu (B:=latin1) (persistent_store empty)
                  menu 2025 []))).
Proof.
  intros stored srv recipe menu empty. split; [|split].
  - apply (proj1 creation_only_of_what_is_missing latin1 srv _
             (lit " Zabkása ") [] [stored] stored).
    + reflexivity.
    + reflexivity.
    + repeat constructor. discriminate.
    + apply first_with_cons_hit. exists (lit "zabkása").
      split; reflexivity.
  - apply (proj1 (proj2 creation_only_of_what_is_missing) latin1 srv
             (lit "ZABKÁSA") [] [foods_listing] stored).
    + reflexivity.
    + reflexivity.
  - apply (proj2 (proj2 (proj2 creation_only_of_what_is_missing)) latin1
             empty menu 2025 []).
    split; constructor.
Defined.

(* ================================================================== *)
(** * What a run asks of the server                                   *)
(* ================================================================== *)

Lemma issues_ret {A} P (a : A) : issues P (ret a).
Proof. intros t. exists []. simpl. now rewrite app_nil_r. Qed.

Lemma issues_raise {A} P (e : exn) : issues P (@raise A e).
Proof. intros t. exists []. simpl. now rewrite app_nil_r. Qed.

Lemma issues_lift {A} P (r : result A) : issues P (lift r).
Proof. intros t. exists []. simpl. now rewrite app_nil_r. Qed.

Lemma issues_bind {A C} P (m : M A) (f : A -> M C) :
  issues P m -> (forall a, issues P (f a)) -> issues P (bind m f).
Proof.
  intros Hm Hf t. unfold bind. destruct (Hm t) as (a1 & E1 & F1).
  destruct (m t) as [[a|e] t1]; simpl in E1; subst t1.
  - destruct (Hf a (t ++ a1)) as (a2 & E2 & F2). exists (a1 ++ a2).
    rewrite E2, app_assoc. split; [reflexivity | now apply Forall_app].
  - now exists a1.
Qed.

Lemma issues_except {A} P (body handler : M A) :
  issues P body -> issues P handler -> issues P (except_HTTPError body handler).
Proof.
  intros Hb Hh t. unfold except_HTTPError. destruct (Hb t) as (a1 & E1 & F1).
  destruct (body t) as [[a|e] t1]; simpl in E1; subst t1.
  - now exists a1.
  - destruct e; try now exists a1.
    destruct (Hh (t ++ a1)) as (a2 & E2 & F2). exists (a1 ++ a2).
    rewrite E2, app_assoc. split; [reflexivity | now apply Forall_app].
Qed.

Lemma issues_request (P : request -> Prop) (srv : server) method endpoint payload :
  P (request_of method endpoint payload) ->
  issues P (_request srv method endpoint payload).
Proof.
  intros H t. unfold _request. exists [request_of method endpoint payload].
  split; [|now constructor].
  unfold request_of.
  destruct (srv t _) as [status b|f]; [destruct (raise_for_status status)|];
    reflexivity.
Qed.

Lemma issues_weaken {A} (P Q : request -> Prop) (c : M A) :
  (forall rq, P rq -> Q rq) -> issues P c -> issues Q c.
Proof.
  intros H Hc t. destruct (Hc t) as (a & E & F). exists a. split; [exact E|].
  eapply Forall_impl; [|exact F]. exact H.
Qed.

Lemma issues_bind_lift {A C} P (r : result A) (f : A -> M C) :
  (forall a, r = Ok a -> issues P (f a)) -> issues P (bind (lift r) f).
Proof.
  intros H t. unfold bind, lift. destruct r as [a|e].
  - now apply H.
  - exists []. simpl. now rewrite app_nil_r.
Qed.

Lemma scan_meal_types_in (items : list (str * str)) (text e : str) :
  scan_meal_types items text = Some e -> In e (map snd items).
Proof.
  induction items as [|[k v] items IH]; simpl; [discriminate|].
  destruct (contains text k).
  - intros E. injection E as ->. now left.
  - intros E. right. now apply IH.
Qed.

Lemma meal_type_values : incl (map snd MEAL_TYPE_MAP) entry_types.
Proof.
  intros e H. cbn in H. unfold entry_types.
  repeat destruct H as [<- | H]; simpl; tauto.
Qed.

Lemma extract_meal_type_in {B : Builtins} (recipe : json) (e : str) :
  extract_meal_type recipe = Ok e -> In e entry_types.
Proof.
  unfold extract_meal_type. destruct recipe as [| | | | | |d]; try discriminate.
  cbn [py_get rbind].
  assert (S : forall text e', scan_meal_types MEAL_TYPE_MAP text = Some e' ->
                              In e' entry_types).
  { intros text e' H. apply meal_type_values. eapply scan_meal_types_in, H. }
  assert (D : forall v, (l <~ py_lower v ;;
                match scan_meal_types MEAL_TYPE_MAP l with
                | Some english => Ok english
                | None => Ok (lit "dinner")
                end) = Ok e -> In e entry_types).
  { intros v. destruct v; try discriminate. cbn [py_lower rbind].
    destruct (scan_meal_types _ _) eqn:E; intros H; injection H as <-.
    - eapply S, E.
    - simpl. tauto. }
  destruct (dict_get d (lit "keywords") (JStr [])) as [| | | |kw| |];
    try apply D.
  destruct (scan_meal_types MEAL_TYPE_MAP (str_lower kw)) eqn:E.
  - intros H. injection H as <-. eapply S, E.
  - apply D.
Qed.

Section Issues.
Context {B : Builtins} (srv : server).

Lemma issues_get_ingredients : issues on_foods (get_ingredients srv).
Proof.
  unfold get_ingredients. apply issues_except; [|apply issues_ret].
  apply issues_bind; [apply issues_request; now left|]. intros r.
  apply issues_bind; [apply issues_lift|]. intros d. apply issues_ret.
Qed.

Lemma issues_create_ingredient n : issues on_foods (create_ingredient srv n).
Proof.
  unfold create_ingredient. apply issues_except; [|apply issues_ret].
  apply issues_bind; [|intros r; apply issues_lift].
  apply issues_request. right. now exists n.
Qed.

Lemma issues_ensure n : issues on_foods (ensure_ingredient_exists srv n).
Proof.
  unfold ensure_ingredient_exists, get_ingredient_by_name.
  apply issues_bind.
  - apply issues_bind; [apply issues_get_ingredients|].
    intros l. apply issues_lift.
  - intros v. destruct (truthy v);
      [apply issues_ret | apply issues_create_ingredient].
Qed.

Lemma issues_convert_ingredients texts :
  forall acc, issues on_foods (convert_ingredients srv texts acc).
Proof.
  induction texts as [|x texts IH]; intros acc; cbn [convert_ingredients].
  - apply issues_ret.
  - apply issues_bind; [apply issues_lift|]. intros p.
    apply issues_bind; [apply issues_ensure|]. intros _. apply IH.
Qed.

Lemma issues_convert recipe :
  issues on_foods (convert_recipe_to_mealie_format srv recipe).
Proof.
  unfold convert_recipe_to_mealie_format.
  repeat first
    [ apply issues_ret | apply issues_lift | apply issues_convert_ingredients
    | apply issues_bind; [|intros ?]
    | match goal with
      | |- issues _ (if ?b then _ else _) => destruct b
      end ].
Qed.

Lemma issues_get_recipe_by_name n : issues on_recipes (get_recipe_by_name srv n).
Proof.
  unfold get_recipe_by_name, get_recipes.
  repeat first
    [ apply issues_ret | apply issues_lift | apply issues_except
    | apply issues_request; now left
    | apply issues_bind; [|intros ?] ].
Qed.

Lemma issues_create_recipe p : issues on_recipes (create_recipe srv p).
Proof.
  unfold create_recipe. apply issues_except; [|apply issues_ret].
  apply issues_bind; [apply issues_request; right; now exists p|]. intros r.
  apply issues_bind; [apply issues_lift|]. intros d.
  destruct d as [| | | | |[|[] ?]|]; apply issues_ret.
Qed.

Lemma issues_create_recipe_if_not_exists recipe :
  issues (fun rq => on_foods rq \/ on_recipes rq)
    (create_recipe_if_not_exists srv recipe).
Proof.
  unfold create_recipe_if_not_exists.
  apply issues_bind; [apply issues_lift|]. intros n.
  apply issues_bind.
  { eapply issues_weaken; [|apply issues_get_recipe_by_name]. intros ? ?; auto. }
  intros v. destruct (truthy v); [apply issues_ret|].
  apply issues_bind.
  { eapply issues_weaken; [|apply issues_convert]. intros ? ?; auto. }
  intros p. eapply issues_weaken; [|apply issues_create_recipe]. intros ? ?; auto.
Qed.

Lemma issues_create_mealplan date entry_type recipe_id :
  In entry_type entry_types -> truthy recipe_id = true ->
  issues (plans date) (create_mealplan srv date entry_type recipe_id).
Proof.
  intros He Hi. unfold create_mealplan.
  apply issues_except; [|apply issues_ret].
  apply issues_bind; [|intros r; apply issues_lift].
  apply issues_request. now exists entry_type, recipe_id.
Qed.

Lemma issues_schedule_recipe date recipe :
  issues (fun rq => on_foods rq \/ on_recipes rq \/ plans date rq)
    (schedule_recipe srv date recipe).
Proof.
  unfold schedule_recipe. apply issues_bind.
  { eapply issues_weaken; [|apply issues_create_recipe_if_not_exists].
    intros ? [?|?]; auto. }
  intros created. destruct (truthy created); [|apply issues_ret].
  apply issues_bind_lift. intros meal_type Hm.
  apply issues_bind; [apply issues_lift|]. intros i.
  apply issues_bind; [apply issues_lift|]. intros s.
  destruct (truthy (py_or i s)) eqn:T; [|apply issues_ret].
  apply issues_bind; [|intros _; apply issues_ret].
  eapply issues_weaken; [|apply issues_create_mealplan].
  - intros ? ?; auto.
  - eapply extract_meal_type_in, Hm.
  - exact T.
Qed.

Lemma issues_schedule_recipes date recipes :
  issues (fun rq => on_foods rq \/ on_recipes rq \/ plans date rq)
    (schedule_recipes srv date recipes).
Proof.
  induction recipes as [|x recipes IH]; cbn [schedule_recipes].
  - apply issues_ret.
  - apply issues_bind; [apply issues_schedule_recipe | intros _; exact IH].
Qed.

Lemma issues_process_days menu_data week_dates days :
  issues (fun rq => on_foods rq \/ on_recipes rq
                    \/ exists day, In day days /\ plans (date_of week_dates day) rq)
    (process_days srv menu_data week_dates days).
Proof.
  induction days as [|day days IH]; cbn [process_days].
  - apply issues_ret.
  - assert (R : issues (fun rq => on_foods rq \/ on_recipes rq
                    \/ exists d, In d (day :: days) /\ plans (date_of week_dates d) rq)
                  (process_days srv menu_data week_dates days)).
    { eapply issues_weaken; [|exact IH]. intros rq [H|[H|(d & Hd & H)]]; auto.
      right. right. exists d. split; [now right | exact H]. }
    apply issues_bind; [apply issues_lift|]. intros recipes.
    destruct (truthy recipes); [|exact R].
    apply issues_bind; [apply issues_lift|]. intros items.
    apply issues_bind; [|intros _; exact R].
    eapply issues_weaken; [|apply issues_schedule_recipes].
    intros rq [H|[H|H]]; auto. right. right. exists day. split; [now left | exact H].
Qed.

End Issues.

(** X1: whatever the server answers, [process_weekly_menu] leaves the
    requests issued before it in place and adds only listings and creations
    of foods and of recipes, and meal-plan entries; every meal-plan entry
    carries an identifier that is not empty, one of the four entry types,
    and the date of one of the seven days of the week that was computed. *)
Theorem process_weekly_menu_requests :
  forall (B : Builtins) (srv : server) (menu_data : json) (year : Z)
         (t : list request),
  exists added,
    snd (process_weekly_menu srv menu_data year t) = t ++ added
    /\ Forall
         (fun rq =>
            on_foods rq \/ on_recipes rq
            \/ exists week_dates day,
                 (week_number <~ py_get menu_data (lit "week") (JInt 1) ;;
                  calculate_week_dates year week_number) = Ok week_dates
                 /\ In day DAY_ORDER
                 /\ plans (date_of week_dates day) rq)
         added.
Proof.
  intros B srv menu_data year t. unfold process_weekly_menu.
  unfold bind at 1, lift at 1.
  destruct (py_get menu_data (lit "week") (JInt 1)) as [w|e];
    [|exists []; simpl; now rewrite app_nil_r].
  unfold bind at 1, lift at 1. cbn [rbind].
  destruct (calculate_week_dates year w) as [week_dates|e];
    [|exists []; simpl; now rewrite app_nil_r].
  destruct (issues_process_days srv menu_data week_dates DAY_ORDER t)
    as (added & E & F).
  exists added. split; [exact E|].
  eapply Forall_impl; [|exact F]. intros rq [H|[H|(day & Hd & H)]]; auto.
  right. right. now exists week_dates, day.
Qed.

(* ================================================================== *)
(** * Error statuses stay inside                                      *)
(* ================================================================== *)

Lemma benign_rbind {A C} (r : result A) (f : A -> result C) :
  benign r -> (forall a, benign (f a)) -> benign (rbind r f).
Proof.
  intros Hr Hf. destruct r as [a|e]; simpl; [apply Hf|].
  intros s E. apply (Hr s). congruence.
Qed.

Lemma benign_py_get v k d : benign (py_get v k d).
Proof. intros s. destruct v; discriminate. Qed.

Lemma benign_py_lower {B : Builtins} v : benign (py_lower v).
Proof. intros s. destruct v; discriminate. Qed.

Lemma benign_py_iter v : benign (py_iter v).
Proof. intros s. destruct v; discriminate. Qed.

Lemma benign_py_len v : benign (py_len v).
Proof. intros s. destruct v; discriminate. Qed.

Lemma benign_response_json b : benign (response_json b).
Proof. intros s. destruct b; discriminate. Qed.

Lemma benign_find_ingredient {B : Builtins} l q : benign (find_ingredient l q).
Proof.
  induction l as [|x l IH]; simpl; [discriminate|].
  destruct x; try exact IH.
  - destruct (str_eqb _ _); [discriminate | exact IH].
  - apply benign_rbind; [apply benign_py_lower|]. intros a.
    destruct (str_eqb _ _); [discriminate | exact IH].
Qed.

Lemma benign_find_recipe {B : Builtins} l q : benign (find_recipe l q).
Proof.
  induction l as [|x l IH]; simpl; [discriminate|].
  apply benign_rbind; [apply benign_py_get|]. intros n.
  apply benign_rbind; [apply benign_py_lower|]. intros a.
  destruct (str_eqb _ _); [discriminate | exact IH].
Qed.

Lemma benign_extract_meal_type {B : Builtins} recipe :
  benign (extract_meal_type recipe).
Proof.
  unfold extract_meal_type.
  apply benign_rbind; [apply benign_py_get|]. intros k.
  assert (D : benign (d <~ py_get recipe (lit "description") (JStr []) ;;
                      description <~ py_lower d ;;
                      match scan_meal_types MEAL_TYPE_MAP description with
                      | Some english => Ok english
                      | None => Ok (lit "dinner")
                      end)).
  { apply benign_rbind; [apply benign_py_get|]. intros d.
    apply benign_rbind; [apply benign_py_lower|]. intros a.
    destruct (scan_meal_types _ _); discriminate. }
  destruct k; try exact D.
  destruct (scan_meal_types _ _); [discriminate | exact D].
Qed.

Lemma absorbs_ret {A} (a : A) : absorbs_HTTPError (ret a).
Proof. intros t s. discriminate. Qed.

Lemma absorbs_lift {A} (r : result A) : benign r -> absorbs_HTTPError (lift r).
Proof. intros H t s. apply H. Qed.

Lemma absorbs_bind {A C} (m : M A) (f : A -> M C) :
  absorbs_HTTPError m -> (forall a, absorbs_HTTPError (f a)) ->
  absorbs_HTTPError (bind m f).
Proof.
  intros Hm Hf t s. unfold bind. specialize (Hm t s).
  destruct (m t) as [[a|e] t1]; [apply Hf|].
  simpl in *. congruence.
Qed.

Lemma absorbs_except {A} (body handler : M A) :
  absorbs_HTTPError handler -> absorbs_HTTPError (except_HTTPError body handler).
Proof.
  intros Hh t s. unfold except_HTTPError.
  destruct (body t) as [[a|e] t1]; [discriminate|].
  destruct e; try discriminate. apply Hh.
Qed.

Section Absorbs.
Context {B : Builtins} (srv : server).

Lemma absorbs_get_ingredient_by_name n :
  absorbs_HTTPError (get_ingredient_by_name srv n).
Proof.
  unfold get_ingredient_by_name, get_ingredients.
  apply absorbs_bind; [apply absorbs_except, absorbs_ret|]. intros l.
  apply absorbs_lift, benign_find_ingredient.
Qed.

Lemma absorbs_ensure n : absorbs_HTTPError (ensure_ingredient_exists srv n).
Proof.
  unfold ensure_ingredient_exists.
  apply absorbs_bind; [apply absorbs_get_ingredient_by_name|]. intros v.
  destruct (truthy v); [apply absorbs_ret|].
  apply absorbs_except, absorbs_ret.
Qed.

Lemma absorbs_convert_ingredients texts :
  forall acc, absorbs_HTTPError (convert_ingredients srv texts acc).
Proof.
  induction texts as [|x texts IH]; intros acc; cbn [convert_ingredients].
  - apply absorbs_ret.
  - apply absorbs_bind.
    + apply absorbs_lift. intros s. destruct x; discriminate.
    + intros p. apply absorbs_bind; [apply absorbs_ensure | intros _; apply IH].
Qed.

Lemma absorbs_convert recipe :
  absorbs_HTTPError (convert_recipe_to_mealie_format srv recipe).
Proof.
  unfold convert_recipe_to_mealie_format.
  repeat first
    [ apply absorbs_ret | apply absorbs_convert_ingredients
    | apply absorbs_lift;
      first [apply benign_py_get | apply benign_py_len | apply benign_py_iter]
    | apply absorbs_bind; [|intros ?]
    | match goal with
      | |- absorbs_HTTPError (if ?b then _ else _) => destruct b
      end ].
Qed.

Lemma absorbs_get_recipe_by_name n :
  absorbs_HTTPError (get_recipe_by_name srv n).
Proof.
  unfold get_recipe_by_name, get_recipes.
  apply absorbs_bind; [apply absorbs_except, absorbs_ret|]. intros l.
  apply absorbs_bind; [apply absorbs_lift, benign_py_lower|]. intros q.
  apply absorbs_bind; [apply absorbs_lift, benign_py_iter|]. intros items.
  apply absorbs_lift, benign_find_recipe.
Qed.

Lemma absorbs_create_recipe_if_not_exists recipe :
  absorbs_HTTPError (create_recipe_if_not_exists srv recipe).
Proof.
  unfold create_recipe_if_not_exists.
  apply absorbs_bind; [apply absorbs_lift, benign_py_get|]. intros n.
  apply absorbs_bind; [apply absorbs_get_recipe_by_name|]. intros v.
  destruct (truthy v); [apply absorbs_ret|].
  apply absorbs_bind; [apply absorbs_convert|]. intros p.
  apply absorbs_except, absorbs_ret.
Qed.

Lemma absorbs_schedule_recipe date recipe :
  absorbs_HTTPError (schedule_recipe srv date recipe).
Proof.
  unfold schedule_recipe.
  apply absorbs_bind; [apply absorbs_create_recipe_if_not_exists|].
  intros created. destruct (truthy created); [|apply absorbs_ret].
  apply absorbs_bind; [apply absorbs_lift, benign_extract_meal_type|].
  intros meal_type.
  apply absorbs_bind; [apply absorbs_lift, benign_py_get|]. intros i.
  apply absorbs_bind; [apply absorbs_lift, benign_py_get|]. intros s.
  destruct (truthy _); [|apply absorbs_ret].
  apply absorbs_bind; [apply absorbs_except, absorbs_ret|]. intros _.
  apply absorbs_ret.
Qed.

Lemma absorbs_schedule_recipes date recipes :
  absorbs_HTTPError (schedule_recipes srv date recipes).
Proof.
  induction recipes as [|x recipes IH]; cbn [schedule_recipes].
  - apply absorbs_ret.
  - apply absorbs_bind; [apply absorbs_schedule_recipe | intros _; exact IH].
Qed.

Lemma absorbs_process_days menu_data week_dates days :
  absorbs_HTTPError (process_days srv menu_data week_dates days).
Proof.
  induction days as [|day days IH]; cbn [process_days].
  - apply absorbs_ret.
  - apply absorbs_bind; [apply absorbs_lift, benign_py_get|]. intros recipes.
    destruct (truthy recipes); [|exact IH].
    apply absorbs_bind; [apply absorbs_lift, benign_py_iter|]. intros items.
    apply absorbs_bind; [apply absorbs_schedule_recipes | intros _; exact IH].
Qed.

End Absorbs.

Lemma benign_timedelta_days n : benign (timedelta_days n).
Proof. intros s. unfold timedelta_days. destruct (_ <=? _); discriminate. Qed.

Lemma benign_date_add o d : benign (date_add o d).
Proof. intros s. unfold date_add. cbv zeta. destruct (_ && _)%bool; discriminate. Qed.

Lemma benign_datetime y m d : benign (datetime y m d).
Proof. intros s. unfold datetime. destruct (_ && _)%bool; discriminate. Qed.

Lemma benign_week_days days monday : forall idx, benign (week_days days monday idx).
Proof.
  induction days as [|day days IH]; intros idx; simpl; [discriminate|].
  apply benign_rbind; [apply benign_date_add|]. intros date.
  apply benign_rbind; [apply IH|]. intros dates. discriminate.
Qed.

Lemma benign_calculate_week_dates {B : Builtins} year week :
  (forall f, benign (float_weeks_days f)) ->
  benign (calculate_week_dates year week).
Proof.
  intros F. unfold calculate_week_dates.
  apply benign_rbind; [apply benign_datetime|]. intros jan_4.
  apply benign_rbind; [apply benign_date_add|]. intros monday.
  apply benign_rbind.
  { destruct week; simpl; try apply benign_timedelta_days; try apply F;
      discriminate. }
  intros delta.
  apply benign_rbind; [apply benign_date_add|]. intros target.
  apply benign_week_days.
Qed.

(** X2: no [HTTPError] leaves [process_weekly_menu]: every call of the
    client sits in its handler, so an error status on any request becomes an
    empty listing or None.  (The hypothesis says of the float arithmetic on
    the week number only that it raises no [HTTPError] of its own.) *)
Theorem error_status_never_escapes :
  forall (B : Builtins) (srv : server) (menu_data : json) (year : Z)
         (t : list request) (status : Z),
    (forall f, benign (float_weeks_days f)) ->
    fst (process_weekly_menu srv menu_data year t) <> Raise (HTTPError status).
Proof.
  intros B srv menu_data year t status F. revert t status.
  change (absorbs_HTTPError (process_weekly_menu srv menu_data year)).
  unfold process_weekly_menu.
  apply absorbs_bind; [apply absorbs_lift, benign_py_get|]. intros w.
  apply absorbs_bind; [apply absorbs_lift, benign_calculate_week_dates, F|].
  intros week_dates. apply absorbs_process_days.
Qed.

Lemma error_status_never_escapes_witness :
  fst (process_weekly_menu (B:=latin1) unavailable
         (JDict [(lit "week", JInt 1);
                 (lit "monday",
                  JList [JDict [(lit "name", JStr (lit "Zabkása"));
                                (lit "recipeIngredient",
                                 JList [JStr (lit "50 g zab")])]])])
         2025 [])
  <> Raise (HTTPError 503).
Proof.
  apply (@error_status_never_escapes latin1 unavailable).
  intros f s. destruct f as [|sg|sg m e]; simpl; try discriminate.
  apply benign_timedelta_days.
Defined.


(* ================================================================== *)
(** * The creating calls                                              *)
(* ================================================================== *)

Section Creating.
Context {B : Builtins} (srv : server).

(** What the three creating calls do with any reply. *)
Lemma create_ingredient_reply n t :
  create_ingredient srv n t =
  match srv t (food_post n) with
  | NoResponse f => (Raise (transport_exn f), t ++ [food_post n])
  | Response status b =>
      if raise_for_status status then (Ok JNull, t ++ [food_post n])
      else (response_json b, t ++ [food_post n])
  end.
Proof.
  unfold create_ingredient, except_HTTPError, bind, _request, lift, ret.
  fold (food_post n). unfold food_post, request_of.
  destruct (srv t _) as [status b | f].
  - destruct (raise_for_status status); [reflexivity|].
    destruct b; reflexivity.
  - destruct f; reflexivity.
Qed.

Lemma create_mealplan_reply date entry_type recipe_id t :
  let rq := mealplan_request date entry_type recipe_id in
  create_mealplan srv date entry_type recipe_id t =
  match srv t rq with
  | NoResponse f => (Raise (transport_exn f), t ++ [rq])
  | Response status b =>
      if raise_for_status status then (Ok JNull, t ++ [rq])
      else (response_json b, t ++ [rq])
  end.
Proof.
  unfold create_mealplan, except_HTTPError, bind, _request, lift, ret.
  fold (mealplan_request date entry_type recipe_id).
  unfold mealplan_request, request_of.
  destruct (srv t _) as [status b | f].
  - destruct (raise_for_status status); [reflexivity|].
    destruct b; reflexivity.
  - destruct f; reflexivity.
Qed.

Lemma create_recipe_reply p t :
  create_recipe srv p t =
  match srv t (recipe_post p) with
  | NoResponse f => (Raise (transport_exn f), t ++ [recipe_post p])
  | Response status b =>
      if raise_for_status status then (Ok JNull, t ++ [recipe_post p])
      else
        match b with
        | NotJson msg => (Raise (JSONDecodeError msg), t ++ [recipe_post p])
        | Json (JDict d) => (Ok (JDict d), t ++ [recipe_post p])
        | Json (JStr s) =>
            (Ok (JDict [(lit "id", JStr s)]), t ++ [recipe_post p])
        | Json (JList (JDict d :: _)) => (Ok (JDict d), t ++ [recipe_post p])
        | Json _ => (Ok JNull, t ++ [recipe_post p])
        end
  end.
Proof.
  unfold create_recipe, except_HTTPError, bind, _request, lift, ret.
  fold (recipe_post p). unfold recipe_post, request_of.
  destruct (srv t _) as [status b | f].
  - destruct (raise_for_status status); [reflexivity|].
    destruct b as [j|msg]; [|reflexivity].
    destruct j as [| | | | |[|[] ?]|]; reflexivity.
  - destruct f; reflexivity.
Qed.

End Creating.

(** X3: when the server answers a creating call with an error status,
    [create_ingredient], [create_recipe] and [create_mealplan] return None
    after their one request and raise nothing. *)
Theorem creation_error_status_gives_none :
  forall (srv : server) (t : list request) (status : Z) (b : body),
    raise_for_status status = true ->
    (forall n,
        srv t (food_post n) = Response status b ->
        create_ingredient srv n t = (Ok JNull, t ++ [food_post n]))
    /\ (forall p,
          srv t (recipe_post p) = Response status b ->
          create_recipe srv p t = (Ok JNull, t ++ [recipe_post p]))
    /\ (forall date entry_type recipe_id,
          srv t (mealplan_request date entry_type recipe_id)
          = Response status b ->
          create_mealplan srv date entry_type recipe_id t
          = (Ok JNull, t ++ [mealplan_request date entry_type recipe_id])).
Proof.
  intros srv t status b E. split; [|split].
  - intros n R. now rewrite create_ingredient_reply, R, E.
  - intros p R. now rewrite create_recipe_reply, R, E.
  - intros date entry_type recipe_id R.
    rewrite create_mealplan_reply. cbv zeta. now rewrite R, E.
Qed.

Lemma creation_error_status_gives_none_witness :
  create_ingredient unavailable (lit "zab") []
  = (Ok JNull, [food_post (lit "zab")])
  /\ create_recipe unavailable (JDict [(lit "name", JStr (lit "Zabkása"))]) []
     = (Ok JNull, [recipe_post (JDict [(lit "name", JStr (lit "Zabkása"))])])
  /\ create_mealplan unavailable (lit "2024-12-30") (lit "dinner")
       (JStr (lit "7")) []
     = (Ok JNull,
        [mealplan_request (lit "2024-12-30") (lit "dinner") (JStr (lit "7"))]).
Proof.
  destruct (@creation_error_status_gives_none unavailable [] 503 (NotJson [])
              eq_refl) as (F & R & P).
  split; [|split].
  - apply F. reflexivity.
  - apply R. reflexivity.
  - apply P. reflexivity.
Defined.

Lemma create_recipe_record (srv : server) (p v : json) (t : list request) :
  fst (create_recipe srv p t) = Ok v -> v = JNull \/ is_dict v = true.
Proof.
  rewrite create_recipe_reply.
  destruct (srv t (recipe_post p)) as [status b|f]; [|discriminate].
  destruct (raise_for_status status).
  - intros H. injection H as <-. now left.
  - destruct b as [j|msg]; [|discriminate].
    destruct j as [| | | |s|[|[] ?]|d]; intros H; injection H as <-; simpl;
      tauto.
Qed.

Lemma create_recipe_requests (srv : server) (p : json) (t : list request) :
  snd (create_recipe srv p t) = t ++ [recipe_post p].
Proof.
  rewrite create_recipe_reply.
  destruct (srv t (recipe_post p)) as [status b|f]; [|reflexivity].
  destruct (raise_for_status status); [reflexivity|].
  destruct b as [j|msg]; [|reflexivity].
  destruct j as [| | | |s|[|[] ?]|d]; reflexivity.
Qed.

(** X4: [create_recipe] returns a record or None, never another kind of
    value: a bare string in the response becomes a record with that string
    as its [id], and a list gives its first element when that is a record. *)
Theorem create_recipe_returns_record_or_none :
  forall (srv : server) (p : json) (t : list request),
    (forall v, fst (create_recipe srv p t) = Ok v ->
               v = JNull \/ is_dict v = true)
    /\ (forall status s,
          srv t (recipe_post p) = Response status (Json (JStr s)) ->
          raise_for_status status = false ->
          fst (create_recipe srv p t) = Ok (JDict [(lit "id", JStr s)]))
    /\ (forall status d rest,
          srv t (recipe_post p)
          = Response status (Json (JList (JDict d :: rest))) ->
          raise_for_status status = false ->
          fst (create_recipe srv p t) = Ok (JDict d)).
Proof.
  intros srv p t. split; [intros v; apply create_recipe_record|]. split.
  - intros status s R E. now rewrite create_recipe_reply, R, E.
  - intros status d rest R E. now rewrite create_recipe_reply, R, E.
Qed.

Lemma create_recipe_returns_record_or_none_witness :
  let srv := always 201 (JStr (lit "zabkasa")) in
  let p := JDict [(lit "name", JStr (lit "Zabkása"))] in
  fst (create_recipe srv p []) = Ok (JDict [(lit "id", JStr (lit "zabkasa"))])
  /\ (JDict [(lit "id", JStr (lit "zabkasa"))] = JNull
      \/ is_dict (JDict [(lit "id", JStr (lit "zabkasa"))]) = true).
Proof.
  intros srv p.
  destruct (create_recipe_returns_record_or_none srv p []) as (R & S & _).
  assert (E : fst (create_recipe srv p [])
              = Ok (JDict [(lit "id", JStr (lit "zabkasa"))])).
  { apply (S 201 (lit "zabkasa")); reflexivity. }
  split; [exact E | exact (R _ E)].
Defined.

Lemma find_recipe_record {B : Builtins} (l : list json) (q : str) (v : json) :
  find_recipe l q = Ok v -> v = JNull \/ is_dict v = true.
Proof.
  induction l as [|x l IH]; simpl.
  - intros E. injection E as <-. now left.
  - destruct x; try discriminate. cbn [py_get rbind].
    destruct (py_lower _) as [a|e]; [|discriminate]. cbn [rbind].
    destruct (str_eqb _ _); [|exact IH].
    intros E. injection E as <-. now right.
Qed.

(** X5: whatever the server answers, what [create_recipe_if_not_exists]
    returns is a record or None, so the [.get] calls that
    [process_weekly_menu] makes on a result that is not empty cannot fail. *)
Theorem create_recipe_if_not_exists_returns_record_or_none :
  forall (B : Builtins) (srv : server) (recipe : json) (t t' : list request)
         (v : json),
    create_recipe_if_not_exists srv recipe t = (Ok v, t') ->
    v = JNull \/ is_dict v = true.
Proof.
  intros B srv recipe t t' v. unfold create_recipe_if_not_exists.
  unfold bind at 1, lift at 1.
  destruct (py_get recipe _ _) as [n|e]; [|discriminate].
  unfold bind at 1.
  destruct (get_recipe_by_name srv n t) as [[existing|e] t1] eqn:L;
    [|discriminate].
  assert (R : existing = JNull \/ is_dict existing = true).
  { revert L. unfold get_recipe_by_name. unfold bind at 1.
    destruct (get_recipes srv t) as [[l|e] t2]; [|discriminate].
    unfold bind at 1, lift at 1.
    destruct (py_lower n) as [q|e]; [|discriminate].
    unfold bind at 1, lift at 1.
    destruct (py_iter l) as [items|e]; [|discriminate].
    unfold lift. intros E. injection E as E _. eapply find_recipe_record, E. }
  destruct (truthy existing).
  - intros E. injection E as <- _. exact R.
  - unfold bind.
    destruct (convert_recipe_to_mealie_format srv recipe t1) as [[p|e] t2];
      [|discriminate].
    intros E. apply (@create_recipe_record srv p v t2). now rewrite E.
Qed.

Lemma create_recipe_if_not_exists_returns_record_or_none_witness :
  let stored := JDict [(lit "id", JStr (lit "7"));
                       (lit "name", JStr (lit "zabkása"))] in
  let srv := always 200 (JDict [(lit "items", JList [stored])]) in
  let recipe := JDict [(lit "name", JStr (lit " Zabkása "))] in
  create_recipe_if_not_exists (B:=latin1) srv recipe []
  = (Ok stored, [recipes_listing])
  /\ (stored = JNull \/ is_dict stored = true).
Proof.
  intros stored srv recipe.
  assert (E : create_recipe_if_not_exists (B:=latin1) srv recipe []
              = (Ok stored, [recipes_listing])) by reflexivity.
  split; [exact E|].
  exact (@create_recipe_if_not_exists_returns_record_or_none latin1 srv recipe
           [] [recipes_listing] stored E).
Defined.

(* ================================================================== *)
(** * Listing before creating                                         *)
(* ================================================================== *)

Lemma create_ingredient_requests (srv : server) (n : str) (t : list request) :
  snd (create_ingredient srv n t) = t ++ [food_post n].
Proof.
  rewrite create_ingredient_reply.
  destruct (srv t (food_post n)) as [status b|f]; [|reflexivity].
  destruct (raise_for_status status); reflexivity.
Qed.

(** X6: [ensure_ingredient_exists] always lists the foods first and posts at
    most one food: it posts exactly when the lookup returned without a
    match; when the lookup found the food or raised, the listing is its only
    request. *)
Theorem ensure_ingredient_exists_requests :
  forall (B : Builtins) (srv : server) (n : str) (t : list request),
    match get_ingredient_by_name srv n t with
    | (Ok found, _) =>
        if truthy found
        then snd (ensure_ingredient_exists srv n t) = t ++ [foods_listing]
        else snd (ensure_ingredient_exists srv n t)
             = t ++ [foods_listing; food_post n]
    | (Raise _, _) =>
        snd (ensure_ingredient_exists srv n t) = t ++ [foods_listing]
    end.
Proof.
  intros B srv n t. unfold ensure_ingredient_exists, bind.
  pose proof (get_ingredient_by_name_requests srv n t) as R.
  destruct (get_ingredient_by_name srv n t) as [[found|e] t1];
    cbn [snd] in R; subst t1; [|reflexivity].
  destruct (truthy found); [reflexivity|].
  rewrite create_ingredient_requests, <- app_assoc. reflexivity.
Qed.

(** X7: a listing answered with an error status reads as an empty
    collection, so the entity counts as absent: [ensure_ingredient_exists]
    goes on to create the ingredient, and [create_recipe_if_not_exists] to
    translate and create the recipe, whatever the server holds. *)
Theorem failed_listing_counts_as_absence :
  forall (B : Builtins) (srv : server) (t : list request) (status : Z)
         (b : body),
    raise_for_status status = true ->
    (forall n,
        srv t foods_listing = Response status b ->
        ensure_ingredient_exists srv n t
        = create_ingredient srv n (t ++ [foods_listing]))
    /\ (forall d q,
          srv t recipes_listing = Response status b ->
          dict_get d (lit "name") (JStr (lit "Untitled Recipe")) = JStr q ->
          create_recipe_if_not_exists srv (JDict d) t
          = (mealie_recipe <- convert_recipe_to_mealie_format srv (JDict d) ;;
             create_recipe srv mealie_recipe) (t ++ [recipes_listing])).
Proof.
  intros B srv t status b E. split.
  - intros n R. unfold ensure_ingredient_exists, get_ingredient_by_name.
    unfold bind at 1. unfold bind at 1.
    rewrite get_ingredients_reply, R, E. reflexivity.
  - intros d q R N. unfold create_recipe_if_not_exists.
    unfold bind at 1, lift at 1. cbn [py_get]. rewrite N.
    unfold bind at 1. unfold get_recipe_by_name. unfold bind at 1.
    rewrite get_recipes_reply, R, E. reflexivity.
Qed.

Lemma failed_listing_counts_as_absence_witness :
  ensure_ingredient_exists (B:=latin1) unavailable (lit "zab") []
  = (Ok JNull, [foods_listing; food_post (lit "zab")])
  /\ snd (create_recipe_if_not_exists (B:=latin1) unavailable
            (JDict [(lit "name", JStr (lit "Zabkása"))]) [])
     = [recipes_listing;
        recipe_post
          (JDict [ (lit "name", JStr (lit "Zabkása"));
                   (lit "description", JStr []);
                   (lit "recipeYield", JStr (lit "1"));
                   (lit "recipeIngredient", JList []);
                   (lit "recipeInstructions", JList []);
                   (lit "notes", JList []);
                   (lit "tags", JList []);
                   (lit "settings", settings_block) ])].
Proof.
  destruct (@failed_listing_counts_as_absence latin1 unavailable [] 503
              (NotJson []) eq_refl) as [F R].
  split.
  - rewrite (F (lit "zab") eq_refl). reflexivity.
  - rewrite (R [(lit "name", JStr (lit "Zabkása"))] (lit "Zabkása")
               eq_refl eq_refl).
    reflexivity.
Defined.

(* ================================================================== *)
(** * The first exception ends the run                                *)
(* ================================================================== *)

Section Loops.
Context {B : Builtins} (srv : server).

Lemma schedule_recipes_app (date : str) (first rest : list json)
    (t : list request) :
  schedule_recipes srv date (first ++ rest) t
  = match schedule_recipes srv date first t with
    | (Ok _, t1) => schedule_recipes srv date rest t1
    | (Raise e, t1) => (Raise e, t1)
    end.
Proof.
  revert t. induction first as [|x first IH]; intros t; [reflexivity|].
  cbn [schedule_recipes app]. unfold bind.
  destruct (schedule_recipe srv date x t) as [[[]|e] t1]; [apply IH|reflexivity].
Qed.

Lemma process_days_app (menu_data : json) (week_dates : list (str * str))
    (first rest : list str) (t : list request) :
  process_days srv menu_data week_dates (first ++ rest) t
  = match process_days srv menu_data week_dates first t with
    | (Ok _, t1) => process_days srv menu_data week_dates rest t1
    | (Raise e, t1) => (Raise e, t1)
    end.
Proof.
  revert t. induction first as [|day first IH]; intros t; [reflexivity|].
  cbn [process_days app]. unfold bind, lift.
  destruct (py_get menu_data day (JList [])) as [recipes|e]; [|reflexivity].
  destruct (truthy recipes); [|apply IH].
  destruct (py_iter recipes) as [items|e]; [|reflexivity].
  destruct (schedule_recipes srv _ items t) as [[[]|e] t1];
    [apply IH|reflexivity].
Qed.

End Loops.

(** X8: recipes and days are handled in order, and the first exception that
    one of them raises ends the loop: the recipes and the days after it are
    not looked at, and the exception and the requests are those of the point
    of failure. *)
Theorem first_exception_ends_the_run :
  forall (B : Builtins) (srv : server),
    (forall date before recipe after t t0 t1 e,
        schedule_recipes srv date before t = (Ok tt, t0) ->
        schedule_recipe srv date recipe t0 = (Raise e, t1) ->
        schedule_recipes srv date (before ++ recipe :: after) t = (Raise e, t1))
    /\ (forall menu_data week_dates before day after t t0 t1 e,
          process_days srv menu_data week_dates before t = (Ok tt, t0) ->
          process_days srv menu_data week_dates [day] t0 = (Raise e, t1) ->
          process_days srv menu_data week_dates (before ++ day :: after) t
          = (Raise e, t1)).
Proof.
  intros B srv. split.
  - intros date before recipe after t t0 t1 e Hb Hr.
    rewrite schedule_recipes_app, Hb. cbn [schedule_recipes].
    now rewrite (bind_raise _ Hr).
  - intros menu_data week_dates before day after t t0 t1 e Hb Hd.
    rewrite process_days_app, Hb.
    change (day :: after) with ([day] ++ after).
    now rewrite process_days_app, Hd.
Qed.

Lemma first_exception_ends_the_run_witness :
  let good := JDict [(lit "name", JStr (lit "Zabkása"))] in
  let later := JDict [(lit "name", JStr (lit "Leves"))] in
  schedule_recipes (B:=latin1) unavailable (lit "2024-12-30")
    ([good] ++ JStr (lit "Zabkása") :: [later]) []
  = (Raise AttributeError,
     snd (schedule_recipes (B:=latin1) unavailable (lit "2024-12-30")
            [good] [])).
Proof.
  intros good later.
  eapply (proj1 (@first_exception_ends_the_run latin1 unavailable)).
  - reflexivity.
  - reflexivity.
Defined.

Section Unreachable.
Context {B : Builtins} (srv : server) (f : transport_failure).
Hypothesis no_response : forall t rq, srv t rq = NoResponse f.

Lemma schedule_recipe_unreachable date recipe t :
  schedule_recipe srv date recipe t
  = match recipe with
    | JDict _ => (Raise (transport_exn f), t ++ [recipes_listing])
    | _ => (Raise AttributeError, t)
    end.
Proof.
  unfold schedule_recipe, create_recipe_if_not_exists.
  destruct recipe; try reflexivity.
  unfold bind at 1. unfold bind at 1, lift at 1. cbn [py_get].
  unfold bind at 1. unfold get_recipe_by_name. unfold bind at 1.
  rewrite get_recipes_reply, no_response. reflexivity.
Qed.

Lemma schedule_recipes_unreachable date items t :
  snd (schedule_recipes srv date items t) = t
  \/ schedule_recipes srv date items t
     = (Raise (transport_exn f), t ++ [recipes_listing]).
Proof.
  destruct items as [|x items]; [now left|].
  cbn [schedule_recipes]. unfold bind.
  rewrite schedule_recipe_unreachable. destruct x; auto.
Qed.

Lemma process_days_unreachable menu_data week_dates days t :
  snd (process_days srv menu_data week_dates days t) = t
  \/ process_days srv menu_data week_dates days t
     = (Raise (transport_exn f), t ++ [recipes_listing]).
Proof.
  induction days as [|day days IH]; [now left|].
  cbn [process_days]. unfold bind, lift.
  destruct (py_get menu_data day (JList [])) as [recipes|e]; [|now left].
  destruct (truthy recipes); [|exact IH].
  destruct (py_iter recipes) as [items|e]; [|now left].
  destruct (schedule_recipes_unreachable (date_of week_dates day) items t)
    as [S|S].
  - destruct (schedule_recipes srv _ items t) as [[[]|e] t1];
      cbn [snd] in S; subst t1; [exact IH | now left].
  - rewrite S. now right.
Qed.

End Unreachable.

(** X9: when no response arrives from the server, a run issues at most one
    request, the listing of the recipes, and ends there with the exception
    of the transport; otherwise it issues none at all. *)
Theorem unreachable_server_stops_at_first_request :
  forall (B : Builtins) (srv : server) (f : transport_failure)
         (menu_data : json) (year : Z) (t : list request),
    (forall t rq, srv t rq = NoResponse f) ->
    snd (process_weekly_menu srv menu_data year t) = t
    \/ process_weekly_menu srv menu_data year t
       = (Raise (transport_exn f), t ++ [recipes_listing]).
Proof.
  intros B srv f menu_data year t H. unfold process_weekly_menu, bind, lift.
  destruct (py_get menu_data (lit "week") (JInt 1)) as [w|e]; [|now left].
  destruct (calculate_week_dates year w) as [week_dates|e]; [|now left].
  now apply process_days_unreachable.
Qed.

Lemma unreachable_server_stops_at_first_request_witness :
  let menu := JDict [(lit "week", JInt 1);
                     (lit "monday",
                      JList [JDict [(lit "name", JStr (lit "Zabkása"))]])] in
  snd (process_weekly_menu (B:=latin1) unreachable menu 2025 []) = []
  \/ process_weekly_menu (B:=latin1) unreachable menu 2025 []
     = (Raise ConnectionError, [recipes_listing]).
Proof.
  intros menu.
  apply (@unreachable_server_stops_at_first_request latin1 unreachable Refused
           menu 2025 []).
  reflexivity.
Defined.

(* ================================================================== *)
(** * Runs that plan nothing                                          *)
(* ================================================================== *)

Lemma process_days_no_recipes {B : Builtins} (srv : server) (d : dict)
    (week_dates : list (str * str)) (days : list str) (t : list request) :
  (forall day, In day days -> truthy (dict_get d day (JList [])) = false) ->
  process_days srv (JDict d) week_dates days t = (Ok tt, t).
Proof.
  induction days as [|day days IH]; intros H; [reflexivity|].
  cbn [process_days]. unfold bind at 1, lift at 1. cbn [py_get].
  rewrite (H day (or_introl eq_refl)). apply IH.
  intros day' Hd. apply H. now right.
Qed.

(** X10: a menu whose seven days are all missing or empty (any value that is
    false) is processed without a single request, and returns. *)
Theorem days_without_recipes_issue_nothing :
  forall (B : Builtins) (srv : server) (d : dict) (year : Z)
         (week_dates : list (str * str)) (t : list request),
    calculate_week_dates year (dict_get d (lit "week") (JInt 1))
    = Ok week_dates ->
    (forall day, In day DAY_ORDER ->
                 truthy (dict_get d day (JList [])) = false) ->
    process_weekly_menu srv (JDict d) year t = (Ok tt, t).
Proof.
  intros B srv d year week_dates t C H. unfold process_weekly_menu.
  unfold bind at 1, lift at 1. cbn [py_get].
  unfold bind at 1, lift at 1. rewrite C.
  now apply process_days_no_recipes.
Qed.

Lemma days_without_recipes_issue_nothing_witness :
  process_weekly_menu (B:=latin1) unreachable
    (JDict [(lit "week", JInt 2); (lit "monday", JList []);
            (lit "friday", JNull); (lit "notes", JStr (lit "szabadság"))])
    2025 []
  = (Ok tt, []).
Proof.
  eapply (@days_without_recipes_issue_nothing latin1 unreachable).
  - reflexivity.
  - intros day H. cbn in H.
    repeat destruct H as [<- | H]; try reflexivity. destruct H.
Defined.

Section Rejecting.
Context {B : Builtins} (srv : server).
Hypothesis rejects :
  forall t rq, exists status b,
    srv t rq = Response status b /\ raise_for_status status = true.

Lemma create_recipe_if_not_exists_rejected recipe t v t' :
  create_recipe_if_not_exists srv recipe t = (Ok v, t') -> v = JNull.
Proof.
  unfold create_recipe_if_not_exists. unfold bind at 1, lift at 1.
  destruct (py_get recipe _ _) as [n|e]; [|discriminate].
  unfold bind at 1.
  assert (L : forall r t1, get_recipe_by_name srv n t = (Ok r, t1) -> r = JNull).
  { intros r t1. unfold get_recipe_by_name. unfold bind at 1.
    rewrite get_recipes_reply.
    destruct (rejects t recipes_listing) as (status & b & -> & ->).
    unfold bind, lift. destruct (py_lower n); [|discriminate].
    cbn. congruence. }
  destruct (get_recipe_by_name srv n t) as [[r|e] t1]; [|discriminate].
  rewrite (L r t1 eq_refl). cbn [truthy]. unfold bind.
  destruct (convert_recipe_to_mealie_format srv recipe t1) as [[p|e] t2];
    [|discriminate].
  rewrite create_recipe_reply.
  destruct (rejects t2 (recipe_post p)) as (status & b & -> & ->). congruence.
Qed.

Lemma issues_schedule_recipe_rejected date recipe :
  issues (fun rq => on_foods rq \/ on_recipes rq)
    (schedule_recipe srv date recipe).
Proof.
  intros t. unfold schedule_recipe, bind.
  destruct (issues_create_recipe_if_not_exists srv recipe t) as (added & E & F).
  destruct (create_recipe_if_not_exists srv recipe t) as [[v|e] t1] eqn:C;
    cbn [snd] in E; subst t1.
  - rewrite (create_recipe_if_not_exists_rejected _ _ C). cbn [truthy ret snd].
    now exists added.
  - now exists added.
Qed.

Lemma issues_process_days_rejected menu_data week_dates days :
  issues (fun rq => on_foods rq \/ on_recipes rq)
    (process_days srv menu_data week_dates days).
Proof.
  induction days as [|day days IH]; cbn [process_days].
  - apply issues_ret.
  - apply issues_bind; [apply issues_lift|]. intros recipes.
    destruct (truthy recipes); [|exact IH].
    apply issues_bind; [apply issues_lift|]. intros items.
    apply issues_bind; [|intros _; exact IH].
    induction items as [|x items IHi]; cbn [schedule_recipes].
    + apply issues_ret.
    + apply issues_bind;
        [apply issues_schedule_recipe_rejected | intros _; exact IHi].
Qed.

End Rejecting.

(** X11: when the server answers every request with an error status, a run
    adds no meal-plan entry: all it issues are listings and creations of
    foods and recipes. *)
Theorem rejected_creation_plans_nothing :
  forall (B : Builtins) (srv : server) (menu_data : json) (year : Z)
         (t : list request),
    (forall t rq, exists status b,
        srv t rq = Response status b /\ raise_for_status status = true) ->
    exists added,
      snd (process_weekly_menu srv menu_data year t) = t ++ added
      /\ Forall (fun rq => on_foods rq \/ on_recipes rq) added.
Proof.
  intros B srv menu_data year t H. revert t.
  change (issues (fun rq => on_foods rq \/ on_recipes rq)
            (process_weekly_menu srv menu_data year)).
  unfold process_weekly_menu.
  apply issues_bind; [apply issues_lift|]. intros w.
  apply issues_bind; [apply issues_lift|]. intros week_dates.
  now apply issues_process_days_rejected.
Qed.

Lemma rejected_creation_plans_nothing_witness :
  let menu := JDict [(lit "week", JInt 1);
                     (lit "monday",
                      JList [JDict [(lit "name", JStr (lit "Zabkása"));
                                    (lit "recipeIngredient",
                                     JList [JStr (lit "50 g zab")])]])] in
  exists added,
    snd (process_weekly_menu (B:=latin1) unavailable menu 2025 []) = [] ++ added
    /\ Forall (fun rq => on_foods rq \/ on_recipes rq) added.
Proof.
  intros menu.
  apply (@rejected_creation_plans_nothing latin1 unavailable menu 2025 []).
  intros t rq. exists 503, (NotJson []). split; reflexivity.
Defined.

(* ================================================================== *)
(** * Configuration and the process                                   *)
(* ================================================================== *)

Lemma lstrip_slash_split (s : str) :
  exists slashes,
    s = slashes ++ lstrip_slash s
    /\ Forall (fun c => c = 47%N) slashes
    /\ match lstrip_slash s with
       | c :: _ => c <> 47%N
       | [] => True
       end.
Proof.
  induction s as [|c s IH]; simpl.
  - exists []. repeat split. constructor.
  - destruct (c =? 47)%N eqn:E.
    + destruct IH as (sl & E1 & F & H). apply N.eqb_eq in E. subst c.
      exists (47%N :: sl). split; [simpl; congruence|].
      split; [now constructor | exact H].
    + exists []. split; [reflexivity|]. split; [constructor|].
      now apply N.eqb_neq.
Qed.

Lemma rstrip_slash_split (s : str) :
  exists slashes,
    s = rstrip_slash s ++ slashes
    /\ Forall (fun c => c = 47%N) slashes
    /\ forall a c, rstrip_slash s = a ++ [c] -> c <> 47%N.
Proof.
  unfold rstrip_slash.
  destruct (lstrip_slash_split (rev s)) as (sl & E & F & H).
  exists (rev sl). split; [|split].
  - rewrite <- rev_app_distr, <- E. now rewrite rev_involutive.
  - now apply Forall_rev.
  - intros a c R. apply (f_equal (@rev N)) in R.
    rewrite rev_involutive, rev_app_distr in R. simpl in R.
    rewrite R in H. exact H.
Qed.

(** X12: [from_env] raises [ValueError] when MEALIE_API_TOKEN is unset or
    empty.  Otherwise it keeps the token and returns the base URL, the
    default when unset, without its trailing slashes: the URL given is the
    one returned followed by slashes only, and the one returned does not end
    in a slash. *)
Theorem from_env_needs_token_and_trims_url :
  forall (environ : str -> option str),
    let token := getenv environ (lit "MEALIE_API_TOKEN") [] in
    let url := getenv environ (lit "MEALIE_BASE_URL")
                 (lit "http://localhost:9000") in
    (token = [] -> from_env environ = Raise ValueError)
    /\ (token <> [] ->
        exists config slashes,
          from_env environ = Ok config
          /\ api_token config = token
          /\ url = base_url config ++ slashes
          /\ Forall (fun c => c = 47%N) slashes
          /\ forall a c, base_url config = a ++ [c] -> c <> 47%N).
Proof.
  intros environ token url. unfold from_env. fold token. fold url. split.
  - intros ->. reflexivity.
  - intros H. destruct (rstrip_slash_split url) as (sl & E & F & L).
    exists {| base_url := rstrip_slash url; api_token := token |}, sl.
    destruct token; [congruence|]. repeat split; assumption.
Qed.

Lemma from_env_needs_token_and_trims_url_witness :
  let environ := fun k =>
    if str_eqb k (lit "MEALIE_API_TOKEN") then Some (lit "secret")
    else if str_eqb k (lit "MEALIE_BASE_URL") then Some (lit "http://mealie.local//")
    else None in
  exists config slashes,
    from_env environ = Ok config
    /\ api_token config = lit "secret"
    /\ lit "http://mealie.local//" = base_url config ++ slashes
    /\ Forall (fun c => c = 47%N) slashes
    /\ forall a c, base_url config = a ++ [c] -> c <> 47%N.
Proof.
  intros environ.
  apply (proj2 (from_env_needs_token_and_trims_url environ)).
  discriminate.
Defined.

(** X13: [main] issues no request unless the configuration loaded, the
    selected input decoded to a JSON object, and the dates of the week could
    be computed. *)
Theorem main_requests_need_good_input :
  forall (B : Builtins) (network : MealieConfig -> server) (env : process_env),
    issued (main network env) <> [] ->
    exists config d week_dates,
      from_env (environ env) = Ok config
      /\ selected_input env = Some (Document (JDict d))
      /\ calculate_week_dates 2025 (dict_get d (lit "week") (JInt 1))
         = Ok week_dates.
Proof.
  intros B network env. unfold main, selected_input.
  destruct (from_env (environ env)) as [config|e]; [|(intros H; now contradiction H)].
  assert (R : forall printed menu_data,
             issued (run_menu network printed config menu_data) <> [] ->
             exists d week_dates,
               menu_data = JDict d
               /\ calculate_week_dates 2025 (dict_get d (lit "week") (JInt 1))
                  = Ok week_dates).
  { intros printed menu_data. unfold run_menu, process_weekly_menu, bind, lift.
    destruct menu_data as [| | | | | |d]; try (intros H; now contradiction H).
    cbn [py_get].
    destruct (calculate_week_dates 2025 _) as [week_dates|e] eqn:C;
      [|intros H; now contradiction H].
    intros _. now exists d, week_dates. }
  destruct (argv env) as [|a0 [|json_file rest]].
  - destruct (stdin env) as [menu_data|msg]; [|(intros H; now contradiction H)].
    intros H. destruct (R _ _ H) as (d & wd & -> & C). now exists config, d, wd.
  - destruct (stdin env) as [menu_data|msg]; [|(intros H; now contradiction H)].
    intros H. destruct (R _ _ H) as (d & wd & -> & C). now exists config, d, wd.
  - destruct (files env json_file) as [[menu_data|msg]|]; try (intros H; now contradiction H).
    intros H. destruct (R _ _ H) as (d & wd & -> & C). now exists config, d, wd.
Qed.

(** X14: the process ends with exit status 0 exactly when the configuration
    loaded, the selected input decoded, and [process_weekly_menu] returned
    without raising. *)
Theorem main_succeeds_exactly_when_processing_returns :
  forall (B : Builtins) (network : MealieConfig -> server) (env : process_env),
    exit_status (ending (main network env)) = 0
    <-> exists config menu_data t,
          from_env (environ env) = Ok config
          /\ selected_input env = Some (Document menu_data)
          /\ process_weekly_menu (network config) menu_data 2025 []
             = (Ok tt, t).
Proof.
  intros B network env. unfold main, selected_input.
  destruct (from_env (environ env)) as [config|e].
  2:{ split; [discriminate|]. intros (c & m & t & E & _). discriminate. }
  assert (R : forall printed menu_data,
             exit_status (ending (run_menu network printed config menu_data)) = 0
             <-> exists t, process_weekly_menu (network config) menu_data 2025 []
                           = (Ok tt, t)).
  { intros printed menu_data. unfold run_menu.
    destruct (process_weekly_menu _ _ _ _) as [[[]|e] t]; cbn.
    - split; [intros _; now exists t | reflexivity].
    - split; [discriminate | intros [t' E]; discriminate]. }
  assert (S : forall printed menu_data,
             exit_status (ending (run_menu network printed config menu_data)) = 0
             <-> exists config' menu_data' t,
                   Ok config = Ok config'
                   /\ Some (Document menu_data) = Some (Document menu_data')
                   /\ process_weekly_menu (network config') menu_data' 2025 []
                      = (Ok tt, t)).
  { intros printed menu_data. rewrite R. split.
    - intros [t E]. now exists config, menu_data, t.
    - intros (c & m & t & Ec & Em & E). injection Ec as <-. injection Em as <-.
      now exists t. }
  destruct (argv env) as [|a0 [|json_file rest]].
  - destruct (stdin env) as [menu_data|msg]; [apply S|].
    split; [discriminate | intros (c & m & t & _ & E & _); discriminate].
  - destruct (stdin env) as [menu_data|msg]; [apply S|].
    split; [discriminate | intros (c & m & t & _ & E & _); discriminate].
  - destruct (files env json_file) as [[menu_data|msg]|]; [apply S| |];
      (split; [discriminate | intros (c & m & t & _ & E & _); discriminate]).
Qed.

Lemma main_requests_need_good_input_witness :
  let env :=
    {| environ := fun k => if str_eqb k (lit "MEALIE_API_TOKEN")
                           then Some (lit "secret") else None;
       argv := [lit "mealie_menu_creator.py"];
       files := fun _ => None;
       stdin := Document
                  (JDict [(lit "monday",
                           JList [JDict [(lit "name", JStr (lit "Zabkása"))]])]) |} in
  exists config d week_dates,
    from_env (environ env) = Ok config
    /\ selected_input env = Some (Document (JDict d))
    /\ calculate_week_dates (B:=latin1) 2025 (dict_get d (lit "week") (JInt 1))
       = Ok week_dates.
Proof.
  intros env.
  apply (@main_requests_need_good_input latin1 (fun _ => unavailable) env).
  vm_compute. discriminate.
Defined.

Lemma main_succeeds_exactly_when_processing_returns_witness :
  let env :=
    {| environ := fun k => if str_eqb k (lit "MEALIE_API_TOKEN")
                           then Some (lit "secret") else None;
       argv := [lit "mealie_menu_creator.py"; lit "menu.json"];
       files := fun f => if str_eqb f (lit "menu.json")
                         then Some (Document (JDict [(lit "week", JInt 3)]))
                         else None;
       stdin := Garbage [] |} in
  exists config menu_data t,
    from_env (environ env) = Ok config
    /\ selected_input env = Some (Document menu_data)
    /\ process_weekly_menu (B:=latin1) ((fun _ => unreachable) config)
         menu_data 2025 []
       = (Ok tt, t).
Proof.
  intros env.
  apply (proj1 (@main_succeeds_exactly_when_processing_returns latin1
                  (fun _ => unreachable) env)).
  reflexivity.
Defined.

(* ================================================================== *)
(** * The payload of a recipe                                         *)
(* ================================================================== *)

Section Instructions.
Context {B : Builtins}.

Lemma convert_instructions_acc (steps : list json) :
  forall idx acc,
    convert_instructions steps idx acc
    = acc ++ convert_instructions steps idx [].
Proof.
  induction steps as [|s steps IH]; intros idx acc; cbn [convert_instructions].
  - now rewrite app_nil_r.
  - rewrite IH, (IH _ ([] ++ _)). cbn [app]. now rewrite <- app_assoc.
Qed.

Lemma convert_instructions_length (steps : list json) :
  forall idx,
    List.length (convert_instructions steps idx []) = List.length steps.
Proof.
  induction steps as [|s steps IH]; intros idx; cbn [convert_instructions];
    [reflexivity|].
  rewrite convert_instructions_acc. cbn [app List.length]. now rewrite IH.
Qed.

Lemma convert_instructions_nth (steps : list json) :
  forall idx i s,
    nth_error steps i = Some s ->
    nth_error (convert_instructions steps idx []) i
    = Some (JDict [ (lit "id", JStr (int_str (idx + Z.of_nat i)));
                    (lit "title", JStr []);
                    (lit "text", step_text s) ]).
Proof.
  induction steps as [|x steps IH]; intros idx i s E.
  - destruct i; discriminate.
  - cbn [convert_instructions]. rewrite convert_instructions_acc.
    destruct i as [|i]; cbn [nth_error app] in *.
    + injection E as ->. rewrite Z.add_0_r. reflexivity.
    + rewrite (IH _ _ _ E).
      replace (idx + 1 + Z.of_nat i) with (idx + Z.of_nat (S i)) by lia.
      reflexivity.
Qed.

End Instructions.

Section Payload.
Context {B : Builtins}.

Lemma finish_recipe_payload (d : dict) (ingredients : list json) (payload : json) :
  finish_recipe (JDict d) ingredients = Ok payload ->
  exists steps extra,
    py_iter (dict_get d (lit "recipeInstructions") (JList [])) = Ok steps
    /\ payload
       = JDict ([ (lit "name", dict_get d (lit "name") (JStr (lit "Untitled Recipe")));
                  (lit "description", dict_get d (lit "description") (JStr []));
                  (lit "recipeYield", dict_get d (lit "recipeYield") (JStr (lit "1")));
                  (lit "recipeIngredient", JList ingredients);
                  (lit "recipeInstructions", JList (convert_instructions steps 0 []));
                  (lit "notes", JList []);
                  (lit "tags", JList []);
                  (lit "settings", settings_block) ] ++ extra)
    /\ match dict_get d (lit "nutrition") (JDict []) with
       | JDict (e :: n) => extra = [(lit "nutrition", nutrition_block (e :: n))]
       | v => truthy v = false /\ extra = []
       end.
Proof.
  unfold finish_recipe. cbn [py_get rbind].
  destruct (py_iter _) as [steps|e]; [|discriminate]. cbn [rbind].
  intros E. exists steps.
  destruct (dict_get d (lit "nutrition") (JDict [])) as [|b|z|f|s|l|n].
  - injection E as <-. exists []. now rewrite app_nil_r.
  - destruct b; [discriminate|]. injection E as <-. exists [].
    now rewrite app_nil_r.
  - destruct (truthy (JInt z)) eqn:T; [discriminate|]. injection E as <-.
    exists []. now rewrite app_nil_r.
  - destruct (truthy (JFloat f)) eqn:T; [discriminate|]. injection E as <-.
    exists []. now rewrite app_nil_r.
  - destruct (truthy (JStr s)) eqn:T; [discriminate|]. injection E as <-.
    exists []. now rewrite app_nil_r.
  - destruct (truthy (JList l)) eqn:T; [discriminate|]. injection E as <-.
    exists []. now rewrite app_nil_r.
  - destruct n as [|e n].
    + injection E as <-. exists []. now rewrite app_nil_r.
    + cbn [truthy py_get rbind] in E. injection E as <-.
      exists [(lit "nutrition", nutrition_block (e :: n))]. auto.
Qed.

Lemma convert_payload (srv : server) (d : dict) (t t' : list request)
    (payload : json) :
  convert_recipe_to_mealie_format srv (JDict d) t = (Ok payload, t') ->
  exists ingredients, finish_recipe (JDict d) ingredients = Ok payload.
Proof.
  rewrite convert_parts.
  destruct (ingredient_lines (JDict d)) as [texts|e]; [|discriminate].
  destruct (convert_ingredients srv texts [] t) as [[ingredients|e] t1];
    [|discriminate].
  intros E. injection E as E _. now exists ingredients.
Qed.

End Payload.

(** X15: the payload has one step for each instruction of the recipe, in
    order; the step at position i has the decimal string of i as its [id],
    an empty title, and as text the [text] of a record (empty when it has
    none) or [str] of anything else. *)
Theorem instructions_are_numbered_in_order :
  forall (B : Builtins) (srv : server) (d : dict) (steps : list json)
         (t t' : list request) (payload : json),
    convert_recipe_to_mealie_format srv (JDict d) t = (Ok payload, t') ->
    dict_get d (lit "recipeInstructions") (JList []) = JList steps ->
    exists out,
      py_get payload (lit "recipeInstructions") JNull = Ok (JList out)
      /\ List.length out = List.length steps
      /\ forall i s,
           nth_error steps i = Some s ->
           nth_error out i = Some (instruction_step i s).
Proof.
  intros B srv d steps t t' payload C S.
  destruct (convert_payload _ _ _ C) as [ingredients F].
  destruct (finish_recipe_payload _ _ F) as (steps' & extra & I & -> & _).
  rewrite S in I. injection I as <-.
  exists (convert_instructions steps 0 []). split; [reflexivity|].
  split; [apply convert_instructions_length|].
  intros i s E. now rewrite (convert_instructions_nth _ 0 _ E).
Qed.

Lemma instructions_are_numbered_in_order_witness :
  let steps := [JStr (lit "Főzd meg.");
                JDict [(lit "text", JStr (lit "Tálald."))];
                JDict [(lit "name", JStr (lit "vége"))]] in
  let d := [(lit "name", JStr (lit "Zabkása"));
            (lit "recipeInstructions", JList steps)] in
  exists payload t',
    convert_recipe_to_mealie_format (B:=latin1) unavailable (JDict d) []
    = (Ok payload, t')
    /\ exists out,
         py_get payload (lit "recipeInstructions") JNull = Ok (JList out)
         /\ List.length out = List.length steps
         /\ forall i s,
              nth_error steps i = Some s ->
              nth_error out i = Some (instruction_step (B:=latin1) i s).
Proof.
  intros steps d.
  destruct (convert_recipe_to_mealie_format (B:=latin1) unavailable (JDict d) [])
    as [[payload|e] t'] eqn:C; [|vm_compute in C; discriminate C].
  exists payload, t'. split; [reflexivity|].
  exact (@instructions_are_numbered_in_order latin1 unavailable d steps [] t'
           payload C eq_refl).
Defined.

(** X16: the payload carries the name, description and yield of the recipe
    with the defaults "Untitled Recipe", the empty string and "1", empty
    notes and tags, and the fixed settings.  It has a [nutrition] record
    exactly when the recipe has a nutrition record that is not empty; the
    protein is then read from [proteinContent], the other three fields keep
    their names, and a missing field is the empty string. *)
Theorem payload_defaults_and_nutrition :
  forall (B : Builtins) (srv : server) (d : dict) (t t' : list request)
         (payload : json),
    convert_recipe_to_mealie_format srv (JDict d) t = (Ok payload, t') ->
    py_get payload (lit "name") JNull
    = Ok (dict_get d (lit "name") (JStr (lit "Untitled Recipe")))
    /\ py_get payload (lit "description") JNull
       = Ok (dict_get d (lit "description") (JStr []))
    /\ py_get payload (lit "recipeYield") JNull
       = Ok (dict_get d (lit "recipeYield") (JStr (lit "1")))
    /\ py_get payload (lit "notes") JNull = Ok (JList [])
    /\ py_get payload (lit "tags") JNull = Ok (JList [])
    /\ py_get payload (lit "settings") JNull = Ok settings_block
    /\ match dict_get d (lit "nutrition") (JDict []) with
       | JDict (e :: n) =>
           py_get payload (lit "nutrition") JNull
           = Ok (nutrition_block (e :: n))
       | v =>
           truthy v = false
           /\ forall p, payload = JDict p -> dict_find (lit "nutrition") p = None
       end.
Proof.
  intros B srv d t t' payload C.
  destruct (convert_payload _ _ _ C) as [ingredients F].
  destruct (finish_recipe_payload _ _ F) as (steps & extra & _ & -> & N).
  do 6 (split; [reflexivity|]).
  destruct (dict_get d (lit "nutrition") (JDict [])) as [| | | | | |[|e n]];
    [ | | | | | | | subst extra; reflexivity ];
    (destruct N as [T ->]; split; [exact T|];
     intros p E; injection E as <-; reflexivity).
Qed.

Lemma payload_defaults_and_nutrition_witness :
  let d := [(lit "nutrition",
             JDict [(lit "calories", JStr (lit "350 kcal"));
                    (lit "proteinContent", JStr (lit "12 g"))])] in
  exists payload t',
    convert_recipe_to_mealie_format (B:=latin1) unavailable (JDict d) []
    = (Ok payload, t')
    /\ py_get payload (lit "name") JNull = Ok (JStr (lit "Untitled Recipe"))
    /\ py_get payload (lit "nutrition") JNull
       = Ok (JDict [ (lit "calories", JStr (lit "350 kcal"));
                     (lit "protein", JStr (lit "12 g"));
                     (lit "fatContent", JStr []);
                     (lit "carbohydrateContent", JStr []) ]).
Proof.
  intros d.
  destruct (convert_recipe_to_mealie_format (B:=latin1) unavailable (JDict d) [])
    as [[payload|e] t'] eqn:C; [|vm_compute in C; discriminate C].
  exists payload, t'. split; [reflexivity|].
  destruct (@payload_defaults_and_nutrition latin1 unavailable d [] t' payload C)
    as (N & _ & _ & _ & _ & _ & U).
  split; [exact N | exact U].
Defined.

Section BadLine.
Context {B : Builtins} (srv : server).

Lemma convert_ingredients_app (first rest : list json) :
  forall acc t,
    convert_ingredients srv (first ++ rest) acc t
    = match convert_ingredients srv first acc t with
      | (Ok ingredients, t1) => convert_ingredients srv rest ingredients t1
      | (Raise e, t1) => (Raise e, t1)
      end.
Proof.
  induction first as [|x first IH]; intros acc t; [reflexivity|].
  cbn [convert_ingredients app]. unfold bind, lift.
  destruct (parse_ingredient_value x) as [parsed|e]; [|reflexivity].
  destruct (ensure_ingredient_exists srv (name parsed) t) as [[v|e] t1];
    [apply IH | reflexivity].
Qed.

End BadLine.

(** X17: an ingredient line that is not text raises [AttributeError] when
    its turn comes: the recipe is abandoned, the lines after it are not
    looked at, and the requests made for the lines before it, food creations
    included, have been issued. *)
Theorem line_that_is_not_text_abandons_recipe :
  forall (B : Builtins) (srv : server) (d : dict) (lines : list str)
         (bad : json) (rest : list json) (t t1 : list request)
         (entries : list json),
    dict_get d (lit "recipeIngredient") (JList [])
    = JList (map JStr lines ++ bad :: rest) ->
    (forall s, bad <> JStr s) ->
    convert_ingredients srv (map JStr lines) [] t = (Ok entries, t1) ->
    convert_recipe_to_mealie_format srv (JDict d) t
    = (Raise AttributeError, t1).
Proof.
  intros B srv d lines bad rest t t1 entries L N E.
  rewrite convert_parts. unfold ingredient_lines. cbn [py_get rbind].
  rewrite L. cbn [py_len py_iter rbind].
  rewrite convert_ingredients_app, E. cbn [convert_ingredients].
  unfold bind, lift.
  destruct bad; try reflexivity. now contradiction (N s).
Qed.

Lemma line_that_is_not_text_abandons_recipe_witness :
  convert_recipe_to_mealie_format (B:=latin1) unavailable
    (JDict [(lit "name", JStr (lit "Zabkása"));
            (lit "recipeIngredient",
             JList (map JStr [lit "50 g zab"] ++ JInt 2 :: [JStr (lit "só")]))])
    []
  = (Raise AttributeError, [foods_listing; food_post (lit "zab")]).
Proof.
  eapply (@line_that_is_not_text_abandons_recipe latin1 unavailable).
  - reflexivity.
  - intros s. discriminate.
  - reflexivity.
Defined.

(* ================================================================== *)
(** * Meal types, whatever the fields hold                            *)
(* ================================================================== *)

(** X18: whatever the recipe is, [extract_meal_type] returns one of
    "breakfast", "lunch", "dinner" and "snack", or raises [AttributeError];
    nothing else. *)
Theorem extract_meal_type_is_an_entry_type :
  forall (B : Builtins) (recipe : json),
    match extract_meal_type recipe with
    | Ok english => In english entry_types
    | Raise e => e = AttributeError
    end.
Proof.
  intros B recipe.
  destruct (extract_meal_type recipe) as [english|e] eqn:E.
  - eapply extract_meal_type_in, E.
  - revert E. unfold extract_meal_type.
    destruct recipe as [| | | | | |d]; try (intros E; now injection E).
    cbn [py_get rbind].
    assert (D : forall v, (l <~ py_lower v ;;
                  match scan_meal_types MEAL_TYPE_MAP l with
                  | Some english => Ok english
                  | None => Ok (lit "dinner")
                  end) = Raise e -> e = AttributeError).
    { intros v. destruct v; try (intros E; now injection E).
      cbn [py_lower rbind]. destruct (scan_meal_types _ _); discriminate. }
    destruct (dict_get d (lit "keywords") (JStr [])) as [| | | |kw| |];
      try apply D.
    destruct (scan_meal_types MEAL_TYPE_MAP (str_lower kw));
      [discriminate | apply D].
Qed.

(** X19: keywords that are not text are skipped and the description alone
    decides; a description that is not text raises [AttributeError] as soon
    as it is consulted, that is when the keywords are not text or hold no
    key of the table. *)
Theorem extract_meal_type_fields_that_are_not_text :
  forall (B : Builtins) (d : dict),
    let keywords := dict_get d (lit "keywords") (JStr []) in
    let description := dict_get d (lit "description") (JStr []) in
    ((forall kw, keywords <> JStr kw) ->
     forall text,
       description = JStr text ->
       extract_meal_type (JDict d)
       = Ok (match scan_meal_types MEAL_TYPE_MAP (str_lower text) with
             | Some english => english
             | None => lit "dinner"
             end))
    /\ ((forall kw, keywords = JStr kw ->
                    scan_meal_types MEAL_TYPE_MAP (str_lower kw) = None) ->
        (forall text, description <> JStr text) ->
        extract_meal_type (JDict d) = Raise AttributeError).
Proof.
  intros B d keywords description. unfold extract_meal_type.
  cbn [py_get rbind]. fold keywords. fold description. split.
  - intros K text D. rewrite D. cbn [py_lower rbind].
    destruct keywords; try (now destruct (scan_meal_types _ _)).
    now contradiction (K s).
  - intros K D.
    assert (R : (l <~ py_lower description ;;
                 match scan_meal_types MEAL_TYPE_MAP l with
                 | Some english => Ok english
                 | None => Ok (lit "dinner")
                 end) = Raise AttributeError).
    { destruct description; try reflexivity. now contradiction (D s). }
    destruct keywords; try exact R. now rewrite (K s eq_refl).
Qed.

Lemma extract_meal_type_fields_that_are_not_text_witness :
  extract_meal_type (B:=latin1)
    (JDict [(lit "keywords", JList [JStr (lit "reggeli")]);
            (lit "description", JStr (lit "Könnyű EBÉD"))])
  = Ok (lit "lunch")
  /\ extract_meal_type (B:=latin1)
       (JDict [(lit "keywords", JStr (lit "zab")); (lit "description", JNull)])
     = Raise AttributeError.
Proof.
  split.
  - apply (proj1 (@extract_meal_type_fields_that_are_not_text latin1
                    [(lit "keywords", JList [JStr (lit "reggeli")]);
                     (lit "description", JStr (lit "Könnyű EBÉD"))])
             ltac:(intros kw; discriminate) (lit "Könnyű EBÉD") eq_refl).
  - apply (proj2 (@extract_meal_type_fields_that_are_not_text latin1
                    [(lit "keywords", JStr (lit "zab"));
                     (lit "description", JNull)])).
    + intros kw E. injection E as <-. reflexivity.
    + intros text. discriminate.
Defined.

(* ================================================================== *)
(** * Trimmed names                                                   *)
(* ================================================================== *)

Lemma lstrip_fixed (s : str) :
  match s with c :: _ => isspace c = false | [] => True end -> lstrip s = s.
Proof. destruct s as [|c s]; simpl; [reflexivity|]. now intros ->. Qed.

Lemma lstrip_split (s : str) :
  exists spaces, s = spaces ++ lstrip s /\ forallb isspace spaces = true.
Proof.
  induction s as [|c s IH]; simpl.
  - now exists [].
  - destruct (isspace c) eqn:C.
    + destruct IH as (sp & E & F). exists (c :: sp). simpl.
      rewrite C, F. split; [congruence | reflexivity].
    + now exists [].
Qed.

Lemma lstrip_blank (s : str) : lstrip s = [] <-> forallb isspace s = true.
Proof.
  induction s as [|c s IH]; simpl; [tauto|].
  destruct (isspace c); simpl; [exact IH|]. split; discriminate.
Qed.

Lemma rstrip_split (s : str) :
  exists spaces, s = rstrip s ++ spaces /\ forallb isspace spaces = true.
Proof.
  unfold rstrip. destruct (lstrip_split (rev s)) as (sp & E & F).
  exists (rev sp). split.
  - rewrite <- rev_app_distr, <- E. now rewrite rev_involutive.
  - rewrite forallb_forall in *. intros x Hx. apply F. now apply in_rev.
Qed.

Lemma rstrip_blank (s : str) : rstrip s = [] <-> forallb isspace s = true.
Proof.
  unfold rstrip. split.
  - intros E. apply (f_equal (@rev N)) in E. rewrite rev_involutive in E.
    simpl in E. apply lstrip_blank in E.
    rewrite forallb_forall in *. intros x Hx. apply E.
    rewrite <- in_rev. exact Hx.
  - intros F. assert (E : lstrip (rev s) = []).
    { apply lstrip_blank. rewrite forallb_forall in *. intros x Hx. apply F.
      rewrite in_rev. exact Hx. }
    now rewrite E.
Qed.

Lemma strip_blank (s : str) : strip s = [] <-> forallb isspace s = true.
Proof.
  unfold strip. rewrite rstrip_blank. split.
  - intros F. destruct (lstrip s) as [|c l] eqn:E; [now apply lstrip_blank|].
    pose proof (lstrip_head s) as H. rewrite E in H. simpl in F.
    now rewrite H in F.
  - intros F. apply lstrip_blank in F. now rewrite F.
Qed.

Lemma strip_idempotent (s : str) : strip (strip s) = strip s.
Proof.
  assert (L : lstrip (strip s) = strip s).
  { apply lstrip_fixed. unfold strip.
    destruct (rstrip_split (lstrip s)) as (sp & E & _).
    pose proof (lstrip_head s) as H.
    destruct (rstrip (lstrip s)) as [|c r]; [exact I|].
    rewrite E in H. exact H. }
  unfold strip at 1. rewrite L. unfold strip, rstrip.
  rewrite rev_involutive. f_equal. apply lstrip_fixed, lstrip_head.
Qed.

(** X20: the name and the quantity that [parse_ingredient_text] returns
    carry no whitespace at either end, and the name is empty only for a line
    that is blank. *)
Theorem parse_ingredient_text_trims :
  forall (B : Builtins) (text : str),
    let p := parse_ingredient_text text in
    strip (name p) = name p
    /\ strip (quantity p) = quantity p
    /\ (name p = [] <-> forallb isspace text = true).
Proof.
  intros B text p. subst p. unfold parse_ingredient_text.
  destruct (ingredient_match (strip text)) as [[g1 g2]|] eqn:E; cbn.
  - split; [apply strip_idempotent|]. split; [apply strip_idempotent|].
    apply ingredient_match_sound in E.
    destruct E as (digits & gap & unit & sep & tail & E & -> & Hd & _ & _ & _
                   & _ & _ & Hg & _ & T).
    assert (Tl : tail = []).
    { destruct tail as [|c [|c' tail]]; [reflexivity | | discriminate].
      exfalso. assert (S : isspace c = true).
      { simpl in T. apply N.eqb_eq in T. now subst c. }
      rewrite !app_assoc in E. apply strip_last in E. congruence. }
    subst tail. rewrite app_nil_r in E.
    assert (N1 : strip g2 <> []).
    { destruct (exists_last Hg) as (a & c & ->).
      rewrite !app_assoc in E. apply strip_last in E.
      rewrite strip_blank, forallb_app. simpl. rewrite E.
      rewrite andb_false_r. discriminate. }
    assert (N2 : forallb isspace text <> true).
    { rewrite <- strip_blank, E. destruct digits; [congruence | discriminate]. }
    tauto.
  - split; [apply strip_idempotent|]. split; [reflexivity|]. apply strip_blank.
Qed.

Lemma parse_ingredient_text_trims_witness :
  name (parse_ingredient_text (B:=latin1) (lit "  ")) = [].
Proof.
  apply (proj2 (proj2 (@parse_ingredient_text_trims latin1 (lit "  ")))).
  reflexivity.
Defined.

(* ================================================================== *)
(** * Week dates, whatever the week                                   *)
(* ================================================================== *)

Lemma date_add_ok (ordinal delta n : Z) :
  date_add ordinal delta = Ok n ->
  n = ordinal + delta /\ 1 <= n <= MAXORDINAL.
Proof.
  unfold date_add. cbv zeta.
  destruct (0 <? ordinal + delta) eqn:L; [|discriminate].
  destruct (ordinal + delta <=? MAXORDINAL) eqn:U; [|discriminate].
  cbn [andb]. intros E. injection E as <-.
  apply Z.ltb_lt in L. apply Z.leb_le in U. lia.
Qed.

Lemma week_days_bounds (days : list str) (monday : Z) :
  forall idx dates,
    week_days days monday idx = Ok dates ->
    days <> [] ->
    1 <= monday + idx
    /\ monday + idx + Z.of_nat (List.length days) - 1 <= MAXORDINAL.
Proof.
  induction days as [|day rest IH]; intros idx dates E N; [congruence|].
  cbn [week_days] in E.
  destruct (date_add monday idx) as [date|e] eqn:D; [|discriminate].
  apply date_add_ok in D. cbn [rbind] in E.
  destruct (week_days rest monday (idx + 1)) as [dates'|e] eqn:W;
    [|discriminate].
  destruct rest as [|day' rest].
  - cbn [List.length]. lia.
  - assert (N' : day' :: rest <> []) by discriminate.
    pose proof (IH _ _ W N') as H. cbn [List.length] in *. lia.
Qed.

Lemma week_days_overflow (days : list str) (monday : Z) :
  forall idx e, week_days days monday idx = Raise e -> e = OverflowError.
Proof.
  induction days as [|day rest IH]; intros idx e; cbn [week_days];
    [discriminate|].
  unfold date_add at 1. cbv zeta.
  destruct (_ && _)%bool; cbn [rbind]; [|intros E; now injection E].
  destruct (week_days rest monday (idx + 1)) as [dates|e'] eqn:W.
  - discriminate.
  - cbn [rbind]. intros E. injection E as <-. eapply IH, W.
Qed.



(** X22: [calculate_week_dates] raises [ValueError] for a year outside
    1..9999, whatever the week; for a year within, [TypeError] for a week
    that is null, text, a list or a record, and [OverflowError] for an
    integer week whose seven days do not all lie within the dates that
    [datetime] has; a Boolean week counts as the integer 1 or 0. *)
Theorem calculate_week_dates_errors :
  forall (B : Builtins) (year : Z) (week : json),
    (year < 1 \/ 9999 < year ->
     calculate_week_dates year week = Raise ValueError)
    /\ (1 <= year <= 9999 ->
        match week with
        | JNull | JStr _ | JList _ | JDict _ =>
            calculate_week_dates year week = Raise TypeError
        | JBool b =>
            calculate_week_dates year week
            = calculate_week_dates year (JInt (if b then 1 else 0))
        | JInt w =>
            monday_of_week year w < 1
            \/ MAXORDINAL < monday_of_week year w + 6 ->
            calculate_week_dates year week = Raise OverflowError
        | JFloat _ => True
        end).
Proof.
  intros B year week. split.
  - intros Hy. unfold calculate_week_dates, datetime, MINYEAR, MAXYEAR.
    destruct Hy as [Hy|Hy].
    + replace (1 <=? year) with false by (symmetry; apply Z.leb_gt; lia).
      reflexivity.
    + replace (year <=? 9999) with false by (symmetry; apply Z.leb_gt; lia).
      rewrite andb_false_r. reflexivity.
  - intros Hy. unfold calculate_week_dates.
    destruct (january_4 Hy) as [J Jb]. rewrite J. cbn [rbind].
    pose proof (week_1_monday_bounds Hy) as Wb.
    assert (E1 : ymd2ord year 1 4 + - weekday (ymd2ord year 1 4)
                 = week_1_monday year) by (unfold week_1_monday; lia).
    rewrite date_add_in_range by (rewrite E1; unfold MAXORDINAL; lia).
    cbn [rbind]. rewrite E1.
    destruct week as [|b|w|f|s|l|d]; try reflexivity.
    intros Hw. cbn [timedelta_weeks]. unfold timedelta_days.
    destruct (Z.abs (7 * (w - 1)) <=? 999999999); [|reflexivity].
    cbn [rbind].
    destruct (date_add (week_1_monday year) (7 * (w - 1))) as [first|e] eqn:D.
    + apply date_add_ok in D. destruct D as [-> D]. cbn [rbind].
      fold (monday_of_week year w) in *.
      destruct (week_days DAY_ORDER (monday_of_week year w) 0)
        as [dates|e] eqn:W.
      * exfalso. assert (N : DAY_ORDER <> []) by discriminate.
        pose proof (@week_days_bounds _ _ _ _ W N) as Hb.
        unfold DAY_ORDER in Hb. cbn [List.length] in Hb. lia.
      * now rewrite (@week_days_overflow _ _ _ _ W).
    + revert D. unfold date_add. cbv zeta.
      destruct (_ && _)%bool; [discriminate|]. intros E. now injection E as <-.
Qed.

Lemma calculate_week_dates_errors_witness :
  calculate_week_dates (B:=latin1) 0 (JInt 1) = Raise ValueError
  /\ calculate_week_dates (B:=latin1) 2025 (JStr (lit "1")) = Raise TypeError
  /\ calculate_week_dates (B:=latin1) 9999 (JInt 53) = Raise OverflowError.
Proof.
  split; [|split].
  - apply (proj1 (@calculate_week_dates_errors latin1 0 (JInt 1))). lia.
  - apply (proj2 (@calculate_week_dates_errors latin1 2025 (JStr (lit "1")))).
    lia.
  - apply (proj2 (@calculate_week_dates_errors latin1 9999 (JInt 53))).
    + lia.
    + right. vm_compute. reflexivity.
Defined.

(* ================================================================== *)
(** * Listings with entries that have no name                         *)
(* ================================================================== *)

Lemma find_recipe_unnamed {B : Builtins} (q : str) (before : list json)
    (bad : json) (after : list json) :
  recipe_name bad = None ->
  (forall y, In y before ->
             exists n, recipe_name y = Some n /\ ~ same_name n q) ->
  find_recipe (before ++ bad :: after) (strip (str_lower q))
  = Raise AttributeError.
Proof.
  intros Hb. induction before as [|y before IH]; intros H.
  - cbn [app find_recipe]. destruct bad as [| | | | | |d]; try reflexivity.
    cbn [py_get rbind]. unfold recipe_name in Hb.
    destruct (dict_get d (lit "name") (JStr [])); try reflexivity.
    discriminate.
  - cbn [app find_recipe].
    destruct (H y (or_introl eq_refl)) as (n & R & S).
    destruct y as [| | | | | |d]; try discriminate. cbn [py_get rbind].
    unfold recipe_name in R.
    destruct (dict_get d (lit "name") (JStr [])); try discriminate.
    injection R as ->. cbn [py_lower rbind].
    destruct (str_eqb _ _) eqn:E.
    + apply str_eqb_eq in E. now contradiction S.
    + apply IH. intros z Hz. apply H. now right.
Qed.

(** X23: with a listing that arrived, [get_recipe_by_name] raises
    [AttributeError] when the response is not a JSON object, returns None
    when the object has no [items], and raises [AttributeError] at the first
    listed entry that is not a record with a name that is text, if no entry
    before it has the name looked for, whatever follows it. *)
Theorem recipe_lookup_needs_named_records :
  forall (B : Builtins) (srv : server) (q : str) (t : list request)
         (status : Z) (data : json),
    srv t recipes_listing = Response status (Json data) ->
    raise_for_status status = false ->
    (is_dict data = false ->
     get_recipe_by_name srv (JStr q) t
     = (Raise AttributeError, t ++ [recipes_listing]))
    /\ (forall d,
          data = JDict d -> dict_find (lit "items") d = None ->
          get_recipe_by_name srv (JStr q) t
          = (Ok JNull, t ++ [recipes_listing]))
    /\ (forall d before bad after,
          data = JDict d ->
          dict_find (lit "items") d = Some (JList (before ++ bad :: after)) ->
          recipe_name bad = None ->
          (forall y, In y before ->
                     exists n, recipe_name y = Some n /\ ~ same_name n q) ->
          get_recipe_by_name srv (JStr q) t
          = (Raise AttributeError, t ++ [recipes_listing])).
Proof.
  intros B srv q t status data R E.
  assert (G : get_recipes srv t
              = (py_get data (lit "items") (JList []), t ++ [recipes_listing])).
  { rewrite get_recipes_reply, R, E. destruct data; reflexivity. }
  unfold get_recipe_by_name, bind. rewrite G. split; [|split].
  - destruct data; try reflexivity. discriminate.
  - intros d -> F. cbn [py_get]. unfold dict_get. rewrite F. reflexivity.
  - intros d before bad after -> F Hb Hy. cbn [py_get]. unfold dict_get.
    rewrite F. unfold lift. cbn [py_lower py_iter].
    now rewrite find_recipe_unnamed.
Qed.

Lemma recipe_lookup_needs_named_records_witness :
  let listed := [JDict [(lit "id", JStr (lit "1")); (lit "name", JStr (lit "Leves"))];
                 JDict [(lit "id", JStr (lit "2")); (lit "name", JNull)];
                 JDict [(lit "id", JStr (lit "3")); (lit "name", JStr (lit "Zabkása"))]] in
  get_recipe_by_name (B:=latin1)
    (always 200 (JDict [(lit "items", JList listed)])) (JStr (lit "Zabkása")) []
  = (Raise AttributeError, [recipes_listing])
  /\ get_recipe_by_name (B:=latin1) (always 200 (JDict [])) (JStr (lit "Zabkása")) []
     = (Ok JNull, [recipes_listing])
  /\ get_recipe_by_name (B:=latin1) (always 200 (JList listed))
       (JStr (lit "Zabkása")) []
     = (Raise AttributeError, [recipes_listing]).
Proof.
  intros listed. split; [|split].
  - apply (proj2 (proj2 (@recipe_lookup_needs_named_records latin1
             (always 200 (JDict [(lit "items", JList listed)]))
             (lit "Zabkása") [] 200 _ eq_refl eq_refl))
             [(lit "items", JList listed)]
             [JDict [(lit "id", JStr (lit "1")); (lit "name", JStr (lit "Leves"))]]
             (JDict [(lit "id", JStr (lit "2")); (lit "name", JNull)])
             [JDict [(lit "id", JStr (lit "3")); (lit "name", JStr (lit "Zabkása"))]]
             eq_refl eq_refl eq_refl).
    intros y [<-|[]]. exists (lit "Leves"). split; [reflexivity|].
    vm_compute. discriminate.
  - apply (proj1 (proj2 (@recipe_lookup_needs_named_records latin1
             (always 200 (JDict [])) (lit "Zabkása") [] 200 _ eq_refl eq_refl))
             [] eq_refl eq_refl).
  - apply (proj1 (@recipe_lookup_needs_named_records latin1
             (always 200 (JList listed)) (lit "Zabkása") [] 200 _ eq_refl
             eq_refl)).
    reflexivity.
Defined.

(* ================================================================== *)
(** * A well-formed menu against the store that persists              *)
(* ================================================================== *)






Section WellFormed.
Context {B : Builtins} (init : store).

Let srv : server := persistent_store init.




End WellFormed.


Section WellFormedMenu.
Context {B : Builtins} (init : store).

Let srv : server := persistent_store init.




End WellFormedMenu.



(* ================================================================== *)
(** * One request per call                                            *)
(* ================================================================== *)

(** X25: every call of the client issues exactly one request, whatever the
    outcome: there is no retry and no second page. *)
Theorem api_calls_issue_one_request :
  forall (B : Builtins) (srv : server) (t : list request),
    snd (get_ingredients srv t) = t ++ [foods_listing]
    /\ snd (get_recipes srv t) = t ++ [recipes_listing]
    /\ (forall n, snd (get_ingredient_by_name srv n t) = t ++ [foods_listing])
    /\ (forall n, snd (get_recipe_by_name srv n t) = t ++ [recipes_listing])
    /\ (forall n, snd (create_ingredient srv n t) = t ++ [food_post n])
    /\ (forall p, snd (create_recipe srv p t) = t ++ [recipe_post p])
    /\ (forall date entry_type recipe_id,
          snd (create_mealplan srv date entry_type recipe_id t)
          = t ++ [mealplan_request date entry_type recipe_id]).
Proof.
  intros B srv t.
  assert (R : snd (get_recipes srv t) = t ++ [recipes_listing]).
  { rewrite get_recipes_reply.
    destruct (srv t recipes_listing) as [status b|f]; [|reflexivity].
    destruct (raise_for_status status); [reflexivity|].
    destruct b as [[]|]; reflexivity. }
  split; [|split; [exact R|split; [|split; [|split; [|split]]]]].
  - rewrite get_ingredients_reply.
    destruct (srv t foods_listing) as [status b|f]; [|reflexivity].
    destruct (raise_for_status status); [reflexivity|].
    destruct b; reflexivity.
  - intros n. apply get_ingredient_by_name_requests.
  - intros n. unfold get_recipe_by_name, bind, lift.
    destruct (get_recipes srv t) as [[l|e] t1]; cbn [snd] in R; subst t1;
      [|reflexivity].
    destruct (py_lower n); [|reflexivity].
    destruct (py_iter l); reflexivity.
  - intros n. apply create_ingredient_requests.
  - intros p. apply create_recipe_requests.
  - intros date entry_type recipe_id. apply create_mealplan_request.
Qed.
